(** * Chat-history handlers: a shallow embedding and its properties

    Two AWS Lambda handlers front one DynamoDB table that holds, per user,
    a record [{userId, chats}]:

    - [functions/rag-get-chat-detail/app.py]: GET (read one chat's
      messages) and DELETE (remove one chat), with HTTP-method detection;
    - [.aws-sam/build/RagChatGetChatsFunction/app.py]: the list of
      [{id, title}] pairs of a user's chats.

    The handlers are Python: values are dynamically typed, every operation
    may raise, and [try]/[except] decides what the caller sees.  The
    embedding keeps all three: a type [pyval] of run-time values, a
    [result] type for "returns or raises", and the table as explicit
    state threaded through the two store calls.

    Left out: the text of the log lines (an expression that a log line
    evaluates and that can raise is kept); binary floats, sets and
    [Binary] among the input values; case mapping outside ASCII in
    [str.upper]; NaN and infinite decimals, which DynamoDB does not
    store.  [json.dumps] stops at the JSON document it would print. *)

From Stdlib Require Import ZArith List String Ascii Lia Bool DecimalString.
From stdpp Require Import base option gmap strings.

Import ListNotations.
Local Open Scope string_scope.
Local Open Scope Z_scope.

(** ** Exceptions and results *)

(** The exception classes that the handlers raise or catch.  [KeyError]
    carries [str(e)], which the outer handler quotes in its 400 body. *)
Inductive exn : Type :=
| KeyError (msg : string)
| TypeError
| AttributeError
| InvalidOperation          (* decimal.InvalidOperation *)
| ClientError (msg : string). (* botocore: the store refused or is down *)

Inductive result (A : Type) : Type :=
| Ok (a : A)
| Raise (e : exn).
Arguments Ok {A} a.
Arguments Raise {A} e.

Definition rbind {A B} (m : result A) (k : A -> result B) : result B :=
  match m with
  | Ok a => k a
  | Raise e => Raise e
  end.

Notation "'do' x <- m ; k" := (rbind m (fun x => k))
  (at level 10, x name, m at level 100, k at level 200).

(** [except (KeyError, TypeError)] as the inner [try] blocks have it. *)
Definition is_key_or_type_error (e : exn) : bool :=
  match e with
  | KeyError _ | TypeError => true
  | _ => false
  end.

(** ** Decimals

    boto3 delivers every DynamoDB number as a finite [decimal.Decimal]:
    sign, coefficient and exponent, value [(-1)^sign * coef * 10^exp]. *)
Record Decimal : Type := mkDecimal {
  dsign : bool;
  dcoef : Z;     (* non-negative *)
  dexp : Z
}.

(** Number of decimal digits of a coefficient, [len(self._int)]. *)
Fixpoint ndigits (fuel : nat) (c : Z) : Z :=
  match fuel with
  | O => 1
  | S fuel' => if c <? 10 then 1 else 1 + ndigits fuel' (c / 10)
  end.

Definition digits (c : Z) : Z := ndigits (Z.to_nat (Z.log2 c)) c.

(** [Decimal.adjusted()]. *)
Definition adjusted (d : Decimal) : Z := dexp d + digits (dcoef d) - 1.

(** Precision of the default arithmetic context, [getcontext().prec]. *)
Definition PREC : Z := 28.

(** ** Run-time values *)

#[warnings="-register-all"]
Inductive pyval : Type :=
| PNone
| PBool (b : bool)
| PInt (z : Z)
| PDec (d : Decimal)
| PStr (s : string)
| PList (l : list pyval)
| PDict (kv : list (string * pyval)).

(** A [dict] keeps insertion order; lookup finds the binding of a key. *)
Fixpoint dict_lookup (k : string) (kv : list (string * pyval)) : option pyval :=
  match kv with
  | [] => None
  | (k', v) :: rest => if String.eqb k k' then Some v else dict_lookup k rest
  end.

Definition dict_keys (kv : list (string * pyval)) : list string := map fst kv.

(** [d[k] = v]: overwrite in place, or append a new key. *)
Fixpoint dict_set (k : string) (v : pyval) (kv : list (string * pyval))
  : list (string * pyval) :=
  match kv with
  | [] => [(k, v)]
  | (k', v') :: rest =>
      if String.eqb k k' then (k, v) :: rest else (k', v') :: dict_set k v rest
  end.

(** Exact value comparison of two decimals. *)
Definition dec_signed (d : Decimal) : Z :=
  if dsign d then - dcoef d else dcoef d.

Definition dec_eqb (a b : Decimal) : bool :=
  let e := Z.min (dexp a) (dexp b) in
  (dec_signed a * 10 ^ (dexp a - e) =? dec_signed b * 10 ^ (dexp b - e)).

Definition dec_of_Z (z : Z) : Decimal :=
  mkDecimal (z <? 0) (Z.abs z) 0.

(** The numbers among the values ([bool] is a subclass of [int]). *)
Definition as_number (v : pyval) : option Decimal :=
  match v with
  | PBool b => Some (dec_of_Z (if b then 1 else 0))
  | PInt z => Some (dec_of_Z z)
  | PDec d => Some d
  | _ => None
  end.

(** [a == b]. *)
Fixpoint py_eq (a b : pyval) {struct a} : bool :=
  match a, b with
  | PNone, PNone => true
  | PStr s, PStr t => String.eqb s t
  | PList l, PList m =>
      (fix all2 (l : list pyval) (m : list pyval) {struct l} : bool :=
         match l, m with
         | [], [] => true
         | x :: l', y :: m' => py_eq x y && all2 l' m'
         | _, _ => false
         end) l m
  | PDict kv, PDict kw =>
      (length kv =? length kw)%nat &&
      (fix sub (kv : list (string * pyval)) {struct kv} : bool :=
         match kv with
         | [] => true
         | (k, v) :: kv' =>
             match dict_lookup k kw with
             | Some w => py_eq v w && sub kv'
             | None => false
             end
         end) kv
  | (PBool _ | PInt _ | PDec _), _ =>
      match as_number a, as_number b with
      | Some x, Some y => dec_eqb x y
      | _, _ => false
      end
  | _, _ => false
  end.

(** [bool(v)]. *)
Definition py_truthy (v : pyval) : bool :=
  match v with
  | PNone => false
  | PBool b => b
  | PInt z => negb (z =? 0)
  | PDec d => negb (dcoef d =? 0)
  | PStr s => negb (String.eqb s "")
  | PList l => match l with [] => false | _ => true end
  | PDict kv => match kv with [] => false | _ => true end
  end.

(** Substring test, [k in s] for two [str]. *)
Fixpoint str_contains (k s : string) : bool :=
  String.prefix k s ||
  match s with
  | EmptyString => false
  | String _ s' => str_contains k s'
  end.

(** [k in c] for a string [k]. *)
Definition py_contains (k : string) (c : pyval) : result bool :=
  match c with
  | PDict kv => Ok (match dict_lookup k kv with Some _ => true | None => false end)
  | PStr s => Ok (str_contains k s)
  | PList l => Ok (existsb (py_eq (PStr k)) l)
  | _ => Raise TypeError
  end.

(** [repr(k)] of a plain key, as [str(KeyError(k))] prints it. *)
Definition key_repr (k : string) : string := "'" ++ k ++ "'".

(** [c[k]] for a string [k]. *)
Definition py_getitem (c : pyval) (k : string) : result pyval :=
  match c with
  | PDict kv =>
      match dict_lookup k kv with
      | Some v => Ok v
      | None => Raise (KeyError (key_repr k))
      end
  | _ => Raise TypeError
  end.

(** [c.get(k, dflt)]: only [dict] has the method. *)
Definition py_get (c : pyval) (k : string) (dflt : pyval) : result pyval :=
  match c with
  | PDict kv =>
      Ok (match dict_lookup k kv with Some v => v | None => dflt end)
  | _ => Raise AttributeError
  end.

(** [list(c.keys())]. *)
Definition py_keys (c : pyval) : result (list pyval) :=
  match c with
  | PDict kv => Ok (map PStr (dict_keys kv))
  | _ => Raise AttributeError
  end.

Definition upper_ascii (a : ascii) : ascii :=
  let n := nat_of_ascii a in
  if ((97 <=? n) && (n <=? 122))%nat then ascii_of_nat (n - 32) else a.

Fixpoint upper (s : string) : string :=
  match s with
  | EmptyString => EmptyString
  | String a s' => String (upper_ascii a) (upper s')
  end.

(** [v.upper()]: only [str] has the method. *)
Definition py_upper (v : pyval) : result string :=
  match v with
  | PStr s => Ok (upper s)
  | _ => Raise AttributeError
  end.

(** [a and b] on tests that may raise: [b] runs only if [a] holds. *)
Definition py_and (a b : result bool) : result bool :=
  do x <- a; if x then b else Ok false.

Fixpoint chars (s : string) : list pyval :=
  match s with
  | EmptyString => []
  | String a s' => PStr (String a EmptyString) :: chars s'
  end.

(** The elements a [for] loop visits. *)
Definition py_iter (v : pyval) : result (list pyval) :=
  match v with
  | PList l => Ok l
  | PStr s => Ok (chars s)
  | PDict kv => Ok (map PStr (dict_keys kv))
  | _ => Raise TypeError
  end.

(** [len(v)]. *)
Definition py_len (v : pyval) : result nat :=
  match v with
  | PList l => Ok (length l)
  | PStr s => Ok (String.length s)
  | PDict kv => Ok (length kv)
  | _ => Raise TypeError
  end.

(** [str(n)] for a length. *)
Definition str_of_nat (n : nat) : string :=
  NilEmpty.string_of_uint (Nat.to_uint n).

(** ** Decimal arithmetic used by the encoder *)

(** [obj % 1 == 0] under the default context: [Decimal.__mod__] goes
    through [_divide], which signals [DivisionImpossible] (a trapped
    [InvalidOperation]) when the integer quotient needs more than [PREC]
    digits.  The remainder keeps the sign of [obj] and is rounded to the
    context afterwards, which never turns a non-zero remainder into zero,
    so the comparison with [0] looks at the remainder's coefficient. *)
Definition dec_mod1 (d : Decimal) : result Decimal :=
  let ideal_exp := Z.min (dexp d) 0 in
  let expdiff := adjusted d in
  if (dcoef d =? 0) || (expdiff <=? -2) then
    Ok (mkDecimal (dsign d) (dcoef d) ideal_exp)
  else if expdiff <=? PREC then
    let op1 := if dexp d >=? 0 then dcoef d * 10 ^ dexp d else dcoef d in
    let op2 := if dexp d >=? 0 then 1 else 10 ^ (- dexp d) in
    let q := op1 / op2 in
    let r := op1 mod op2 in
    if q <? 10 ^ PREC then Ok (mkDecimal (dsign d) r ideal_exp)
    else Raise InvalidOperation
  else Raise InvalidOperation.

Definition dec_is_zero (d : Decimal) : bool := dcoef d =? 0.

(** [int(obj)]: truncation towards zero. *)
Definition dec_to_int (d : Decimal) : Z :=
  let s := if dsign d then -1 else 1 in
  if dexp d >=? 0 then s * dcoef d * 10 ^ dexp d
  else s * (dcoef d / 10 ^ (- dexp d)).

(** ** JSON documents

    [json.dumps] returns text; the embedding stops at the document that
    the text spells.  [JFloat d] is the binary float nearest to the
    decimal [d], which [float(obj)] computes: its rounding is not
    modelled. *)
#[warnings="-register-all"]
Inductive json : Type :=
| JNull
| JBool (b : bool)
| JInt (z : Z)
| JFloat (d : Decimal)
| JStr (s : string)
| JArr (l : list json)
| JObj (kv : list (string * json)).

(** What [default] hands back to the encoder. *)
Inductive encoded : Type :=
| EInt (z : Z)
| EFloat (d : Decimal).

(** [DecimalEncoder.default(obj)] for a [Decimal]. *)
Definition DecimalEncoder_default (obj : Decimal) : result encoded :=
  do r <- dec_mod1 obj;
  if dec_is_zero r then Ok (EInt (dec_to_int obj)) else Ok (EFloat obj).

(** [JSONEncoder.default(obj)]: every object handed to it is refused. *)
Definition JSONEncoder_default (obj : Decimal) : result encoded :=
  Raise TypeError.

Definition json_of_encoded (e : encoded) : json :=
  match e with
  | EInt z => JInt z
  | EFloat d => JFloat d
  end.

(** [json.dumps(v, cls=...)], the encoder's [default] as a parameter. *)
Fixpoint json_dumps (dflt : Decimal -> result encoded) (v : pyval)
  : result json :=
  match v with
  | PNone => Ok JNull
  | PBool b => Ok (JBool b)
  | PInt z => Ok (JInt z)
  | PStr s => Ok (JStr s)
  | PDec d => do e <- dflt d; Ok (json_of_encoded e)
  | PList l =>
      do js <- (fix go (l : list pyval) : result (list json) :=
                  match l with
                  | [] => Ok []
                  | x :: l' =>
                      do j <- json_dumps dflt x;
                      do js <- go l';
                      Ok (j :: js)
                  end) l;
      Ok (JArr js)
  | PDict kv =>
      do js <- (fix go (kv : list (string * pyval))
                  : result (list (string * json)) :=
                  match kv with
                  | [] => Ok []
                  | (k, x) :: kv' =>
                      do j <- json_dumps dflt x;
                      do js <- go kv';
                      Ok ((k, j) :: js)
                  end) kv;
      Ok (JObj js)
  end.

Arguments json_dumps : simpl never.

(** The two loops inside [json_dumps], by name. *)
Fixpoint dumps_items (dflt : Decimal -> result encoded) (l : list pyval)
  : result (list json) :=
  match l with
  | [] => Ok []
  | x :: l' =>
      do j <- json_dumps dflt x;
      do js <- dumps_items dflt l';
      Ok (j :: js)
  end.

Fixpoint dumps_fields (dflt : Decimal -> result encoded)
    (kv : list (string * pyval)) : result (list (string * json)) :=
  match kv with
  | [] => Ok []
  | (k, x) :: kv' =>
      do j <- json_dumps dflt x;
      do js <- dumps_fields dflt kv';
      Ok ((k, j) :: js)
  end.

(** ** Responses *)

(** The [body] of a response: the empty text of the preflight answer, or
    the text of a JSON document. *)
Inductive body_text : Type :=
| Text (s : string)
| JsonText (j : json).

Record Response : Type := mkResponse {
  statusCode : Z;
  headers : list (string * string);
  body : body_text
}.

(** ** The store, as the handlers call it

    [chat_table.get_item(Key=...)] and [chat_table.update_item(Key=...,
    UpdateExpression=..., ExpressionAttributeValues=...)]: each call
    returns or raises and may change the table. *)
Class Store (St : Type) : Type := {
  get_item : pyval -> St -> result pyval * St;
  update_item : pyval -> string -> pyval -> St -> result pyval * St
}.

(** [event['requestContext']['authorizer']['jwt']['claims']['sub']],
    the expression both handlers read the caller's identity with. *)
Definition claims_sub (event : pyval) : result pyval :=
  do rc <- py_getitem event "requestContext";
  do au <- py_getitem rc "authorizer";
  do jwt <- py_getitem au "jwt";
  do claims <- py_getitem jwt "claims";
  py_getitem claims "sub".

(** [{'userId': user_id}]. *)
Definition user_key (user_id : pyval) : pyval := PDict [("userId", user_id)].

(** ** functions/rag-get-chat-detail/app.py *)
Module ChatDetail.

Definition ATTACHMENT_NOTE : string := "添付ファイルの処理中にエラーが発生しました".
Definition MESSAGE_ERROR_CONTENT : string := "メッセージの処理中にエラーが発生しました".
Definition MESSAGE_ERROR_NOTE : string := "メッセージ処理エラー".

Definition cors_headers : list (string * string) :=
  [("Content-Type", "application/json");
   ("Access-Control-Allow-Origin", "*");
   ("Access-Control-Allow-Headers", "Content-Type,Authorization");
   ("Access-Control-Allow-Methods", "GET,DELETE,OPTIONS")].

(** [if k in src: dst[k] = src[k]]. *)
Definition copy_if_present (k : string) (src : pyval)
    (dst : list (string * pyval)) : result (list (string * pyval)) :=
  do has <- py_contains k src;
  if has then do v <- py_getitem src k; Ok (dict_set k v dst) else Ok dst.

(** [if k in src and src[k]: dst[k] = src[k]]. *)
Definition copy_if_truthy (k : string) (src : pyval)
    (dst : list (string * pyval)) : result (list (string * pyval)) :=
  do has <- py_contains k src;
  if has then
    do v <- py_getitem src k;
    if py_truthy v then do v' <- py_getitem src k; Ok (dict_set k v' dst)
    else Ok dst
  else Ok dst.

(** The [try] block of [process_attachment]. *)
Definition process_attachment_try (attachment : pyval) : result pyval :=
  do fileName <- py_get attachment "fileName" (PStr "");
  do fileType <- py_get attachment "fileType" (PStr "");
  do size <- py_get attachment "size" (PInt 0);
  let pa := [("fileName", fileName); ("fileType", fileType); ("size", size)] in
  do pa <- copy_if_truthy "s3Key" attachment pa;
  do pa <- copy_if_truthy "data" attachment pa;
  do pa <- copy_if_present "displayUrl" attachment pa;
  do pa <- copy_if_present "note" attachment pa;
  Ok (PDict pa).

(** The [except Exception] block of [process_attachment]. *)
Definition process_attachment_except (attachment : pyval) : result pyval :=
  do fileName <- py_get attachment "fileName" (PStr "Unknown file");
  do fileType <- py_get attachment "fileType" (PStr "");
  do size <- py_get attachment "size" (PInt 0);
  Ok (PDict [("fileName", fileName); ("fileType", fileType); ("size", size);
             ("note", PStr ATTACHMENT_NOTE)]).

Definition process_attachment (attachment : pyval) : result pyval :=
  if negb (py_truthy attachment) then Ok PNone
  else
    match process_attachment_try attachment with
    | Ok pa => Ok pa
    | Raise _ => process_attachment_except attachment
    end.

(** The [try] block of the message loop of [get_chat_messages]. *)
Definition process_message (message : pyval) : result pyval :=
  do id <- py_get message "id" (PStr "");
  do role <- py_get message "role" (PStr "");
  do content <- py_get message "content" (PStr "");
  let pm := [("id", id); ("role", role); ("content", content)] in
  do pm <- copy_if_present "mode" message pm;
  do pm <- copy_if_present "model" message pm;
  do has <- py_contains "attachment" message;
  do att <- (if has then py_getitem message "attachment" else Ok (PBool false));
  if py_truthy att then
    do a <- py_getitem message "attachment";
    do processed_attachment <- process_attachment a;
    if py_truthy processed_attachment
    then Ok (PDict (dict_set "attachment" processed_attachment pm))
    else Ok (PDict pm)
  else Ok (PDict pm).

(** The [except Exception] block of the message loop; [n] is
    [len(processed_messages)].  The first [get] is the one inside the
    log line. *)
Definition message_placeholder (message : pyval) (n : nat) : result pyval :=
  do _ <- py_get message "id" (PStr "unknown");
  do id <- py_get message "id" (PStr (str_of_nat n));
  do role <- py_get message "role" (PStr "unknown");
  do content <- py_get message "content" (PStr MESSAGE_ERROR_CONTENT);
  Ok (PDict [("id", id); ("role", role); ("content", content);
             ("note", PStr MESSAGE_ERROR_NOTE)]).

(** The message loop: [processed_messages] is the accumulator. *)
Fixpoint process_messages (target_messages processed_messages : list pyval)
  : result (list pyval) :=
  match target_messages with
  | [] => Ok processed_messages
  | message :: rest =>
      do pm <- match process_message message with
               | Ok pm => Ok pm
               | Raise _ => message_placeholder message (length processed_messages)
               end;
      process_messages rest (processed_messages ++ [pm])
  end.

(** The search loop: [target_messages] starts as [[]] and the first chat
    whose [id] equals [chat_id] ends the loop. *)
Fixpoint find_target_messages (all_chats : list pyval) (chat_id : pyval)
  : result pyval :=
  match all_chats with
  | [] => Ok (PList [])
  | chat :: rest =>
      do id <- py_get chat "id" PNone;
      if py_eq id chat_id then py_get chat "messages" (PList [])
      else find_target_messages rest chat_id
  end.

(** [get_chat_messages] after the read: [None] is Python's [None]. *)
Definition messages_of_response (response chat_id : pyval)
  : result (option (list pyval)) :=
  do item <- py_get response "Item" (PDict []);
  do all_chats <- py_get item "chats" (PList []);
  do chats <- py_iter all_chats;
  do target_messages <- find_target_messages chats chat_id;
  if negb (py_truthy target_messages) then Ok None
  else
    do msgs <- py_iter target_messages;
    do processed_messages <- process_messages msgs [];
    Ok (Some processed_messages).

(** The list comprehension of [delete_chat]. *)
Fixpoint updated_chats (all_chats : list pyval) (chat_id : pyval)
  : result (list pyval) :=
  match all_chats with
  | [] => Ok []
  | chat :: rest =>
      do id <- py_get chat "id" PNone;
      do rest' <- updated_chats rest chat_id;
      Ok (if negb (py_eq id chat_id) then chat :: rest' else rest')
  end.

(** [delete_chat] between the read and the write: [None] stands for
    [return False], [Some l] for the list handed to [update_item]. *)
Definition chats_to_write (response chat_id : pyval)
  : result (option (list pyval)) :=
  do has <- py_contains "Item" response;
  if negb has then Ok None
  else
    do item <- py_getitem response "Item";
    do all_chats <- py_get item "chats" (PList []);
    do chats <- py_iter all_chats;
    do updated <- updated_chats chats chat_id;
    do n <- py_len all_chats;
    if (length updated =? n)%nat then Ok None else Ok (Some updated).

(** *** [lambda_handler] *)

(** The chain of [if]/[elif] that looks for the method; [PNone] is the
    initial [http_method = None]. *)
Definition probe_http_method (event : pyval) : result pyval :=
  do c1 <- py_contains "httpMethod" event;
  if c1 then py_getitem event "httpMethod"
  else
    do c2 <- py_and (py_contains "requestContext" event)
                    (do rc <- py_getitem event "requestContext";
                     py_contains "httpMethod" rc);
    if c2 then
      do rc <- py_getitem event "requestContext"; py_getitem rc "httpMethod"
    else
      do c3 <- py_and (py_contains "requestContext" event)
                 (py_and (do rc <- py_getitem event "requestContext";
                          py_contains "http" rc)
                         (do rc <- py_getitem event "requestContext";
                          do http <- py_getitem rc "http";
                          py_contains "method" http));
      if c3 then
        do rc <- py_getitem event "requestContext";
        do http <- py_getitem rc "http";
        py_getitem http "method"
      else
        do c4 <- py_contains "resource" event;
        if c4 then do _ <- py_getitem event "resource"; Ok PNone
        else Ok PNone.

(** [http_method] after [if http_method: ... else: ...]: [Some M] is the
    upper-cased method, [None] a method that is missing or falsy.  The
    [else] branch only logs, but its log lines evaluate [event.keys()]
    and [event['requestContext'].keys()]. *)
Definition resolve_http_method (event : pyval) : result (option string) :=
  do m <- probe_http_method event;
  if py_truthy m then do u <- py_upper m; Ok (Some u)
  else
    do _ <- py_keys event;
    do has_rc <- py_contains "requestContext" event;
    if has_rc then
      do rc <- py_getitem event "requestContext";
      do _ <- py_keys rc;
      Ok None
    else Ok None.

(** The 400 body of an undetermined method. *)
Definition method_not_found_body (event : pyval) : result json :=
  do eventKeys <- py_keys event;
  do has_rc <- py_contains "requestContext" event;
  do requestContextKeys <-
    (if has_rc then
       do rc <- py_get event "requestContext" (PDict []);
       do ks <- py_keys rc; Ok (PList ks)
     else Ok PNone);
  json_dumps DecimalEncoder_default
    (PDict [("error", PStr "HTTP method not found in request");
            ("debug", PDict [("eventKeys", PList eventKeys);
                             ("requestContextKeys", requestContextKeys)])]).

(** [event['pathParameters']['chatId']]. *)
Definition path_chat_id (event : pyval) : result pyval :=
  do pp <- py_getitem event "pathParameters";
  py_getitem pp "chatId".

(** [json.dumps({'error': msg}, cls=DecimalEncoder)]: strings only, so
    the encoder's [default] is never consulted. *)
Definition error_body (msg : string) : body_text :=
  JsonText (JObj [("error", JStr msg)]).

Definition json_response (status : Z) (b : body_text) : Response :=
  mkResponse status cors_headers b.

Definition preflight_response : Response := json_response 200 (Text "").

Definition deleted_body : body_text :=
  JsonText (JObj [("success", JBool true);
                  ("message", JStr "Chat deleted successfully")]).

Section WithStore.
Context {St : Type} `{Store St}.

Definition get_chat_messages (user_id chat_id : pyval) (s : St)
  : result (option (list pyval)) * St :=
  let '(r, s1) := get_item (user_key user_id) s in
  (do response <- r; messages_of_response response chat_id, s1).

Definition delete_chat (user_id chat_id : pyval) (s : St)
  : result bool * St :=
  let '(r, s1) := get_item (user_key user_id) s in
  match (do response <- r; chats_to_write response chat_id) with
  | Raise e => (Raise e, s1)
  | Ok None => (Ok false, s1)
  | Ok (Some updated) =>
      let '(w, s2) := update_item (user_key user_id) "SET chats = :chats"
                        (PDict [(":chats", PList updated)]) s1 in
      (do _ <- w; Ok true, s2)
  end.

(** The GET branch, once [user_id] is known. *)
Definition handle_get (event user_id : pyval) (s : St)
  : result Response * St :=
  match path_chat_id event with
  | Raise e =>
      if is_key_or_type_error e then
        (do _ <- py_get event "pathParameters" (PDict []);
         Ok (json_response 400
               (error_body "Chat ID not found in path parameters")), s)
      else (Raise e, s)
  | Ok chat_id =>
      let '(r, s1) := get_chat_messages user_id chat_id s in
      (do messages <- r;
       match messages with
       | None => Ok (json_response 404 (error_body "Chat not found"))
       | Some ms =>
           do j <- json_dumps DecimalEncoder_default (PList ms);
           Ok (json_response 200 (JsonText j))
       end, s1)
  end.

(** The DELETE branch, once [user_id] is known. *)
Definition handle_delete (event user_id : pyval) (s : St)
  : result Response * St :=
  match path_chat_id event with
  | Raise e =>
      if is_key_or_type_error e then
        (do _ <- py_get event "pathParameters" (PDict []);
         Ok (json_response 400
               (error_body "Chat ID not found in path parameters")), s)
      else (Raise e, s)
  | Ok chat_id =>
      let '(r, s1) := delete_chat user_id chat_id s in
      (do success <- r;
       if negb success then
         Ok (json_response 404
               (error_body "Chat not found or already deleted"))
       else Ok (json_response 200 deleted_body), s1)
  end.

(** The body of the outer [try]. *)
Definition handler_try (event : pyval) (s : St) : result Response * St :=
  match resolve_http_method event with
  | Raise e => (Raise e, s)
  | Ok http_method =>
      if match http_method with
         | Some m => String.eqb m "OPTIONS"
         | None => false
         end
      then (Ok preflight_response, s)
      else
        match http_method with
        | None =>
            (do j <- method_not_found_body event;
             Ok (json_response 400 (JsonText j)), s)
        | Some m =>
            match claims_sub event with
            | Raise e =>
                if is_key_or_type_error e then
                  (do _ <- py_get event "requestContext" (PDict []);
                   Ok (json_response 401
                         (error_body "Authentication failed")), s)
                else (Raise e, s)
            | Ok user_id =>
                if String.eqb m "GET" then handle_get event user_id s
                else if String.eqb m "DELETE"
                     then handle_delete event user_id s
                     else (Ok (json_response 405
                                 (error_body ("Method " ++ m ++ " not allowed"))),
                           s)
            end
        end
  end.

(** [lambda_handler(event, context)]: the two outer [except] clauses. *)
Definition lambda_handler (event : pyval) (s : St) : Response * St :=
  let '(r, s1) := handler_try event s in
  match r with
  | Ok resp => (resp, s1)
  | Raise (KeyError msg) =>
      (json_response 400
         (error_body ("Missing required parameters: " ++ msg)), s1)
  | Raise _ =>
      (json_response 500 (error_body "Internal server error"), s1)
  end.

End WithStore.

End ChatDetail.

(** ** .aws-sam/build/RagChatGetChatsFunction/app.py *)
Module ChatList.

Definition success_headers : list (string * string) :=
  [("Content-Type", "application/json");
   ("Access-Control-Allow-Origin", "*");
   ("Access-Control-Allow-Headers", "Content-Type,Authorization");
   ("Access-Control-Allow-Methods", "GET,OPTIONS")].

Definition failure_headers : list (string * string) :=
  [("Content-Type", "application/json");
   ("Access-Control-Allow-Origin", "*")].

(** The response of the [except Exception] clause. *)
Definition failure_response : Response :=
  mkResponse 500 failure_headers
    (JsonText (JObj [("error", JStr "Internal server error")])).

(** The loop that builds [chat_list_for_sidebar]. *)
Fixpoint chat_list_for_sidebar (all_chats : list pyval) : result (list pyval) :=
  match all_chats with
  | [] => Ok []
  | chat :: rest =>
      do id <- py_get chat "id" PNone;
      do title <- py_get chat "title" PNone;
      do rest' <- chat_list_for_sidebar rest;
      Ok (PDict [("id", id); ("title", title)] :: rest')
  end.

(** The handler after the read. *)
Definition response_of (response : pyval) : result Response :=
  do item <- py_get response "Item" (PDict []);
  do all_chats <- py_get item "chats" (PList []);
  do chats <- py_iter all_chats;
  do l <- chat_list_for_sidebar chats;
  do j <- json_dumps JSONEncoder_default (PList l);
  Ok (mkResponse 200 success_headers (JsonText j)).

Section WithStore.
Context {St : Type} `{Store St}.

Definition handler_try (event : pyval) (s : St) : result Response * St :=
  match claims_sub event with
  | Raise e => (Raise e, s)
  | Ok user_id =>
      let '(r, s1) := get_item (user_key user_id) s in
      (do response <- r; response_of response, s1)
  end.

(** [lambda_handler(event, context)]. *)
Definition lambda_handler (event : pyval) (s : St) : Response * St :=
  let '(r, s1) := handler_try event s in
  match r with
  | Ok resp => (resp, s1)
  | Raise _ => (failure_response, s1)
  end.

End WithStore.

End ChatList.

(** ** A reference table

    The DynamoDB table behind [chat_table], as far as the handlers can
    tell: one item (a map of attributes) per [userId], a point read that
    answers [{'Item': item}] or [{}], and [SET chats = :chats], which
    overwrites that one attribute (creating the item if there is none).
    The table also records every call it receives, so that "no read" and
    "no write" are statements about [calls]. *)
Inductive call : Type :=
| GetItem (key : pyval)
| UpdateItem (key : pyval) (expr : string) (vals : pyval).

Record Table : Type := mkTable {
  items : gmap string (list (string * pyval));
  calls : list call;
  available : bool
}.

(** The partition key of [{'userId': uid}], a string attribute. *)
Definition key_user_id (key : pyval) : option string :=
  match key with
  | PDict [(k, PStr uid)] => if String.eqb k "userId" then Some uid else None
  | _ => None
  end.

Definition record_call (c : call) (t : Table) : Table :=
  mkTable (items t) (calls t ++ [c]) (available t).

Definition table_get_item (key : pyval) (t : Table) : result pyval * Table :=
  let t1 := record_call (GetItem key) t in
  if negb (available t) then (Raise (ClientError "ServiceUnavailable"), t1)
  else
    match key_user_id key with
    | None => (Raise (ClientError "ValidationException"), t1)
    | Some uid =>
        (Ok (match items t !! uid with
             | Some item => PDict [("Item", PDict item)]
             | None => PDict []
             end), t1)
    end.

Definition table_update_item (key : pyval) (expr : string) (vals : pyval)
    (t : Table) : result pyval * Table :=
  let t1 := record_call (UpdateItem key expr vals) t in
  if negb (available t) then (Raise (ClientError "ServiceUnavailable"), t1)
  else
    match key_user_id key, String.eqb expr "SET chats = :chats",
          py_getitem vals ":chats" with
    | Some uid, true, Ok v =>
        let old := match items t !! uid with
                   | Some item => item
                   | None => [("userId", PStr uid)]
                   end in
        (Ok (PDict []),
         mkTable (<[uid := dict_set "chats" v old]> (items t))
                 (calls t1) (available t))
    | _, _, _ => (Raise (ClientError "ValidationException"), t1)
    end.

#[export] Instance table_store : Store Table := {|
  get_item := table_get_item;
  update_item := table_update_item
|}.

(** The writes among the calls a table has received. *)
Definition is_write (c : call) : bool :=
  match c with
  | UpdateItem _ _ _ => true
  | GetItem _ => false
  end.

Definition writes (t : Table) : list call := List.filter is_write (calls t).

(** The [chats] attribute a read of [uid] delivers:
    [response.get('Item', {}).get('chats', [])]. *)
Definition stored_chats (t : Table) (uid : string) : pyval :=
  match items t !! uid with
  | Some item =>
      match dict_lookup "chats" item with
      | Some c => c
      | None => PList []
      end
  | None => PList []
  end.

(** ** Vocabulary of the statements *)

Definition is_dict (v : pyval) : bool :=
  match v with
  | PDict _ => true
  | _ => false
  end.

(** [chat.get('id') == chat_id], the test both loops apply to a chat. *)
Definition has_id (chat_id chat : pyval) : bool :=
  match py_get chat "id" PNone with
  | Ok id => py_eq id chat_id
  | Raise _ => false
  end.

(** The three places the method may sit in, in the order of section 4.2
    of the specification: at the top level, one level inside the
    invocation metadata, two levels inside. *)
Definition METHOD_PATHS : list (list string) :=
  [["httpMethod"];
   ["requestContext"; "httpMethod"];
   ["requestContext"; "http"; "method"]].

(** A path yields a value when each of its fields is present. *)
Fixpoint path_lookup (path : list string) (v : pyval) : option pyval :=
  match path with
  | [] => Some v
  | k :: rest =>
      match v with
      | PDict kv =>
          match dict_lookup k kv with
          | Some v' => path_lookup rest v'
          | None => None
          end
      | _ => None
      end
  end.

Fixpoint first_yield (paths : list (list string)) (event : pyval)
  : option pyval :=
  match paths with
  | [] => None
  | p :: ps =>
      match path_lookup p event with
      | Some v => Some v
      | None => first_yield ps event
      end
  end.

(** The specification's ordered probe: the first path that yields. *)
Definition spec_probe_method (event : pyval) : option pyval :=
  first_yield METHOD_PATHS event.

(** An event whose invocation metadata are objects where present:
    [requestContext] and [requestContext.http]. *)
Definition event_shaped (event : pyval) : bool :=
  match event with
  | PDict kv =>
      match dict_lookup "requestContext" kv with
      | None => true
      | Some (PDict rc) =>
          match dict_lookup "http" rc with
          | None => true
          | Some http => is_dict http
          end
      | Some _ => false
      end
  | _ => false
  end.

(** The field names of an object, [list(v.keys())]. *)
Definition field_names (v : pyval) : list string :=
  match v with
  | PDict kv => dict_keys kv
  | _ => []
  end.

(** The document of the 400 answer to an undetermined method. *)
Definition method_not_found_doc (event : pyval) : json :=
  JObj [("error", JStr "HTTP method not found in request");
        ("debug",
         JObj [("eventKeys", JArr (map JStr (field_names event)));
               ("requestContextKeys",
                match path_lookup ["requestContext"] event with
                | Some rc => JArr (map JStr (field_names rc))
                | None => JNull
                end)])].

(** [v.get(k, dflt)] where [v] is known to be an object. *)
Definition field (k : string) (dflt v : pyval) : pyval :=
  match py_get v k dflt with
  | Ok x => x
  | Raise _ => dflt
  end.

(** The message that stands in for one whose sanitization failed, at
    position [n] of the output. *)
Definition placeholder (message : pyval) (n : nat) : pyval :=
  PDict [("id", field "id" (PStr (str_of_nat n)) message);
         ("role", field "role" (PStr "unknown") message);
         ("content",
          field "content" (PStr ChatDetail.MESSAGE_ERROR_CONTENT) message);
         ("note", PStr ChatDetail.MESSAGE_ERROR_NOTE)].

(** What the message loop leaves at position [n] for [message]. *)
Definition sanitized (message : pyval) (n : nat) : pyval :=
  match ChatDetail.process_message message with
  | Ok pm => pm
  | Raise _ => placeholder message n
  end.

(** A value the handler's encoder can serialize. *)
Definition encodable (v : pyval) : Prop :=
  exists j, json_dumps DecimalEncoder_default v = Ok j.

Definition all_encodable (kv : list (string * pyval)) : Prop :=
  Forall (fun p => encodable (snd p)) kv.

(** What [get_chat_messages] computes from the stored chats. *)
Definition messages_of_chats (all_chats chat_id : pyval)
  : result (option (list pyval)) :=
  do chats <- py_iter all_chats;
  do target_messages <- ChatDetail.find_target_messages chats chat_id;
  if negb (py_truthy target_messages) then Ok None
  else
    do msgs <- py_iter target_messages;
    do processed_messages <- ChatDetail.process_messages msgs [];
    Ok (Some processed_messages).

(** A decimal whose value is an integer. *)
Definition dec_whole (d : Decimal) : bool :=
  (dexp d >=? 0) || (dcoef d mod 10 ^ (- dexp d) =? 0).

(** A chat with the string fields the data model gives it. *)
Definition chat_with (id title : string) (c : pyval) : Prop :=
  exists kv, c = PDict kv
             /\ dict_lookup "id" kv = Some (PStr id)
             /\ dict_lookup "title" kv = Some (PStr title).

(** The [{id, title}] pair of the chat list. *)
Definition summary (p : string * string) : json :=
  JObj [("id", JStr (fst p)); ("title", JStr (snd p))].

(** The status codes of section 6. *)
Definition STATUS_CODES : list Z := [200; 400; 401; 404; 405; 500].

(** ** Sample data

    The record of section 8 of the specification, extended with the
    cases the statements below are tried on. *)
Module Sample.

(** An HTTP API (payload v2) event: method two levels inside
    [requestContext], identity claim from the JWT authorizer. *)
Definition request (method sub chatId : string) : pyval :=
  PDict [("version", PStr "2.0");
         ("requestContext",
          PDict [("http", PDict [("method", PStr method)]);
                 ("authorizer",
                  PDict [("jwt",
                          PDict [("claims", PDict [("sub", PStr sub)])])])]);
         ("pathParameters", PDict [("chatId", PStr chatId)])].

(** The same event without an authorizer. *)
Definition anonymous_request (method chatId : string) : pyval :=
  PDict [("version", PStr "2.0");
         ("requestContext", PDict [("http", PDict [("method", PStr method)])]);
         ("pathParameters", PDict [("chatId", PStr chatId)])].

(** An event that carries no method anywhere. *)
Definition methodless_request : pyval :=
  PDict [("version", PStr "2.0"); ("requestContext", PDict [("stage", PStr "prod")])].

Definition message (id role content : string) : pyval :=
  PDict [("id", PStr id); ("role", PStr role); ("content", PStr content)].

(** A message whose attachment is a string where an object is expected. *)
Definition message_bad_attachment : pyval :=
  PDict [("id", PStr "m2"); ("role", PStr "user"); ("content", PStr "see file");
         ("attachment", PStr "report.pdf")].

(** A message whose attachment has a size of [1E+28]. *)
Definition message_huge_size : pyval :=
  PDict [("id", PStr "m1"); ("role", PStr "user"); ("content", PStr "big");
         ("attachment",
          PDict [("fileName", PStr "f.bin");
                 ("size", PDec (mkDecimal false 1 28))])].

Definition chat (id title : string) (messages : list pyval) : pyval :=
  PDict [("id", PStr id); ("title", PStr title); ("messages", PList messages)].

Definition chats_u1 : list pyval :=
  [chat "c1" "T1" [message "m1" "user" "hello"; message_bad_attachment;
                   message "m3" "assistant" "hi"];
   chat "c2" "T2" []].

(** A record that breaks the uniqueness of chat ids. *)
Definition chats_u2 : list pyval :=
  [chat "c1" "A" [message "m1" "user" "a"];
   chat "c2" "B" [message "m2" "user" "b"];
   chat "c1" "C" [message "m3" "user" "c"]].

Definition chats_u3 : list pyval := [chat "c1" "Big" [message_huge_size]].

Definition item (uid : string) (chats : list pyval) : list (string * pyval) :=
  [("userId", PStr uid); ("chats", PList chats)].

Definition table : Table :=
  mkTable (<["u1" := item "u1" chats_u1]>
             (<["u2" := item "u2" chats_u2]>
                (<["u3" := item "u3" chats_u3]> ∅)))
          [] true.

(** The table while the service is down. *)
Definition table_down : Table := mkTable (items table) [] false.

End Sample.

(** ** Further sample data *)
Module Cases.

(** An authenticated event without path parameters. *)
Definition request_without_path (method sub : string) : pyval :=
  PDict [("version", PStr "2.0");
         ("requestContext",
          PDict [("http", PDict [("method", PStr method)]);
                 ("authorizer",
                  PDict [("jwt",
                          PDict [("claims", PDict [("sub", PStr sub)])])])])].

(** A REST API (payload v1) event whose [requestContext] arrived as
    text. *)
Definition request_text_context : pyval :=
  PDict [("resource", PStr "/chats/{chatId}");
         ("requestContext", PStr "{}")].

(** A table whose role may read and may not write: [update_item] is
    refused. *)
Definition read_only_update_item (key : pyval) (expr : string) (vals : pyval)
    (t : Table) : result pyval * Table :=
  (Raise (ClientError "AccessDeniedException"),
   record_call (UpdateItem key expr vals) t).

Definition read_only_store : Store Table := {|
  get_item := table_get_item;
  update_item := read_only_update_item
|}.

(** A table whose client raises [KeyError] on every read. *)
Definition key_error_get_item (key : pyval) (t : Table)
  : result pyval * Table :=
  (Raise (KeyError "'Table'"), record_call (GetItem key) t).

Definition key_error_store : Store Table := {|
  get_item := key_error_get_item;
  update_item := table_update_item
|}.

(** An attachment with every optional field, an empty [s3Key] and a
    field the handler does not know. *)
Definition attachment_full : list (string * pyval) :=
  [("fileName", PStr "a.png"); ("fileType", PStr "image/png");
   ("size", PDec (mkDecimal false 2048 0)); ("s3Key", PStr "");
   ("data", PStr "aGVsbG8="); ("displayUrl", PStr "https://x/a.png");
   ("note", PStr "resized"); ("uploader", PStr "internal")].

Definition message_full : list (string * pyval) :=
  [("id", PStr "m9"); ("role", PStr "user"); ("content", PStr "look");
   ("mode", PStr "rag"); ("timestamp", PDec (mkDecimal false 17 8));
   ("attachment", PDict attachment_full)].

(** Chats whose ids are numbers, and one without a title. *)
Definition chats_numbered : list pyval :=
  [PDict [("id", PStr "c1")];
   PDict [("id", PDec (mkDecimal false 7 0)); ("title", PStr "seven")]].

Definition table_numbered : Table :=
  mkTable (<["u4" := Sample.item "u4" chats_numbered]>
             (<["u5" := Sample.item "u5" [PDict [("id", PStr "c1")]]]> ∅))
          [] true.

(** A REST event whose [httpMethod] is null while the HTTP API place
    carries a method. *)
Definition request_null_method : list (string * pyval) :=
  [("httpMethod", PNone);
   ("requestContext", PDict [("http", PDict [("method", PStr "GET")])])].

(** An event whose [httpMethod] is a number. *)
Definition request_numeric_method : list (string * pyval) :=
  [("httpMethod", PInt 5)].

(** A table that holds the record of u1 only. *)
Definition table_u1 : Table :=
  mkTable (<["u1" := Sample.item "u1" Sample.chats_u1]> ∅) [] true.

(** Messages of which the second is a string where a message object is
    expected. *)
Definition messages_corrupt : list pyval :=
  [Sample.message "m1" "user" "hello"; PStr "corrupt";
   Sample.message "m3" "assistant" "hi"].

Definition table_corrupt : Table :=
  mkTable (<["u6" := Sample.item "u6"
                       [Sample.chat "c1" "T1" messages_corrupt]]> ∅)
          [] true.

End Cases.

(** The response the two outer [except] clauses of the detail handler
    build for an exception. *)
Definition response_of_exception (e : exn) : Response :=
  match e with
  | KeyError msg =>
      mkResponse 400 ChatDetail.cors_headers
        (JsonText (JObj [("error",
                          JStr ("Missing required parameters: " ++ msg))]))
  | _ =>
      mkResponse 500 ChatDetail.cors_headers
        (JsonText (JObj [("error", JStr "Internal server error")]))
  end.

(** An event the method detection cannot walk: not an object, or an
    object without a top-level [httpMethod] whose [requestContext] is
    present and is not an object. *)
Definition event_malformed (event : pyval) : bool :=
  match event with
  | PDict kv =>
      match dict_lookup "httpMethod" kv, dict_lookup "requestContext" kv with
      | None, Some rc => negb (is_dict rc)
      | _, _ => false
      end
  | _ => true
  end.

(** The keys [process_attachment] may put into its result. *)
Definition ATTACHMENT_KEYS : list string :=
  ["fileName"; "fileType"; "size"; "s3Key"; "data"; "displayUrl"; "note"].

(** The keys [get_chat_messages] may put into a processed message. *)
Definition MESSAGE_KEYS : list string :=
  ["id"; "role"; "content"; "mode"; "model"; "attachment"].

(** [k in d and d[k]] as a lookup: the value if it is there and truthy. *)
Definition lookup_truthy (k : string) (kv : list (string * pyval))
  : option pyval :=
  match dict_lookup k kv with
  | Some v => if py_truthy v then Some v else None
  | None => None
  end.

(** The entry the chat list builds for a chat:
    [{'id': chat.get('id'), 'title': chat.get('title')}]. *)
Definition sidebar_entry (c : pyval) : pyval :=
  PDict [("id", field "id" PNone c); ("title", field "title" PNone c)].

(** A value the plain encoder prints as a string or as [null]. *)
Definition str_or_none (v : pyval) : bool :=
  match v with
  | PStr _ | PNone => true
  | _ => false
  end.

Definition json_str_or_null (v : pyval) : json :=
  match v with
  | PStr s => JStr s
  | _ => JNull
  end.

(** A chat object whose [id] is the string [id]. *)
Definition chat_id_is (id : string) (c : pyval) : Prop :=
  exists kv, c = PDict kv /\ dict_lookup "id" kv = Some (PStr id).

(** * Properties *)

(** ** Tactics and basic facts *)

Ltac break_match :=
  match goal with
  | |- context [match ?x with _ => _ end] =>
      lazymatch x with
      | context [match _ with _ => _ end] => fail
      | _ => destruct x eqn:?
      end
  end.

Lemma rbind_ok {A B} (m : result A) (k : A -> result B) (b : B) :
  rbind m k = Ok b -> exists a, m = Ok a /\ k a = Ok b.
Proof. destruct m as [a|e]; simpl; [eauto | discriminate]. Qed.

(** Subscripting raises [KeyError] or [TypeError] and nothing else. *)
Lemma py_getitem_raises c k e :
  py_getitem c k = Raise e -> is_key_or_type_error e = true.
Proof.
  destruct c; simpl; try (intros [= <-]; reflexivity).
  destruct (dict_lookup k kv); [discriminate | intros [= <-]; reflexivity].
Qed.

Lemma claims_sub_raises event e :
  claims_sub event = Raise e -> is_key_or_type_error e = true.
Proof.
  unfold claims_sub.
  repeat match goal with
         | |- rbind (py_getitem ?c ?k) _ = _ -> _ =>
             let H := fresh in
             destruct (py_getitem c k) eqn:H; simpl;
             [ | intros [= <-]; exact (py_getitem_raises _ _ _ H) ]
         end.
  apply py_getitem_raises.
Qed.

Lemma json_dumps_PList dflt l :
  json_dumps dflt (PList l) = do js <- dumps_items dflt l; Ok (JArr js).
Proof.
  unfold json_dumps at 1; fold json_dumps. f_equal.
  induction l as [|x l IH]; simpl; [reflexivity | now rewrite IH].
Qed.

Lemma json_dumps_PDict dflt kv :
  json_dumps dflt (PDict kv) = do js <- dumps_fields dflt kv; Ok (JObj js).
Proof.
  unfold json_dumps at 1; fold json_dumps. f_equal.
  induction kv as [|[k x] kv IH]; simpl; [reflexivity | now rewrite IH].
Qed.

Lemma json_dumps_PStr dflt s : json_dumps dflt (PStr s) = Ok (JStr s).
Proof. reflexivity. Qed.

Lemma json_dumps_PNone dflt : json_dumps dflt PNone = Ok JNull.
Proof. reflexivity. Qed.

Lemma dumps_items_strs dflt ks :
  dumps_items dflt (map PStr ks) = Ok (map JStr ks).
Proof.
  induction ks as [|k ks IH]; simpl; [reflexivity |].
  change (json_dumps dflt (PStr k)) with (Ok (A:=json) (JStr k)); simpl.
  now rewrite IH.
Qed.

Lemma dumps_items_length dflt l js :
  dumps_items dflt l = Ok js -> length js = length l.
Proof.
  revert js; induction l as [|x l IH]; simpl; intros js.
  - now intros [= <-].
  - destruct (json_dumps dflt x); simpl; [|discriminate].
    destruct (dumps_items dflt l); simpl; [|discriminate].
    intros [= <-]; simpl. f_equal. now apply IH.
Qed.

(** ** C8: every failure becomes a response *)

Lemma detail_status_in_taxonomy {St : Type} `{Store St} (event : pyval) (s : St) :
  In (statusCode (fst (ChatDetail.lambda_handler event s))) STATUS_CODES.
Proof.
  unfold ChatDetail.lambda_handler, ChatDetail.handler_try,
    ChatDetail.handle_get, ChatDetail.handle_delete,
    ChatDetail.get_chat_messages, ChatDetail.delete_chat, STATUS_CODES, rbind.
  repeat (break_match; simpl in *; subst; try discriminate);
    repeat match goal with
           | H : (_, _) = (_, _) |- _ => injection H as <- <-
           end; simpl; tauto.
Qed.

Lemma chat_list_for_sidebar_length chats l :
  ChatList.chat_list_for_sidebar chats = Ok l -> length l = length chats.
Proof.
  revert l; induction chats as [|c chats IH]; simpl; intros l.
  - now intros [= <-].
  - destruct (py_get c "id" PNone); simpl; [|discriminate].
    destruct (py_get c "title" PNone); simpl; [|discriminate].
    destruct (ChatList.chat_list_for_sidebar chats); simpl; [|discriminate].
    intros [= <-]; simpl. f_equal. now apply IH.
Qed.

Lemma list_failure_or_complete {St : Type} `{Store St} (event : pyval) (s : St) :
  fst (ChatList.lambda_handler event s) = ChatList.failure_response
  \/ exists user_id response item all_chats chats l j,
       claims_sub event = Ok user_id
       /\ fst (get_item (user_key user_id) s) = Ok response
       /\ py_get response "Item" (PDict []) = Ok item
       /\ py_get item "chats" (PList []) = Ok all_chats
       /\ py_iter all_chats = Ok chats
       /\ ChatList.chat_list_for_sidebar chats = Ok l
       /\ length l = length chats
       /\ json_dumps JSONEncoder_default (PList l) = Ok j
       /\ fst (ChatList.lambda_handler event s)
          = mkResponse 200 ChatList.success_headers (JsonText j).
Proof.
  unfold ChatList.lambda_handler, ChatList.handler_try, ChatList.response_of.
  destruct (claims_sub event) as [user_id|e]; [|now left].
  destruct (get_item (user_key user_id) s) as [[response|e] s1] eqn:Hget;
    simpl; [|now left].
  destruct (py_get response "Item" (PDict [])) as [item|e] eqn:Hitem;
    simpl; [|now left].
  destruct (py_get item "chats" (PList [])) as [all_chats|e] eqn:Hchats;
    simpl; [|now left].
  destruct (py_iter all_chats) as [chats|e] eqn:Hiter; simpl; [|now left].
  destruct (ChatList.chat_list_for_sidebar chats) as [l|e] eqn:Hl;
    simpl; [|now left].
  destruct (json_dumps JSONEncoder_default (PList l)) as [j|e] eqn:Hj;
    simpl; [|now left].
  right. exists user_id, response, item, all_chats, chats, l, j.
  repeat split; auto using chat_list_for_sidebar_length.
  now rewrite Hget.
Qed.

(** C8.  Whatever the event and whatever the store does (any
    implementation of the two calls, raising or not), each handler
    returns a response whose status is one of 200, 400, 401, 404, 405,
    500.  In the list handler a missing identity claim or a read that
    raises gives the generic failure response, and a response that is
    not the generic failure is a 200 that carries one entry for every
    chat the read delivered. *)
Theorem handlers_never_crash {St : Type} `{Store St} (event : pyval) (s : St) :
  In (statusCode (fst (ChatDetail.lambda_handler event s))) STATUS_CODES
  /\ In (statusCode (fst (ChatList.lambda_handler event s))) STATUS_CODES
  /\ (forall e, claims_sub event = Raise e ->
        ChatList.lambda_handler event s = (ChatList.failure_response, s))
  /\ (forall user_id e,
        claims_sub event = Ok user_id ->
        fst (get_item (user_key user_id) s) = Raise e ->
        fst (ChatList.lambda_handler event s) = ChatList.failure_response)
  /\ (fst (ChatList.lambda_handler event s) = ChatList.failure_response
      \/ exists user_id response item all_chats chats l j,
           claims_sub event = Ok user_id
           /\ fst (get_item (user_key user_id) s) = Ok response
           /\ py_get response "Item" (PDict []) = Ok item
           /\ py_get item "chats" (PList []) = Ok all_chats
           /\ py_iter all_chats = Ok chats
           /\ ChatList.chat_list_for_sidebar chats = Ok l
           /\ length l = length chats
           /\ json_dumps JSONEncoder_default (PList l) = Ok j
           /\ fst (ChatList.lambda_handler event s)
              = mkResponse 200 ChatList.success_headers (JsonText j)).
Proof.
  split; [apply detail_status_in_taxonomy|].
  split.
  { destruct (list_failure_or_complete event s) as [-> | (?&?&?&?&?&?&?&H')].
    - unfold STATUS_CODES; simpl; tauto.
    - destruct H' as (_&_&_&_&_&_&_&_&->). unfold STATUS_CODES; simpl; tauto. }
  split.
  { intros e He. unfold ChatList.lambda_handler, ChatList.handler_try.
    now rewrite He. }
  split; [|apply list_failure_or_complete].
  intros user_id e Hc Hg.
  unfold ChatList.lambda_handler, ChatList.handler_try. rewrite Hc.
  destruct (get_item (user_key user_id) s) as [r s1]. simpl in Hg. now subst r.
Qed.

(** ** C6 and C7: method detection and authentication *)

(** On a shaped event the chain of [if]/[elif] is the ordered probe. *)
Lemma probe_http_method_spec event :
  event_shaped event = true ->
  ChatDetail.probe_http_method event
  = Ok (match spec_probe_method event with Some v => v | None => PNone end).
Proof.
  destruct event as [| | | | |l|kv]; try discriminate. simpl.
  unfold ChatDetail.probe_http_method, spec_probe_method, py_and; simpl.
  destruct (dict_lookup "httpMethod" kv) as [v|]; simpl; [reflexivity|].
  destruct (dict_lookup "requestContext" kv) as [[| | | | | |rc]|]; simpl;
    try discriminate.
  2:{ intros _. now destruct (dict_lookup "resource" kv). }
  destruct (dict_lookup "httpMethod" rc) as [v|]; simpl; [reflexivity|].
  destruct (dict_lookup "http" rc) as [[| | | | | |http]|]; simpl;
    try discriminate; intros _.
  2:{ now destruct (dict_lookup "resource" kv). }
  destruct (dict_lookup "method" http) as [v|]; simpl; [reflexivity|].
  now destruct (dict_lookup "resource" kv).
Qed.

(** A method can only be resolved from an object. *)
Lemma resolve_some_is_dict event m :
  ChatDetail.resolve_http_method event = Ok (Some m) ->
  exists kv, event = PDict kv.
Proof.
  destruct (is_dict event) eqn:Hd.
  { destruct event; try discriminate; eauto. }
  assert (Hg : forall k, py_getitem event k = Raise TypeError)
    by (destruct event; try discriminate; reflexivity).
  assert (Hk : py_keys event = Raise AttributeError)
    by (destruct event; try discriminate; reflexivity).
  intros Hr; exfalso; revert Hr.
  unfold ChatDetail.resolve_http_method, ChatDetail.probe_http_method,
    py_and, rbind.
  rewrite !Hg, Hk.
  repeat (break_match; try discriminate).
Qed.

Lemma resolve_none_body event :
  ChatDetail.resolve_http_method event = Ok None ->
  ChatDetail.method_not_found_body event = Ok (method_not_found_doc event).
Proof.
  unfold ChatDetail.resolve_http_method, ChatDetail.method_not_found_body,
    method_not_found_doc.
  destruct (ChatDetail.probe_http_method event) as [v|e]; simpl;
    [|discriminate].
  destruct (py_truthy v).
  { destruct (py_upper v); simpl; discriminate. }
  destruct event as [| | | | | |kv]; simpl; try discriminate.
  assert (Hdoc : forall ks,
    json_dumps DecimalEncoder_default
      (PDict [("error", PStr "HTTP method not found in request");
              ("debug", PDict [("eventKeys", PList (map PStr (dict_keys kv)));
                               ("requestContextKeys", ks)])])
    = do j <- json_dumps DecimalEncoder_default ks;
      Ok (JObj [("error", JStr "HTTP method not found in request");
                ("debug",
                 JObj [("eventKeys", JArr (map JStr (dict_keys kv)));
                       ("requestContextKeys", j)])])).
  { intros ks. rewrite json_dumps_PDict; simpl.
    change (json_dumps DecimalEncoder_default
              (PStr "HTTP method not found in request"))
      with (Ok (A:=json) (JStr "HTTP method not found in request")); simpl.
    rewrite json_dumps_PDict; simpl.
    rewrite json_dumps_PList, dumps_items_strs; simpl.
    now destruct (json_dumps DecimalEncoder_default ks). }
  destruct (dict_lookup "requestContext" kv) as [rc|]; simpl.
  - destruct rc as [| | | | | |rckv]; simpl; try discriminate. intros _.
    rewrite Hdoc.
    rewrite json_dumps_PList, dumps_items_strs. reflexivity.
  - intros _. rewrite Hdoc. reflexivity.
Qed.

Lemma eqb_options m :
  m <> "OPTIONS" -> String.eqb m "OPTIONS" = false.
Proof. intros Hm. now apply String.eqb_neq. Qed.

(** C6.  (1) On an event whose invocation metadata are objects, the
    method the handler reads is the one the first of the three paths
    (top level, one level inside [requestContext], two levels inside)
    yields, and nothing if none does; (2) a method read as a non-empty
    string is upper-cased; (3) a method resolved to OPTIONS is answered
    at once with 200 and an empty body, the store untouched, whatever
    the event says about authentication; (4, 5) if no path yields a
    method, the method is undetermined, and an undetermined method is
    answered with the 400 document that lists the event's top-level
    field names, the store untouched. *)
Theorem method_detection {St : Type} `{Store St} (event : pyval) (s : St) :
  (event_shaped event = true ->
     ChatDetail.probe_http_method event
     = Ok (match spec_probe_method event with Some v => v | None => PNone end))
  /\ (forall m, ChatDetail.probe_http_method event = Ok (PStr m) ->
        m <> "" ->
        ChatDetail.resolve_http_method event = Ok (Some (upper m)))
  /\ (ChatDetail.resolve_http_method event = Ok (Some "OPTIONS") ->
        ChatDetail.lambda_handler event s
        = (mkResponse 200 ChatDetail.cors_headers (Text ""), s))
  /\ (event_shaped event = true ->
      spec_probe_method event = None ->
        ChatDetail.resolve_http_method event = Ok None)
  /\ (ChatDetail.resolve_http_method event = Ok None ->
        ChatDetail.lambda_handler event s
        = (mkResponse 400 ChatDetail.cors_headers
             (JsonText (method_not_found_doc event)), s)).
Proof.
  split; [apply probe_http_method_spec|].
  split.
  { intros m Hp Hm. unfold ChatDetail.resolve_http_method. rewrite Hp; simpl.
    apply String.eqb_neq in Hm. now rewrite Hm. }
  split.
  { intros Hr. unfold ChatDetail.lambda_handler, ChatDetail.handler_try.
    rewrite Hr. reflexivity. }
  split.
  { intros Hs Hn. unfold ChatDetail.resolve_http_method.
    rewrite (probe_http_method_spec _ Hs), Hn; simpl.
    destruct event as [| | | | | |kv]; try discriminate; simpl in *.
    destruct (dict_lookup "requestContext" kv) as [[| | | | | |rc]|];
      simpl; try discriminate; reflexivity. }
  intros Hr. unfold ChatDetail.lambda_handler, ChatDetail.handler_try.
  rewrite Hr, (resolve_none_body _ Hr). reflexivity.
Qed.

(** C7.  When the method is resolved and is not OPTIONS, and the event
    has no identity claim at
    [requestContext.authorizer.jwt.claims.sub] (the subscript chain
    raises), the answer is 401 and the store is left as it was: for any
    implementation of the store, and in particular the reference table
    receives no call. *)
Theorem missing_claim_is_401 {St : Type} `{Store St}
    (event : pyval) (m : string) (e : exn) (s : St) :
  ChatDetail.resolve_http_method event = Ok (Some m) ->
  m <> "OPTIONS" ->
  claims_sub event = Raise e ->
  ChatDetail.lambda_handler event s
  = (mkResponse 401 ChatDetail.cors_headers
       (JsonText (JObj [("error", JStr "Authentication failed")])), s).
Proof.
  intros Hr Hm Hc.
  destruct (resolve_some_is_dict _ _ Hr) as [kv ->].
  unfold ChatDetail.lambda_handler, ChatDetail.handler_try.
  rewrite Hr, (eqb_options _ Hm), Hc, (claims_sub_raises _ _ Hc).
  reflexivity.
Qed.

(** ** The reference table *)

Lemma table_get_item_ok (uid : string) (t : Table) :
  available t = true ->
  get_item (user_key (PStr uid)) t
  = (Ok (match items t !! uid with
         | Some item => PDict [("Item", PDict item)]
         | None => PDict []
         end),
     record_call (GetItem (user_key (PStr uid))) t).
Proof.
  intros Ha. simpl. unfold table_get_item. rewrite Ha. reflexivity.
Qed.

Lemma table_update_item_ok (uid : string) (v : pyval) (t : Table) :
  available t = true ->
  update_item (user_key (PStr uid)) "SET chats = :chats"
    (PDict [(":chats", v)]) t
  = (Ok (PDict []),
     mkTable (<[uid := dict_set "chats" v
                         (match items t !! uid with
                          | Some item => item
                          | None => [("userId", PStr uid)]
                          end)]> (items t))
             (calls t ++ [UpdateItem (user_key (PStr uid)) "SET chats = :chats"
                            (PDict [(":chats", v)])])
             (available t)).
Proof.
  intros Ha. simpl. unfold table_update_item. rewrite Ha. reflexivity.
Qed.

Lemma dict_lookup_set_eq k v kv : dict_lookup k (dict_set k v kv) = Some v.
Proof.
  induction kv as [|[k' v'] kv IH]; simpl.
  - now rewrite String.eqb_refl.
  - destruct (String.eqb k k') eqn:E; simpl; rewrite ?String.eqb_refl, ?E; auto.
Qed.

Lemma stored_chats_absent (t : Table) (uid : string) :
  items t !! uid = None -> stored_chats t uid = PList [].
Proof. unfold stored_chats. now intros ->. Qed.

(** ** The list comprehension of [delete_chat] *)

Lemma updated_chats_filter chats cid :
  Forall (fun c => is_dict c = true) chats ->
  ChatDetail.updated_chats chats cid
  = Ok (List.filter (fun c => negb (has_id cid c)) chats).
Proof.
  induction 1 as [|c chats Hc _ IH]; simpl; [reflexivity|].
  destruct c; try discriminate. unfold has_id; simpl. rewrite IH; simpl.
  reflexivity.
Qed.

Lemma updated_chats_inv chats cid updated :
  ChatDetail.updated_chats chats cid = Ok updated ->
  Forall (fun c => is_dict c = true) chats
  /\ updated = List.filter (fun c => negb (has_id cid c)) chats.
Proof.
  revert updated; induction chats as [|c chats IH]; simpl; intros updated.
  - intros [= <-]. split; [constructor | reflexivity].
  - destruct (py_get c "id" PNone) as [id|] eqn:Hid; simpl; [|discriminate].
    destruct (ChatDetail.updated_chats chats cid) as [rest|]; simpl;
      [|discriminate].
    destruct (IH rest eq_refl) as [Hd ->]. intros [= <-].
    assert (is_dict c = true) by (destruct c; try discriminate; reflexivity).
    split; [now constructor|]. unfold has_id. now rewrite Hid.
Qed.

Lemma filter_split_length {A} (p : A -> bool) (l : list A) :
  (length (List.filter (fun x => negb (p x)) l) + length (List.filter p l)
   = length l)%nat.
Proof.
  induction l as [|x l IH]; simpl; [reflexivity|].
  destruct (p x); simpl; lia.
Qed.

Lemma filter_none {A} (p : A -> bool) (l : list A) :
  List.filter p l = [] -> List.filter (fun x => negb (p x)) l = l.
Proof.
  induction l as [|x l IH]; simpl; [reflexivity|].
  destruct (p x); simpl; [discriminate|]. intros Hl. now rewrite IH.
Qed.

(** Exactly one match: the filter removes that element and nothing else. *)
Lemma filter_one {A} (p : A -> bool) (l : list A) :
  length (List.filter p l) = 1%nat ->
  exists pre x post,
    l = (pre ++ x :: post)%list /\ p x = true
    /\ List.filter (fun x => negb (p x)) l = (pre ++ post)%list.
Proof.
  induction l as [|x l IH]; simpl; [discriminate|].
  destruct (p x) eqn:Hp; simpl.
  - intros [= Hl]. exists [], x, l. repeat split; auto.
    apply filter_none. now apply length_zero_iff_nil.
  - intros Hl. destruct (IH Hl) as (pre & y & post & -> & Hy & Hf).
    exists (x :: pre), y, post. repeat split; auto. simpl. now rewrite Hf.
Qed.

Lemma filter_sublist {A} (p : A -> bool) (l : list A) :
  sublist (List.filter p l) l.
Proof.
  induction l as [|x l IH]; simpl; [constructor|].
  destruct (p x); now constructor.
Qed.

Lemma filter_negb_none (cid : pyval) (l : list pyval) :
  List.filter (has_id cid) (List.filter (fun c => negb (has_id cid c)) l) = [].
Proof.
  induction l as [|x l IH]; simpl; [reflexivity|].
  destruct (has_id cid x) eqn:E; simpl; [assumption|]. now rewrite E.
Qed.

Lemma filter_forall_dict (p : pyval -> bool) (l : list pyval) :
  Forall (fun c => is_dict c = true) l ->
  Forall (fun c => is_dict c = true) (List.filter p l).
Proof.
  induction 1 as [|x l Hx _ IH]; simpl; [constructor|].
  destruct (p x); auto.
Qed.

(** What [delete_chat] decides to write, for a record whose chats are
    objects. *)
Lemma chats_to_write_found (item : list (string * pyval)) chats cid :
  dict_lookup "chats" item = Some (PList chats) ->
  Forall (fun c => is_dict c = true) chats ->
  ChatDetail.chats_to_write (PDict [("Item", PDict item)]) cid
  = Ok (if (length (List.filter (fun c => negb (has_id cid c)) chats)
            =? length chats)%nat
        then None
        else Some (List.filter (fun c => negb (has_id cid c)) chats)).
Proof.
  intros Hl Hd. unfold ChatDetail.chats_to_write; simpl. rewrite Hl; simpl.
  rewrite (updated_chats_filter _ _ Hd); simpl. now destruct (_ =? _)%nat.
Qed.

Lemma chats_to_write_some (item : list (string * pyval)) cid updated :
  ChatDetail.chats_to_write (PDict [("Item", PDict item)]) cid
  = Ok (Some updated) ->
  exists chats,
    dict_lookup "chats" item = Some (PList chats)
    /\ Forall (fun c => is_dict c = true) chats
    /\ updated = List.filter (fun c => negb (has_id cid c)) chats.
Proof.
  unfold ChatDetail.chats_to_write; simpl.
  destruct (py_iter _) as [l|] eqn:Hiter; simpl; [|discriminate].
  destruct (ChatDetail.updated_chats l cid) as [u|] eqn:Hu; simpl;
    [|discriminate].
  destruct (updated_chats_inv _ _ _ Hu) as [Hd ->].
  destruct (py_len _) as [n|] eqn:Hlen; simpl; [|discriminate].
  destruct (_ =? n)%nat eqn:Hn; [discriminate|]. intros [= <-].
  apply Nat.eqb_neq in Hn.
  destruct (dict_lookup "chats" item) as [all_chats|]; simpl in *.
  2:{ injection Hiter as <-. injection Hlen as <-. now simpl in Hn. }
  destruct all_chats as [| | | |s|l'|kv]; simpl in *; try discriminate.
  - injection Hiter as <-. injection Hlen as <-.
    destruct s; simpl in *; [easy|]. inversion Hd; discriminate.
  - injection Hiter as <-. eauto.
  - injection Hiter as <-. injection Hlen as <-.
    destruct kv; simpl in *; [easy|]. inversion Hd; discriminate.
Qed.

(** The DELETE request on the reference table, step by step. *)
Lemma delete_on_table event (uid : string) cid (t : Table) :
  ChatDetail.resolve_http_method event = Ok (Some "DELETE") ->
  claims_sub event = Ok (PStr uid) ->
  ChatDetail.path_chat_id event = Ok cid ->
  available t = true ->
  ChatDetail.lambda_handler event t
  = let t1 := record_call (GetItem (user_key (PStr uid))) t in
    match items t !! uid with
    | None =>
        (ChatDetail.json_response 404
           (ChatDetail.error_body "Chat not found or already deleted"), t1)
    | Some item =>
        match ChatDetail.chats_to_write (PDict [("Item", PDict item)]) cid with
        | Ok None =>
            (ChatDetail.json_response 404
               (ChatDetail.error_body "Chat not found or already deleted"), t1)
        | Ok (Some updated) =>
            (ChatDetail.json_response 200 ChatDetail.deleted_body,
             mkTable (<[uid := dict_set "chats" (PList updated) item]> (items t))
               (calls t ++
                  [GetItem (user_key (PStr uid));
                   UpdateItem (user_key (PStr uid)) "SET chats = :chats"
                     (PDict [(":chats", PList updated)])])
               (available t))
        | Raise (KeyError msg) =>
            (ChatDetail.json_response 400
               (ChatDetail.error_body ("Missing required parameters: " ++ msg)),
             t1)
        | Raise _ =>
            (ChatDetail.json_response 500
               (ChatDetail.error_body "Internal server error"), t1)
        end
    end.
Proof.
  intros Hr Hc Hp Ha.
  unfold ChatDetail.lambda_handler, ChatDetail.handler_try.
  rewrite Hr, Hc; simpl. unfold ChatDetail.handle_delete. rewrite Hp.
  unfold ChatDetail.delete_chat. rewrite (table_get_item_ok _ _ Ha).
  destruct (items t !! uid) as [item|] eqn:Hitem; simpl.
  2:{ reflexivity. }
  destruct (ChatDetail.chats_to_write _ cid) as [[updated|]|e]; simpl.
  - rewrite table_update_item_ok by exact Ha. simpl. rewrite Hitem.
    rewrite <- app_assoc. reflexivity.
  - reflexivity.
  - destruct e; reflexivity.
Qed.

(** Section 3 of the specification makes chat ids unique within a
    record; with string ids that is what "exactly one chat carries the
    requested id" says of a record that contains it. *)
Lemma unique_ids_one_match (chats : list pyval) (ids : list string)
    (cid : string) :
  Forall2 (fun c i => exists kv, c = PDict kv
                                 /\ dict_lookup "id" kv = Some (PStr i))
    chats ids ->
  List.NoDup ids ->
  In cid ids ->
  length (List.filter (has_id (PStr cid)) chats) = 1%nat.
Proof.
  intros Hall. induction Hall as [|c i chats ids (kv & -> & Hi) Hrest IH].
  - intros _ [].
  - intros Hnd Hin. apply List.NoDup_cons_iff in Hnd. destruct Hnd as [Hni Hnd].
    cbn [List.filter]. unfold has_id at 1. cbn [py_get]. rewrite Hi.
    cbn [py_eq]. destruct (String.eqb_spec i cid) as [->|Hne].
    + cbn [length]. f_equal.
      assert (Hnone : forall l, Forall2 (fun c i => exists kv,
                          c = PDict kv /\ dict_lookup "id" kv = Some (PStr i))
                        l ids ->
                      List.filter (has_id (PStr cid)) l = []).
      { clear - Hni. intros l Hl.
        induction Hl as [|c j l js (kv & -> & Hj) _ IHl]; [reflexivity|].
        cbn [List.filter]. unfold has_id at 1. cbn [py_get]. rewrite Hj.
        cbn [py_eq]. destruct (String.eqb_spec j cid) as [->|_].
        - exfalso. apply Hni. now left.
        - apply IHl. intros Hc. apply Hni. now right. }
      now rewrite (Hnone _ Hrest).
    + apply IH; [assumption|]. destruct Hin as [->|]; [congruence|assumption].
Qed.

(** ** C1, C2, C10: DELETE *)

(** C1.  A DELETE for a chat id that exactly one chat of the caller's
    record carries (the record contains it, and ids are unique in a
    record) answers 200 "Chat deleted successfully"; the matching
    element, and only it, is gone from the stored sequence, which is
    one shorter; and the table has received the read followed by one
    [SET chats = :chats] update keyed by the caller's [userId], issued
    because a match was removed. *)
Theorem delete_present_chat (event : pyval) (uid : string) (cid : pyval)
    (t : Table) (item : list (string * pyval)) (chats : list pyval) :
  ChatDetail.resolve_http_method event = Ok (Some "DELETE") ->
  claims_sub event = Ok (PStr uid) ->
  ChatDetail.path_chat_id event = Ok cid ->
  available t = true ->
  items t !! uid = Some item ->
  dict_lookup "chats" item = Some (PList chats) ->
  Forall (fun c => is_dict c = true) chats ->
  length (List.filter (has_id cid) chats) = 1%nat ->
  exists t' pre chat post,
    ChatDetail.lambda_handler event t
    = (mkResponse 200 ChatDetail.cors_headers
         (JsonText (JObj [("success", JBool true);
                          ("message", JStr "Chat deleted successfully")])),
       t')
    /\ chats = (pre ++ chat :: post)%list
    /\ has_id cid chat = true
    /\ stored_chats t' uid = PList (pre ++ post)
    /\ S (length (pre ++ post)) = length chats
    /\ items t' = <[uid := dict_set "chats" (PList (pre ++ post)) item]> (items t)
    /\ calls t'
       = (calls t ++
            [GetItem (user_key (PStr uid));
             UpdateItem (user_key (PStr uid)) "SET chats = :chats"
               (PDict [(":chats", PList (pre ++ post))])])%list.
Proof.
  intros Hr Hc Hp Ha Hitem Hchats Hd Hone.
  destruct (filter_one _ _ Hone) as (pre & chat & post & Hsplit & Hchat & Hf).
  pose proof (filter_split_length (has_id cid) chats) as Hlen.
  rewrite Hone, Hf in Hlen.
  rewrite (delete_on_table _ _ _ _ Hr Hc Hp Ha); simpl.
  rewrite Hitem, (chats_to_write_found _ _ cid Hchats Hd), Hf.
  destruct (_ =? _)%nat eqn:Hn; [apply Nat.eqb_eq in Hn; lia|].
  eexists _, pre, chat, post. split; [reflexivity|].
  repeat split; auto; try lia.
  unfold stored_chats; simpl. rewrite lookup_insert_eq.
  now rewrite dict_lookup_set_eq.
Qed.

(** What a DELETE without a match does. *)
Lemma delete_no_match event (uid : string) cid (t : Table) chats :
  ChatDetail.resolve_http_method event = Ok (Some "DELETE") ->
  claims_sub event = Ok (PStr uid) ->
  ChatDetail.path_chat_id event = Ok cid ->
  available t = true ->
  stored_chats t uid = PList chats ->
  Forall (fun c => is_dict c = true) chats ->
  List.filter (has_id cid) chats = [] ->
  ChatDetail.lambda_handler event t
  = (mkResponse 404 ChatDetail.cors_headers
       (JsonText (JObj [("error", JStr "Chat not found or already deleted")])),
     record_call (GetItem (user_key (PStr uid))) t).
Proof.
  intros Hr Hc Hp Ha Hs Hd Hnone.
  rewrite (delete_on_table _ _ _ _ Hr Hc Hp Ha); simpl.
  unfold stored_chats in Hs.
  destruct (items t !! uid) as [item|]; [|reflexivity].
  destruct (dict_lookup "chats" item) as [c|] eqn:Hl.
  - subst c. rewrite (chats_to_write_found _ _ cid Hl Hd).
    rewrite (filter_none _ _ Hnone), Nat.eqb_refl. reflexivity.
  - injection Hs as <-. unfold ChatDetail.chats_to_write; simpl.
    rewrite Hl. reflexivity.
Qed.

(** C2.  A DELETE for a chat id that no chat of the caller's record
    carries (no record at all, a record without chats, or chats with
    other ids) answers 404, leaves every item of the table as it was
    and sends the table a read and no write.  In particular, after a
    DELETE that answered 200 the same DELETE answers 404 and changes
    nothing. *)
Theorem delete_absent_chat (event : pyval) (uid : string) (cid : pyval)
    (t : Table) :
  ChatDetail.resolve_http_method event = Ok (Some "DELETE") ->
  claims_sub event = Ok (PStr uid) ->
  ChatDetail.path_chat_id event = Ok cid ->
  (forall chats,
     available t = true ->
     stored_chats t uid = PList chats ->
     Forall (fun c => is_dict c = true) chats ->
     List.filter (has_id cid) chats = [] ->
     exists t',
       ChatDetail.lambda_handler event t
       = (mkResponse 404 ChatDetail.cors_headers
            (JsonText
               (JObj [("error", JStr "Chat not found or already deleted")])),
          t')
       /\ items t' = items t
       /\ writes t' = writes t
       /\ calls t' = (calls t ++ [GetItem (user_key (PStr uid))])%list)
  /\ (available t = true ->
      items t !! uid = None ->
      statusCode (fst (ChatDetail.lambda_handler event t)) = 404
      /\ items (snd (ChatDetail.lambda_handler event t)) = items t
      /\ writes (snd (ChatDetail.lambda_handler event t)) = writes t)
  /\ (forall resp1 t1,
        ChatDetail.lambda_handler event t = (resp1, t1) ->
        statusCode resp1 = 200 ->
        statusCode (fst (ChatDetail.lambda_handler event t1)) = 404
        /\ items (snd (ChatDetail.lambda_handler event t1)) = items t1
        /\ writes (snd (ChatDetail.lambda_handler event t1)) = writes t1).
Proof.
  intros Hr Hc Hp.
  assert (Hw : forall t0 : Table,
             writes (record_call (GetItem (user_key (PStr uid))) t0)
             = writes t0).
  { intros t0. unfold writes, record_call; simpl.
    rewrite List.filter_app; simpl. now rewrite app_nil_r. }
  split; [|split].
  - intros chats Ha Hs Hd Hnone.
    rewrite (delete_no_match _ _ _ _ _ Hr Hc Hp Ha Hs Hd Hnone).
    eexists. split; [reflexivity|]. repeat split. apply Hw.
  - intros Ha Hnone.
    rewrite (delete_no_match _ _ _ _ [] Hr Hc Hp Ha
               (stored_chats_absent _ _ Hnone) (List.Forall_nil _) eq_refl).
    simpl. repeat split. apply Hw.
  - intros resp1 t1 H1 H200.
    destruct (available t) eqn:Ha.
    2:{ exfalso. revert H1.
        unfold ChatDetail.lambda_handler, ChatDetail.handler_try.
        rewrite Hr, Hc; simpl. unfold ChatDetail.handle_delete. rewrite Hp.
        unfold ChatDetail.delete_chat; simpl. unfold table_get_item.
        rewrite Ha; simpl. intros [= <- <-]. discriminate. }
    rewrite (delete_on_table _ _ _ _ Hr Hc Hp Ha) in H1; simpl in H1.
    destruct (items t !! uid) as [item|] eqn:Hitem.
    2:{ injection H1 as <- <-. discriminate. }
    destruct (ChatDetail.chats_to_write _ cid) as [[updated|]|e] eqn:Hw1.
    + destruct (chats_to_write_some _ _ _ Hw1) as (chats & Hl & Hd & ->).
      injection H1 as <- <-.
      rewrite (delete_no_match event uid cid _
                 (List.filter (fun c => negb (has_id cid c)) chats)
                 Hr Hc Hp).
      * simpl. repeat split. apply Hw.
      * exact Ha.
      * unfold stored_chats; simpl. rewrite lookup_insert_eq.
        now rewrite dict_lookup_set_eq.
      * now apply filter_forall_dict.
      * apply filter_negb_none.
    + injection H1 as <- <-. discriminate.
    + destruct e; injection H1 as <- <-; discriminate.
Qed.

(** C10.  A DELETE that answers 200 has persisted the stored chats
    without every chat whose id equals the requested one, however many
    there were: what is stored is the original sequence filtered, so no
    remaining chat has that id, the remaining chats keep their relative
    order, and the sequence is shorter by the number of matches. *)
Theorem delete_removes_every_match (event : pyval) (uid : string)
    (cid : pyval) (t t' : Table) (resp : Response) :
  ChatDetail.resolve_http_method event = Ok (Some "DELETE") ->
  claims_sub event = Ok (PStr uid) ->
  ChatDetail.path_chat_id event = Ok cid ->
  ChatDetail.lambda_handler event t = (resp, t') ->
  statusCode resp = 200 ->
  exists chats remaining,
    stored_chats t uid = PList chats
    /\ stored_chats t' uid = PList remaining
    /\ remaining = List.filter (fun c => negb (has_id cid c)) chats
    /\ Forall (fun c => has_id cid c = false) remaining
    /\ sublist remaining chats
    /\ (forall c, In c chats -> has_id cid c = false -> In c remaining)
    /\ (length remaining + length (List.filter (has_id cid) chats)
        = length chats)%nat.
Proof.
  intros Hr Hc Hp H1 H200.
  destruct (available t) eqn:Ha.
  2:{ exfalso. revert H1.
      unfold ChatDetail.lambda_handler, ChatDetail.handler_try.
      rewrite Hr, Hc; simpl. unfold ChatDetail.handle_delete. rewrite Hp.
      unfold ChatDetail.delete_chat; simpl. unfold table_get_item.
      rewrite Ha; simpl. intros [= <- <-]. discriminate. }
  rewrite (delete_on_table _ _ _ _ Hr Hc Hp Ha) in H1; simpl in H1.
  destruct (items t !! uid) as [item|] eqn:Hitem.
  2:{ injection H1 as <- <-. discriminate. }
  destruct (ChatDetail.chats_to_write _ cid) as [[updated|]|e] eqn:Hw1.
  - destruct (chats_to_write_some _ _ _ Hw1) as (chats & Hl & Hd & ->).
    injection H1 as <- <-.
    exists chats, (List.filter (fun c => negb (has_id cid c)) chats).
    split; [unfold stored_chats; now rewrite Hitem, Hl|].
    split.
    { unfold stored_chats; simpl. rewrite lookup_insert_eq.
      now rewrite dict_lookup_set_eq. }
    split; [reflexivity|].
    split.
    { apply List.Forall_forall. intros c Hin.
      apply List.filter_In in Hin. destruct Hin as [_ Hn].
      now destruct (has_id cid c). }
    split; [apply filter_sublist|].
    split; [|apply filter_split_length].
    intros c Hin Hn. apply List.filter_In. split; [assumption|].
    now rewrite Hn.
  - injection H1 as <- <-. discriminate.
  - destruct e; injection H1 as <- <-; discriminate.
Qed.

(** ** The message loop *)

Lemma message_placeholder_dict kv n :
  ChatDetail.message_placeholder (PDict kv) n = Ok (placeholder (PDict kv) n).
Proof. reflexivity. Qed.

Lemma process_messages_acc msgs :
  Forall (fun m => is_dict m = true) msgs ->
  forall acc,
    exists out,
      ChatDetail.process_messages msgs acc = Ok (acc ++ out)%list
      /\ length out = length msgs
      /\ forall i m, nth_error msgs i = Some m ->
           nth_error out i = Some (sanitized m (length acc + i)).
Proof.
  induction 1 as [|m msgs Hm _ IH]; intros acc; simpl.
  - exists []. rewrite app_nil_r. repeat split; auto.
    intros [|i] m; discriminate.
  - destruct m as [| | | | | |kv]; try discriminate.
    set (pm := sanitized (PDict kv) (length acc)).
    assert (Hpm : match ChatDetail.process_message (PDict kv) with
                  | Ok pm => Ok pm
                  | Raise _ =>
                      ChatDetail.message_placeholder (PDict kv) (length acc)
                  end = Ok pm).
    { unfold pm, sanitized.
      destruct (ChatDetail.process_message (PDict kv)); [reflexivity|].
      apply message_placeholder_dict. }
    rewrite Hpm; simpl.
    destruct (IH (acc ++ [pm])%list) as (out & Hout & Hlen & Hnth).
    exists (pm :: out). rewrite Hout, <- app_assoc; simpl.
    repeat split; auto.
    intros [|i] m; simpl.
    + intros [= <-]. now rewrite Nat.add_0_r.
    + intros Hi. rewrite (Hnth _ _ Hi), length_app; simpl.
      do 2 f_equal. lia.
Qed.

Lemma copy_if_present_dict k kv dst :
  ChatDetail.copy_if_present k (PDict kv) dst
  = Ok (match dict_lookup k kv with
        | Some v => dict_set k v dst
        | None => dst
        end).
Proof.
  unfold ChatDetail.copy_if_present; simpl.
  now destruct (dict_lookup k kv).
Qed.

(** A truthy attachment that is not an object makes the message fail. *)
Lemma malformed_attachment_raises kv a :
  dict_lookup "attachment" kv = Some a ->
  py_truthy a = true ->
  is_dict a = false ->
  ChatDetail.process_message (PDict kv) = Raise AttributeError.
Proof.
  intros Ha Ht Hd. unfold ChatDetail.process_message.
  cbn [rbind py_get]. rewrite copy_if_present_dict. cbn [rbind].
  rewrite copy_if_present_dict. cbn [rbind py_contains py_getitem].
  rewrite Ha. cbn [rbind]. rewrite Ht.
  unfold ChatDetail.process_attachment. rewrite Ht; simpl.
  destruct a; try discriminate; reflexivity.
Qed.

(** ** What the encoder can serialize *)

Lemma encodable_PStr s : encodable (PStr s).
Proof. now exists (JStr s). Qed.

Lemma encodable_PInt z : encodable (PInt z).
Proof. now exists (JInt z). Qed.

Lemma encodable_PNone : encodable PNone.
Proof. now exists JNull. Qed.

Create HintDb enc.
#[local] Hint Resolve encodable_PStr encodable_PInt encodable_PNone : enc.

Lemma dumps_fields_ok kv :
  all_encodable kv -> exists js, dumps_fields DecimalEncoder_default kv = Ok js.
Proof.
  induction 1 as [|[k v] kv [j Hj] _ [js IH]]; simpl; [now eauto|].
  simpl in Hj. rewrite Hj; simpl. rewrite IH; simpl. eauto.
Qed.

Lemma dumps_fields_inv kv js :
  dumps_fields DecimalEncoder_default kv = Ok js -> all_encodable kv.
Proof.
  revert js; induction kv as [|[k v] kv IH]; simpl; intros js;
    [constructor|].
  destruct (json_dumps DecimalEncoder_default v) as [j|] eqn:Hj; simpl;
    [|discriminate].
  destruct (dumps_fields DecimalEncoder_default kv) as [js'|]; simpl;
    [|discriminate].
  intros _. constructor; [now exists j | now apply (IH js')].
Qed.

Lemma encodable_PDict kv : encodable (PDict kv) <-> all_encodable kv.
Proof.
  unfold encodable. split.
  - intros [j Hj]. rewrite json_dumps_PDict in Hj.
    destruct (dumps_fields DecimalEncoder_default kv) as [js|] eqn:Hjs;
      [|discriminate].
    now apply (dumps_fields_inv _ js).
  - intros Hkv. destruct (dumps_fields_ok _ Hkv) as [js Hjs].
    exists (JObj js). rewrite json_dumps_PDict, Hjs. reflexivity.
Qed.

(** Serializing a list serializes its elements, in order. *)
Lemma dumps_items_ok l :
  Forall encodable l ->
  exists js,
    dumps_items DecimalEncoder_default l = Ok js
    /\ Forall2 (fun v j => json_dumps DecimalEncoder_default v = Ok j) l js.
Proof.
  induction 1 as [|v l [j Hj] _ (js & IH & Hall)]; simpl.
  - exists []. split; [reflexivity | constructor].
  - rewrite Hj; simpl. rewrite IH; simpl.
    exists (j :: js). split; [reflexivity | now constructor].
Qed.

Lemma all_encodable_lookup kv k v :
  all_encodable kv -> dict_lookup k kv = Some v -> encodable v.
Proof.
  induction 1 as [|[k' v'] kv Hv _ IH]; simpl; [discriminate|].
  destruct (String.eqb k k'); [now intros [= <-] | assumption].
Qed.

Lemma all_encodable_get kv k d :
  all_encodable kv -> encodable d ->
  encodable (match dict_lookup k kv with Some v => v | None => d end).
Proof.
  intros Hkv Hd. destruct (dict_lookup k kv) eqn:Hl; [|assumption].
  now apply (all_encodable_lookup kv k).
Qed.

Lemma all_encodable_set kv k v :
  all_encodable kv -> encodable v -> all_encodable (dict_set k v kv).
Proof.
  intros Hkv Hv. induction Hkv as [|[k' v'] kv Hv' Hkv IH]; simpl.
  - now repeat constructor.
  - destruct (String.eqb k k'); constructor; auto.
Qed.

#[local] Hint Resolve all_encodable_get all_encodable_set : enc.

Lemma copy_if_truthy_dict k kv dst :
  ChatDetail.copy_if_truthy k (PDict kv) dst
  = Ok (match dict_lookup k kv with
        | Some v => if py_truthy v then dict_set k v dst else dst
        | None => dst
        end).
Proof.
  unfold ChatDetail.copy_if_truthy; simpl.
  destruct (dict_lookup k kv) as [v|] eqn:Hl; simpl; [|reflexivity].
  destruct (py_truthy v); simpl; [|reflexivity]. now rewrite ?Hl.
Qed.

Lemma all_encodable_copy kv k dst :
  all_encodable kv -> all_encodable dst ->
  all_encodable (match dict_lookup k kv with
                 | Some v => dict_set k v dst
                 | None => dst
                 end).
Proof.
  intros Hkv Hdst. destruct (dict_lookup k kv) eqn:Hl; [|assumption].
  apply all_encodable_set; [assumption|].
  now apply (all_encodable_lookup kv k).
Qed.

Lemma all_encodable_copy_truthy kv k dst :
  all_encodable kv -> all_encodable dst ->
  all_encodable (match dict_lookup k kv with
                 | Some v => if py_truthy v then dict_set k v dst else dst
                 | None => dst
                 end).
Proof.
  intros Hkv Hdst. destruct (dict_lookup k kv) eqn:Hl; [|assumption].
  destruct (py_truthy p); [|assumption].
  apply all_encodable_set; [assumption|].
  now apply (all_encodable_lookup kv k).
Qed.

#[local] Hint Resolve all_encodable_copy all_encodable_copy_truthy : enc.

Arguments dict_set : simpl never.

Lemma process_attachment_encodable a pa :
  encodable a -> ChatDetail.process_attachment a = Ok pa -> encodable pa.
Proof.
  intros Ha. unfold ChatDetail.process_attachment.
  destruct (py_truthy a); simpl; [|intros [= <-]; auto with enc].
  destruct a as [| | | | | |kv];
    try (simpl; discriminate).
  apply encodable_PDict in Ha.
  unfold ChatDetail.process_attachment_try. cbn [rbind py_get].
  repeat (first [ rewrite copy_if_truthy_dict | rewrite copy_if_present_dict ];
          cbn [rbind]).
  intros [= <-]. apply encodable_PDict.
  do 2 (apply all_encodable_copy; [assumption|]).
  do 2 (apply all_encodable_copy_truthy; [assumption|]).
  repeat constructor; simpl; auto with enc.
Qed.

Lemma process_message_encodable kv pm :
  all_encodable kv ->
  ChatDetail.process_message (PDict kv) = Ok pm -> encodable pm.
Proof.
  intros Hkv. unfold ChatDetail.process_message. cbn [rbind py_get].
  rewrite copy_if_present_dict. cbn [rbind].
  rewrite copy_if_present_dict. cbn [rbind py_contains py_getitem].
  set (pm2 := match dict_lookup "model" kv with
              | Some v => dict_set "model" v _
              | None => _
              end).
  assert (Hpm2 : all_encodable pm2).
  { unfold pm2. repeat apply all_encodable_copy; try assumption.
    repeat constructor; simpl; auto with enc. }
  destruct (dict_lookup "attachment" kv) as [a|] eqn:Ha; cbn [rbind].
  2:{ simpl. intros [= <-]. now apply encodable_PDict. }
  destruct (py_truthy a); cbn [rbind].
  2:{ intros [= <-]. now apply encodable_PDict. }
  destruct (ChatDetail.process_attachment a) as [pa|] eqn:Hpa; cbn [rbind];
    [|discriminate].
  destruct (py_truthy pa); intros [= <-]; apply encodable_PDict; auto.
  apply all_encodable_set; [assumption|].
  apply (process_attachment_encodable a); [|assumption].
  now apply (all_encodable_lookup kv "attachment").
Qed.

Lemma placeholder_encodable kv n :
  all_encodable kv -> encodable (placeholder (PDict kv) n).
Proof.
  intros Hkv. apply encodable_PDict. unfold field; simpl.
  repeat constructor; simpl; auto with enc.
Qed.

Lemma sanitized_encodable m n :
  is_dict m = true -> encodable m -> encodable (sanitized m n).
Proof.
  destruct m as [| | | | | |kv]; try discriminate. intros _ Hm.
  apply encodable_PDict in Hm. unfold sanitized.
  destruct (ChatDetail.process_message (PDict kv)) eqn:Hp.
  - now apply (process_message_encodable kv).
  - now apply placeholder_encodable.
Qed.

Lemma Forall2_nth_error {A B} (R : A -> B -> Prop) l l' i x :
  Forall2 R l l' -> nth_error l i = Some x ->
  exists y, nth_error l' i = Some y /\ R x y.
Proof.
  intros Hall; revert i.
  induction Hall as [|a b l l' Hab _ IH]; intros [|i]; simpl;
    try discriminate.
  - intros [= ->]. eauto.
  - apply IH.
Qed.

(** ** GET on the reference table *)

Lemma get_on_table event (uid : string) cid (t : Table) :
  ChatDetail.resolve_http_method event = Ok (Some "GET") ->
  claims_sub event = Ok (PStr uid) ->
  ChatDetail.path_chat_id event = Ok cid ->
  available t = true ->
  ChatDetail.handler_try event t
  = (do messages <- messages_of_chats (stored_chats t uid) cid;
     match messages with
     | None =>
         Ok (ChatDetail.json_response 404
               (ChatDetail.error_body "Chat not found"))
     | Some ms =>
         do j <- json_dumps DecimalEncoder_default (PList ms);
         Ok (ChatDetail.json_response 200 (JsonText j))
     end,
     record_call (GetItem (user_key (PStr uid))) t).
Proof.
  intros Hr Hc Hp Ha. unfold ChatDetail.handler_try.
  rewrite Hr, Hc; simpl. unfold ChatDetail.handle_get. rewrite Hp.
  unfold ChatDetail.get_chat_messages. rewrite (table_get_item_ok _ _ Ha).
  cbn [rbind]. f_equal. f_equal.
  unfold ChatDetail.messages_of_response, messages_of_chats, stored_chats.
  destruct (items t !! uid) as [item|]; simpl; [|reflexivity].
  now destruct (dict_lookup "chats" item).
Qed.

Lemma find_target_absent chats cid :
  Forall (fun c => is_dict c = true) chats ->
  List.filter (has_id cid) chats = [] ->
  ChatDetail.find_target_messages chats cid = Ok (PList []).
Proof.
  induction 1 as [|c chats Hc _ IH]; simpl; [reflexivity|].
  destruct c as [| | | | | |kv]; try discriminate.
  unfold has_id at 1; simpl.
  destruct (py_eq _ cid); [discriminate | exact IH].
Qed.

(** GET for an id that no chat carries: 404. *)
Lemma get_absent_chat_404 event (uid : string) cid (t : Table) chats :
  ChatDetail.resolve_http_method event = Ok (Some "GET") ->
  claims_sub event = Ok (PStr uid) ->
  ChatDetail.path_chat_id event = Ok cid ->
  available t = true ->
  stored_chats t uid = PList chats ->
  Forall (fun c => is_dict c = true) chats ->
  List.filter (has_id cid) chats = [] ->
  ChatDetail.lambda_handler event t
  = (mkResponse 404 ChatDetail.cors_headers
       (JsonText (JObj [("error", JStr "Chat not found")])),
     record_call (GetItem (user_key (PStr uid))) t).
Proof.
  intros Hr Hc Hp Ha Hs Hd Hnone. unfold ChatDetail.lambda_handler.
  rewrite (get_on_table _ _ _ _ Hr Hc Hp Ha), Hs.
  unfold messages_of_chats; simpl.
  rewrite (find_target_absent _ _ Hd Hnone). reflexivity.
Qed.

(** GET for a chat that is found and whose messages are empty: the same
    404. *)
Lemma get_empty_chat_404 event (uid : string) cid (t : Table) chats :
  ChatDetail.resolve_http_method event = Ok (Some "GET") ->
  claims_sub event = Ok (PStr uid) ->
  ChatDetail.path_chat_id event = Ok cid ->
  available t = true ->
  stored_chats t uid = PList chats ->
  ChatDetail.find_target_messages chats cid = Ok (PList []) ->
  ChatDetail.lambda_handler event t
  = (mkResponse 404 ChatDetail.cors_headers
       (JsonText (JObj [("error", JStr "Chat not found")])),
     record_call (GetItem (user_key (PStr uid))) t).
Proof.
  intros Hr Hc Hp Ha Hs Hf. unfold ChatDetail.lambda_handler.
  rewrite (get_on_table _ _ _ _ Hr Hc Hp Ha), Hs.
  unfold messages_of_chats; simpl. rewrite Hf. reflexivity.
Qed.

(** GET for a chat that is found with messages: 200 and one document
    per message, in order. *)
Lemma get_present_chat_200 event (uid : string) cid (t : Table) chats msgs :
  ChatDetail.resolve_http_method event = Ok (Some "GET") ->
  claims_sub event = Ok (PStr uid) ->
  ChatDetail.path_chat_id event = Ok cid ->
  available t = true ->
  stored_chats t uid = PList chats ->
  ChatDetail.find_target_messages chats cid = Ok (PList msgs) ->
  msgs <> [] ->
  Forall (fun m => is_dict m = true) msgs ->
  Forall encodable msgs ->
  exists js,
    ChatDetail.lambda_handler event t
    = (mkResponse 200 ChatDetail.cors_headers (JsonText (JArr js)),
       record_call (GetItem (user_key (PStr uid))) t)
    /\ length js = length msgs
    /\ forall i m, nth_error msgs i = Some m ->
         exists j, nth_error js i = Some j
                   /\ json_dumps DecimalEncoder_default (sanitized m i) = Ok j.
Proof.
  intros Hr Hc Hp Ha Hs Hf Hne Hd He. unfold ChatDetail.lambda_handler.
  rewrite (get_on_table _ _ _ _ Hr Hc Hp Ha), Hs.
  unfold messages_of_chats; cbn [rbind py_iter]. rewrite Hf. cbn [rbind].
  destruct msgs as [|m0 msgs0] eqn:Hmsgs; [congruence|]. rewrite <- Hmsgs in *.
  replace (negb (py_truthy (PList msgs))) with false by (now subst msgs).
  cbn [py_iter rbind].
  destruct (process_messages_acc msgs Hd []) as (out & Hout & Hlen & Hnth).
  rewrite Hout. cbn [rbind app].
  assert (Henc : Forall encodable out).
  { apply List.Forall_forall. intros x Hx.
    apply List.In_nth_error in Hx. destruct Hx as [i Hi].
    assert (Hlt : (i < length msgs)%nat).
    { rewrite <- Hlen. apply List.nth_error_Some. congruence. }
    destruct (nth_error msgs i) as [m|] eqn:Hm;
      [|apply List.nth_error_None in Hm; lia].
    rewrite (Hnth _ _ Hm) in Hi. injection Hi as <-.
    apply List.nth_error_In in Hm.
    apply sanitized_encodable.
    - now apply (proj1 (List.Forall_forall _ _) Hd).
    - now apply (proj1 (List.Forall_forall _ _) He). }
  destruct (dumps_items_ok _ Henc) as (js & Hjs & Hall).
  rewrite json_dumps_PList, Hjs. cbn [rbind].
  exists js. split; [reflexivity|].
  split; [rewrite (dumps_items_length _ _ _ Hjs); exact Hlen|].
  intros i m Hm. pose proof (Hnth _ _ Hm) as Hi. simpl in Hi.
  exact (Forall2_nth_error _ _ _ _ _ Hall Hi).
Qed.

(** ** C4: one bad message does not abort the batch *)

Lemma json_dumps_placeholder m n j :
  json_dumps DecimalEncoder_default (placeholder m n) = Ok j ->
  exists jid jrole jcontent,
    j = JObj [("id", jid); ("role", jrole); ("content", jcontent);
              ("note", JStr ChatDetail.MESSAGE_ERROR_NOTE)]
    /\ json_dumps DecimalEncoder_default
         (field "id" (PStr (str_of_nat n)) m) = Ok jid
    /\ json_dumps DecimalEncoder_default
         (field "role" (PStr "unknown") m) = Ok jrole.
Proof.
  unfold placeholder. rewrite json_dumps_PDict. cbn [dumps_fields].
  destruct (json_dumps _ (field "id" _ m)) as [jid|]; cbn [rbind];
    [|discriminate].
  destruct (json_dumps _ (field "role" _ m)) as [jrole|]; cbn [rbind];
    [|discriminate].
  destruct (json_dumps _ (field "content" _ m)) as [jcontent|]; cbn [rbind];
    [|discriminate].
  change (json_dumps DecimalEncoder_default
            (PStr ChatDetail.MESSAGE_ERROR_NOTE))
    with (Ok (A:=json) (JStr ChatDetail.MESSAGE_ERROR_NOTE)).
  cbn [rbind]. intros [= <-]. eauto 10.
Qed.

(** Fault isolation where it holds.  Let the messages of a chat be
    objects.  The message loop
    returns one output per message, in order; a message whose
    sanitization raises is replaced, at its own position, by the
    placeholder that keeps its [id] (or its position as text), its
    [role] (or "unknown") and its [content] (or an explanation) and
    adds a [note]; the messages after it are processed as usual.  A
    truthy attachment that is not an object is such a failure, and the
    GET answer for the chat is then a 200 whose array holds, at that
    position, the placeholder with its note. *)
Theorem bad_message_does_not_abort (msgs : list pyval) :
  Forall (fun m => is_dict m = true) msgs ->
  exists out,
    ChatDetail.process_messages msgs [] = Ok out
    /\ length out = length msgs
    /\ (forall i m, nth_error msgs i = Some m ->
          nth_error out i = Some (sanitized m i))
    /\ (forall i kv a,
          nth_error msgs i = Some (PDict kv) ->
          dict_lookup "attachment" kv = Some a ->
          py_truthy a = true -> is_dict a = false ->
          nth_error out i = Some (placeholder (PDict kv) i))
    /\ (forall event (uid : string) cid (t : Table) chats,
          ChatDetail.resolve_http_method event = Ok (Some "GET") ->
          claims_sub event = Ok (PStr uid) ->
          ChatDetail.path_chat_id event = Ok cid ->
          available t = true ->
          stored_chats t uid = PList chats ->
          ChatDetail.find_target_messages chats cid = Ok (PList msgs) ->
          msgs <> [] ->
          Forall encodable msgs ->
          exists js,
            ChatDetail.lambda_handler event t
            = (mkResponse 200 ChatDetail.cors_headers (JsonText (JArr js)),
               record_call (GetItem (user_key (PStr uid))) t)
            /\ length js = length msgs
            /\ forall i kv a,
                 nth_error msgs i = Some (PDict kv) ->
                 dict_lookup "attachment" kv = Some a ->
                 py_truthy a = true -> is_dict a = false ->
                 exists jid jrole jcontent,
                   nth_error js i
                   = Some (JObj [("id", jid); ("role", jrole);
                                 ("content", jcontent);
                                 ("note", JStr ChatDetail.MESSAGE_ERROR_NOTE)])
                   /\ json_dumps DecimalEncoder_default
                        (field "id" (PStr (str_of_nat i)) (PDict kv)) = Ok jid
                   /\ json_dumps DecimalEncoder_default
                        (field "role" (PStr "unknown") (PDict kv)) = Ok jrole).
Proof.
  intros Hd.
  destruct (process_messages_acc msgs Hd []) as (out & Hout & Hlen & Hnth).
  simpl in Hout, Hnth.
  assert (Hbad : forall i kv a,
             nth_error msgs i = Some (PDict kv) ->
             dict_lookup "attachment" kv = Some a ->
             py_truthy a = true -> is_dict a = false ->
             sanitized (PDict kv) i = placeholder (PDict kv) i).
  { intros i kv a _ Ha Ht Hn. unfold sanitized.
    now rewrite (malformed_attachment_raises kv a Ha Ht Hn). }
  exists out. split; [assumption|]. split; [assumption|].
  split; [assumption|]. split.
  { intros i kv a Hi Ha Ht Hn. rewrite (Hnth _ _ Hi). f_equal. eauto. }
  intros event uid cid t chats Hr Hc Hp Hav Hs Hf Hne He.
  destruct (get_present_chat_200 _ _ _ _ _ _ Hr Hc Hp Hav Hs Hf Hne Hd He)
    as (js & Hresp & Hjs & Hall).
  exists js. split; [assumption|]. split; [assumption|].
  intros i kv a Hi Ha Ht Hn.
  destruct (Hall _ _ Hi) as (j & Hj & Hdump).
  rewrite (Hbad _ _ _ Hi Ha Ht Hn) in Hdump.
  destruct (json_dumps_placeholder _ _ _ Hdump)
    as (jid & jrole & jcontent & -> & Hid & Hrole).
  eauto 10.
Qed.

(** ** C5: the chat list *)

Lemma chat_list_for_sidebar_spec chats (pairs : list (string * string)) :
  Forall2 (fun c p => chat_with (fst p) (snd p) c) chats pairs ->
  exists l,
    ChatList.chat_list_for_sidebar chats = Ok l
    /\ dumps_items JSONEncoder_default l = Ok (map summary pairs).
Proof.
  induction 1 as [|c [i ttl] chats pairs (kv & -> & Hi & Ht) _ (l & Hl & Hj)];
    simpl.
  - exists []. split; reflexivity.
  - simpl in Hi, Ht. rewrite Hi, Ht, Hl; simpl.
    eexists. split; [reflexivity|]. cbn [dumps_items map].
    rewrite json_dumps_PDict. cbn [dumps_fields].
    change (json_dumps JSONEncoder_default (PStr i)) with (Ok (A:=json) (JStr i)).
    change (json_dumps JSONEncoder_default (PStr ttl))
      with (Ok (A:=json) (JStr ttl)).
    cbn [rbind]. rewrite Hj. reflexivity.
Qed.

(** C5.  With an identity claim and the table up, the list handler
    answers 200 with one [{id, title}] pair per stored chat, in stored
    order and with that chat's id and title; with no record, or a
    record without chats, the stored chats are the empty sequence and
    so is the answer. *)
Theorem chat_list_is_complete (event : pyval) (uid : string) (t : Table)
    (chats : list pyval) (pairs : list (string * string)) :
  claims_sub event = Ok (PStr uid) ->
  available t = true ->
  stored_chats t uid = PList chats ->
  Forall2 (fun c p => chat_with (fst p) (snd p) c) chats pairs ->
  ChatList.lambda_handler event t
  = (mkResponse 200 ChatList.success_headers
       (JsonText (JArr (map summary pairs))),
     record_call (GetItem (user_key (PStr uid))) t)
  /\ length (map summary pairs) = length chats
  /\ (items t !! uid = None -> chats = [] /\ map summary pairs = [])
  /\ (chats = [] -> map summary pairs = []).
Proof.
  intros Hc Ha Hs Hall.
  assert (Hlen : length pairs = length chats)
    by (symmetry; apply (Forall2_length _ _ _ Hall)).
  assert (Hempty : chats = [] -> map summary pairs = []).
  { intros ->. now destruct pairs. }
  split; [|split; [now rewrite length_map|split; [|assumption]]].
  - destruct (chat_list_for_sidebar_spec _ _ Hall) as (l & Hl & Hj).
    unfold ChatList.lambda_handler, ChatList.handler_try. rewrite Hc.
    rewrite (table_get_item_ok _ _ Ha). cbn [rbind].
    assert (Hresp : ChatList.response_of
                      match items t !! uid with
                      | Some item => PDict [("Item", PDict item)]
                      | None => PDict []
                      end
                    = Ok (mkResponse 200 ChatList.success_headers
                            (JsonText (JArr (map summary pairs))))).
    { unfold ChatList.response_of.
      assert (Hget : (do item <- py_get
                                   match items t !! uid with
                                   | Some item => PDict [("Item", PDict item)]
                                   | None => PDict []
                                   end "Item" (PDict []);
                      py_get item "chats" (PList []))
                     = Ok (PList chats)).
      { unfold stored_chats in Hs.
        destruct (items t !! uid) as [item|]; simpl.
        - now rewrite Hs.
        - now rewrite Hs. }
      destruct (py_get _ "Item" _) as [item|]; [|discriminate].
      cbn [rbind] in *. rewrite Hget. cbn [rbind py_iter].
      rewrite Hl. cbn [rbind]. rewrite json_dumps_PList, Hj. reflexivity. }
    now rewrite Hresp.
  - intros Hnone. rewrite (stored_chats_absent _ _ Hnone) in Hs.
    injection Hs as <-. auto.
Qed.

(** ** C9: the decimal encoder *)

Lemma ndigits_bounds (fuel : nat) (c : Z) :
  0 < c < 2 ^ (Z.of_nat fuel + 1) ->
  1 <= ndigits fuel c /\ 10 ^ (ndigits fuel c - 1) <= c < 10 ^ (ndigits fuel c).
Proof.
  revert c; induction fuel as [|fuel IH]; intros c Hc.
  - simpl in *. change (2 ^ 1) with 2 in Hc. assert (c = 1) by lia. subst.
    simpl. lia.
  - cbn [ndigits]. destruct (c <? 10) eqn:H10.
    + apply Z.ltb_lt in H10. change (10 ^ (1 - 1)) with 1.
      change (10 ^ 1) with 10. lia.
    + apply Z.ltb_ge in H10.
      assert (Hpow : 2 ^ (Z.of_nat (S fuel) + 1) = 2 * 2 ^ (Z.of_nat fuel + 1)).
      { rewrite Nat2Z.inj_succ. rewrite <- Z.pow_succ_r by lia.
        now replace (Z.succ (Z.of_nat fuel) + 1)
          with (Z.succ (Z.of_nat fuel + 1)) by lia. }
      assert (Hq : 0 < c / 10 < 2 ^ (Z.of_nat fuel + 1)).
      { split.
        - apply Z.div_str_pos. lia.
        - apply Z.div_lt_upper_bound; lia. }
      destruct (IH _ Hq) as (Hn & Hlo & Hhi).
      set (n := ndigits fuel (c / 10)) in *.
      replace (1 + n - 1) with (Z.succ (n - 1)) by lia.
      replace (1 + n) with (Z.succ n) by lia.
      rewrite !Z.pow_succ_r by lia.
      pose proof (Z.div_mod c 10 ltac:(lia)) as Hdm.
      pose proof (Z.mod_pos_bound c 10 ltac:(lia)) as Hm.
      lia.
Qed.

Lemma digits_bounds (c : Z) :
  0 < c -> 1 <= digits c /\ 10 ^ (digits c - 1) <= c < 10 ^ (digits c).
Proof.
  intros Hc. unfold digits. apply ndigits_bounds.
  pose proof (Z.log2_nonneg c) as Hl.
  rewrite Z2Nat.id by assumption.
  pose proof (Z.log2_spec c Hc) as Hs.
  replace (Z.log2 c + 1) with (Z.succ (Z.log2 c)) by lia. lia.
Qed.

(** Within the context's precision the encoder does what its docstring
    says: an integer for a whole value, a float otherwise. *)
Lemma encoder_in_range (d : Decimal) :
  0 <= dcoef d ->
  Z.abs (dec_to_int d) < 10 ^ PREC ->
  DecimalEncoder_default d
  = Ok (if dec_whole d then EInt (dec_to_int d) else EFloat d).
Proof.
  destruct d as [sg c e]. unfold DecimalEncoder_default, dec_mod1, dec_whole,
    dec_is_zero, adjusted. cbn [dcoef dexp dsign]. intros Hc Hint.
  assert (Hq : (if e >=? 0 then c * 10 ^ e else c / 10 ^ (- e)) < 10 ^ PREC).
  { revert Hint. unfold dec_to_int; cbn [dcoef dexp dsign].
    destruct (e >=? 0) eqn:He.
    - apply Z.geb_le in He.
      pose proof (Z.pow_nonneg 10 e ltac:(lia)).
      assert (0 <= c * 10 ^ e) by (apply Z.mul_nonneg_nonneg; lia).
      destruct sg; lia.
    - assert (e < 0) by (destruct (Z.geb_spec e 0); [discriminate | lia]).
      pose proof (Z.pow_pos_nonneg 10 (- e) ltac:(lia) ltac:(lia)).
      assert (0 <= c / 10 ^ (- e)) by (apply Z.div_pos; lia).
      destruct sg; lia. }
  destruct (Z.eqb_spec c 0) as [->|Hnz].
  { cbn [orb rbind dcoef]. rewrite Z.eqb_refl.
    rewrite Zmod_0_l, Z.eqb_refl, orb_true_r. reflexivity. }
  assert (Hpos : 0 < c) by lia.
  destruct (digits_bounds c Hpos) as (Hd1 & Hlo & Hhi).
  cbn [orb].
  destruct (Z.leb_spec (e + digits c - 1) (-2)) as [Hsmall|Hbig].
  { cbn [rbind dcoef]. destruct (Z.eqb_spec c 0) as [|_]; [lia|].
    assert (He : e < 0) by lia.
    destruct (Z.geb_spec e 0) as [|_]; [lia|]. cbn [orb].
    assert (Hlt : c < 10 ^ (- e)).
    { eapply Z.lt_le_trans; [exact (proj2 (conj Hlo Hhi))|].
      apply Z.pow_le_mono_r; lia. }
    rewrite Z.mod_small by lia.
    destruct (Z.eqb_spec c 0) as [|_]; [lia|]. reflexivity. }
  destruct (Z.leb_spec (e + digits c - 1) PREC) as [Hfit|Hover].
  - destruct (Z.geb_spec e 0) as [He|He].
    + rewrite Z.div_1_r, Z.mod_1_r.
      destruct (Z.ltb_spec (c * 10 ^ e) (10 ^ PREC)) as [_|]; [|lia].
      reflexivity.
    + destruct (Z.ltb_spec (c / 10 ^ (- e)) (10 ^ PREC)) as [_|]; [|lia].
      cbn [rbind dcoef orb].
      now destruct (c mod 10 ^ (- e) =? 0).
  - exfalso. assert (HP : 0 <= PREC) by (unfold PREC; lia).
    assert (Hge : 10 ^ PREC <= (if e >=? 0 then c * 10 ^ e else c / 10 ^ (- e))).
    { destruct (Z.geb_spec e 0) as [He|He].
      - apply Z.le_trans with (10 ^ (digits c - 1 + e)).
        + apply Z.pow_le_mono_r; lia.
        + rewrite Z.pow_add_r by lia.
          apply Z.mul_le_mono_nonneg_r; [apply Z.pow_nonneg; lia | lia].
      - apply Z.le_trans with (10 ^ (digits c - 1 + e)).
        + apply Z.pow_le_mono_r; lia.
        + apply Z.div_le_lower_bound; [apply Z.pow_pos_nonneg; lia|].
          rewrite <- Z.pow_add_r by lia.
          replace (- e + (digits c - 1 + e)) with (digits c - 1) by lia.
          lia. }
    lia.
Qed.

(** No fidelity is lost on a whole value: [int(obj) == obj]. *)
Lemma whole_int_exact (d : Decimal) :
  0 <= dcoef d -> dec_whole d = true ->
  dec_eqb (dec_of_Z (dec_to_int d)) d = true.
Proof.
  destruct d as [sg c e]. unfold dec_whole, dec_eqb, dec_of_Z, dec_to_int,
    dec_signed. cbn [dcoef dexp dsign]. intros Hc Hw.
  apply Z.eqb_eq.
  destruct (Z.geb_spec e 0) as [He|He].
  - rewrite Z.min_l by lia. rewrite !Z.sub_0_r, Z.pow_0_r, Z.mul_1_r.
    pose proof (Z.pow_nonneg 10 e ltac:(lia)).
    assert (0 <= c * 10 ^ e) by (apply Z.mul_nonneg_nonneg; lia).
    destruct sg.
    + destruct (Z.ltb_spec (-1 * c * 10 ^ e) 0); lia.
    + destruct (Z.ltb_spec (1 * c * 10 ^ e) 0); lia.
  - cbn [orb] in Hw. apply Z.eqb_eq in Hw.
    rewrite Z.min_r by lia. rewrite Z.sub_diag, Z.pow_0_r, Z.mul_1_r.
    replace (0 - e) with (- e) by lia.
    pose proof (Z.pow_pos_nonneg 10 (- e) ltac:(lia) ltac:(lia)).
    assert (0 <= c / 10 ^ (- e)) by (apply Z.div_pos; lia).
    pose proof (Z.div_mod c (10 ^ (- e)) ltac:(lia)) as Hdm.
    rewrite Hw, Z.add_0_r in Hdm.
    destruct sg.
    + destruct (Z.ltb_spec (-1 * (c / 10 ^ (- e))) 0); nia.
    + destruct (Z.ltb_spec (1 * (c / 10 ^ (- e))) 0); nia.
Qed.

(** Beyond the precision the encoder raises: the values of 29 and more
    integer digits. *)
Lemma encoder_out_of_range (d : Decimal) :
  0 <= dcoef d ->
  10 ^ PREC <= Z.abs (dec_to_int d) ->
  DecimalEncoder_default d = Raise InvalidOperation.
Proof.
  destruct d as [sg c e]. unfold DecimalEncoder_default, dec_mod1,
    dec_is_zero, adjusted. cbn [dcoef dexp dsign]. intros Hc Hint.
  assert (HP : 0 < 10 ^ PREC) by (apply Z.pow_pos_nonneg; unfold PREC; lia).
  assert (Hq : 10 ^ PREC <= (if e >=? 0 then c * 10 ^ e else c / 10 ^ (- e))).
  { revert Hint. unfold dec_to_int; cbn [dcoef dexp dsign].
    destruct (e >=? 0) eqn:He.
    - apply Z.geb_le in He.
      pose proof (Z.pow_nonneg 10 e ltac:(lia)).
      assert (0 <= c * 10 ^ e) by (apply Z.mul_nonneg_nonneg; lia).
      destruct sg; lia.
    - assert (e < 0) by (destruct (Z.geb_spec e 0); [discriminate | lia]).
      pose proof (Z.pow_pos_nonneg 10 (- e) ltac:(lia) ltac:(lia)).
      assert (0 <= c / 10 ^ (- e)) by (apply Z.div_pos; lia).
      destruct sg; lia. }
  destruct (Z.eqb_spec c 0) as [->|Hnz].
  { exfalso. rewrite Z.mul_0_l, Zdiv_0_l in Hq. destruct (e >=? 0); lia. }
  assert (Hpos : 0 < c) by lia.
  destruct (digits_bounds c Hpos) as (Hd1 & Hlo & Hhi).
  cbn [orb].
  destruct (Z.leb_spec (e + digits c - 1) (-2)) as [Hsmall|Hbig].
  { exfalso. assert (He : e < 0) by lia.
    destruct (Z.geb_spec e 0) as [|_]; [lia|].
    assert (Hlt : c < 10 ^ (- e)).
    { eapply Z.lt_le_trans; [exact Hhi|]. apply Z.pow_le_mono_r; lia. }
    rewrite Z.div_small in Hq by lia. lia. }
  destruct (Z.leb_spec (e + digits c - 1) PREC) as [Hfit|Hover];
    [|reflexivity].
  destruct (Z.geb_spec e 0) as [He|He].
  - rewrite Z.div_1_r.
    destruct (Z.ltb_spec (c * 10 ^ e) (10 ^ PREC)); [lia | reflexivity].
  - destruct (Z.ltb_spec (c / 10 ^ (- e)) (10 ^ PREC)); [lia | reflexivity].
Qed.

(** C9.  The encoder turns a decimal into an integer when it is whole
    and into a float otherwise only while the value has at most 28
    integer digits.  [Decimal('1E+28')], a whole number the table can
    hold, is not converted: [obj % 1] raises [InvalidOperation], the
    serialization of the messages fails and the GET answers 500. *)
Theorem decimal_encoder_fails_beyond_28_digits :
  dec_whole (mkDecimal false 1 28) = true
  /\ DecimalEncoder_default (mkDecimal false 1 28) = Raise InvalidOperation
  /\ DecimalEncoder_default (mkDecimal false 1 27)
     = Ok (EInt 1000000000000000000000000000)
  /\ json_dumps DecimalEncoder_default (PDec (mkDecimal false 1 28))
     = Raise InvalidOperation
  /\ stored_chats Sample.table "u3"
     = PList [Sample.chat "c1" "Big" [Sample.message_huge_size]]
  /\ fst (ChatDetail.lambda_handler (Sample.request "GET" "u3" "c1")
            Sample.table)
     = mkResponse 500 ChatDetail.cors_headers
         (JsonText (JObj [("error", JStr "Internal server error")])).
Proof.
  repeat split; vm_compute; reflexivity.
Qed.

(** ** C3: GET *)

(** C3.  In the sample record of user u1 the chat c2 exists and has no
    messages.  GET for c2 answers 404 "Chat not found", the very answer
    GET gives for c9, an id no chat has, although DELETE for c2 finds
    the chat and answers 200. *)
Theorem get_found_but_empty_is_404 :
  stored_chats Sample.table "u1" = PList Sample.chats_u1
  /\ nth_error Sample.chats_u1 1 = Some (Sample.chat "c2" "T2" [])
  /\ has_id (PStr "c2") (Sample.chat "c2" "T2" []) = true
  /\ List.filter (has_id (PStr "c9")) Sample.chats_u1 = []
  /\ fst (ChatDetail.lambda_handler (Sample.request "GET" "u1" "c2")
            Sample.table)
     = mkResponse 404 ChatDetail.cors_headers
         (JsonText (JObj [("error", JStr "Chat not found")]))
  /\ fst (ChatDetail.lambda_handler (Sample.request "GET" "u1" "c9")
            Sample.table)
     = fst (ChatDetail.lambda_handler (Sample.request "GET" "u1" "c2")
              Sample.table)
  /\ statusCode (fst (ChatDetail.lambda_handler
                        (Sample.request "DELETE" "u1" "c2") Sample.table))
     = 200.
Proof.
  repeat split; vm_compute; reflexivity.
Qed.

(** ** The statements at the sample data *)

Ltac evaluate :=
  solve [ reflexivity
        | vm_compute; reflexivity
        | vm_compute; discriminate
        | repeat constructor ].

Lemma delete_present_chat_witness :
  ChatDetail.resolve_http_method (Sample.request "DELETE" "u1" "c1")
  = Ok (Some "DELETE")
  /\ claims_sub (Sample.request "DELETE" "u1" "c1") = Ok (PStr "u1")
  /\ ChatDetail.path_chat_id (Sample.request "DELETE" "u1" "c1")
     = Ok (PStr "c1")
  /\ available Sample.table = true
  /\ items Sample.table !! "u1" = Some (Sample.item "u1" Sample.chats_u1)
  /\ length (List.filter (has_id (PStr "c1")) Sample.chats_u1) = 1%nat
  /\ exists t' pre chat post,
       fst (ChatDetail.lambda_handler (Sample.request "DELETE" "u1" "c1")
              Sample.table)
       = mkResponse 200 ChatDetail.cors_headers
           (JsonText (JObj [("success", JBool true);
                            ("message", JStr "Chat deleted successfully")]))
       /\ snd (ChatDetail.lambda_handler (Sample.request "DELETE" "u1" "c1")
                 Sample.table) = t'
       /\ Sample.chats_u1 = (pre ++ chat :: post)%list
       /\ stored_chats t' "u1" = PList (pre ++ post)
       /\ S (length (pre ++ post)) = length Sample.chats_u1.
Proof.
  repeat (split; [evaluate|]).
  destruct (delete_present_chat (Sample.request "DELETE" "u1" "c1") "u1"
              (PStr "c1") Sample.table (Sample.item "u1" Sample.chats_u1)
              Sample.chats_u1 ltac:(evaluate) ltac:(evaluate) ltac:(evaluate)
              ltac:(evaluate) ltac:(evaluate) ltac:(evaluate) ltac:(evaluate)
              ltac:(evaluate))
    as (t' & pre & chat & post & Hh & Hs & _ & Hst & Hlen & _).
  exists t', pre, chat, post. rewrite Hh. auto.
Defined.

Lemma delete_absent_chat_witness :
  ChatDetail.resolve_http_method (Sample.request "DELETE" "u1" "c9")
  = Ok (Some "DELETE")
  /\ claims_sub (Sample.request "DELETE" "u1" "c9") = Ok (PStr "u1")
  /\ ChatDetail.path_chat_id (Sample.request "DELETE" "u1" "c9")
     = Ok (PStr "c9")
  /\ List.filter (has_id (PStr "c9")) Sample.chats_u1 = []
  /\ (exists t',
        ChatDetail.lambda_handler (Sample.request "DELETE" "u1" "c9")
          Sample.table
        = (mkResponse 404 ChatDetail.cors_headers
             (JsonText
                (JObj [("error", JStr "Chat not found or already deleted")])),
           t')
        /\ items t' = items Sample.table
        /\ writes t' = writes Sample.table)
  /\ statusCode
       (fst (ChatDetail.lambda_handler (Sample.request "DELETE" "u1" "c1")
               Sample.table)) = 200
  /\ statusCode
       (fst (ChatDetail.lambda_handler (Sample.request "DELETE" "u1" "c1")
               (snd (ChatDetail.lambda_handler
                       (Sample.request "DELETE" "u1" "c1") Sample.table))))
     = 404.
Proof.
  repeat (split; [evaluate|]).
  split.
  - destruct (delete_absent_chat (Sample.request "DELETE" "u1" "c9") "u1"
                (PStr "c9") Sample.table ltac:(evaluate) ltac:(evaluate)
                ltac:(evaluate)) as (Habsent & _ & _).
    destruct (Habsent Sample.chats_u1 ltac:(evaluate) ltac:(evaluate)
                ltac:(evaluate) ltac:(evaluate))
      as (t' & Hh & Hi & Hw & _).
    exists t'. auto.
  - split; [evaluate|].
    destruct (delete_absent_chat (Sample.request "DELETE" "u1" "c1") "u1"
                (PStr "c1") Sample.table ltac:(evaluate) ltac:(evaluate)
                ltac:(evaluate)) as (_ & _ & Hagain).
    apply (Hagain _ _ (surjective_pairing _) ltac:(evaluate)).
Defined.

Lemma delete_removes_every_match_witness :
  ChatDetail.resolve_http_method (Sample.request "DELETE" "u2" "c1")
  = Ok (Some "DELETE")
  /\ claims_sub (Sample.request "DELETE" "u2" "c1") = Ok (PStr "u2")
  /\ ChatDetail.path_chat_id (Sample.request "DELETE" "u2" "c1")
     = Ok (PStr "c1")
  /\ statusCode
       (fst (ChatDetail.lambda_handler (Sample.request "DELETE" "u2" "c1")
               Sample.table)) = 200
  /\ length (List.filter (has_id (PStr "c1")) Sample.chats_u2) = 2%nat
  /\ exists chats remaining,
       stored_chats Sample.table "u2" = PList chats
       /\ stored_chats
            (snd (ChatDetail.lambda_handler (Sample.request "DELETE" "u2" "c1")
                    Sample.table)) "u2" = PList remaining
       /\ remaining = List.filter (fun c => negb (has_id (PStr "c1") c)) chats
       /\ Forall (fun c => has_id (PStr "c1") c = false) remaining
       /\ sublist remaining chats
       /\ (forall c, In c chats -> has_id (PStr "c1") c = false ->
             In c remaining)
       /\ (length remaining + length (List.filter (has_id (PStr "c1")) chats)
           = length chats)%nat.
Proof.
  repeat (split; [evaluate|]).
  apply (delete_removes_every_match (Sample.request "DELETE" "u2" "c1") "u2"
           (PStr "c1") Sample.table _ _ ltac:(evaluate) ltac:(evaluate)
           ltac:(evaluate) (surjective_pairing _) ltac:(evaluate)).
Defined.

Lemma bad_message_does_not_abort_witness :
  Forall (fun m => is_dict m = true)
    [Sample.message "m1" "user" "hello"; Sample.message_bad_attachment;
     Sample.message "m3" "assistant" "hi"]
  /\ exists out,
       ChatDetail.process_messages
         [Sample.message "m1" "user" "hello"; Sample.message_bad_attachment;
          Sample.message "m3" "assistant" "hi"] [] = Ok out
       /\ length out = 3%nat
       /\ nth_error out 1 = Some (placeholder Sample.message_bad_attachment 1)
       /\ nth_error out 2
          = Some (sanitized (Sample.message "m3" "assistant" "hi") 2)
       /\ exists js,
            fst (ChatDetail.lambda_handler (Sample.request "GET" "u1" "c1")
                   Sample.table)
            = mkResponse 200 ChatDetail.cors_headers (JsonText (JArr js))
            /\ length js = 3%nat
            /\ exists jid jrole jcontent,
                 nth_error js 1
                 = Some (JObj [("id", jid); ("role", jrole);
                               ("content", jcontent);
                               ("note", JStr ChatDetail.MESSAGE_ERROR_NOTE)])
                 /\ jid = JStr "m2" /\ jrole = JStr "user".
Proof.
  split; [evaluate|].
  destruct (bad_message_does_not_abort
              [Sample.message "m1" "user" "hello"; Sample.message_bad_attachment;
               Sample.message "m3" "assistant" "hi"])
    as (out & Hout & Hlen & Hnth & Hbad & Hget); [evaluate|].
  assert (Henc : Forall encodable
                   [Sample.message "m1" "user" "hello";
                    Sample.message_bad_attachment;
                    Sample.message "m3" "assistant" "hi"])
    by (repeat constructor; eexists; vm_compute; reflexivity).
  exists out. split; [assumption|]. split; [assumption|].
  split.
  { apply (Hbad 1%nat _ (PStr "report.pdf")); evaluate. }
  split; [apply Hnth; reflexivity|].
  destruct (Hget (Sample.request "GET" "u1" "c1") "u1" (PStr "c1")
              Sample.table Sample.chats_u1 ltac:(evaluate) ltac:(evaluate)
              ltac:(evaluate) ltac:(evaluate) ltac:(evaluate) ltac:(evaluate)
              ltac:(discriminate) Henc)
    as (js & Hh & Hjs & Hnote).
  exists js. rewrite Hh. split; [reflexivity|]. split; [assumption|].
  destruct (Hnote 1%nat _ (PStr "report.pdf") eq_refl eq_refl eq_refl eq_refl)
    as (jid & jrole & jcontent & Hj & Hid & Hrole).
  exists jid, jrole, jcontent. split; [assumption|].
  vm_compute in Hid, Hrole. split; congruence.
Defined.

Lemma chat_list_is_complete_witness :
  claims_sub (Sample.request "GET" "u1" "c1") = Ok (PStr "u1")
  /\ available Sample.table = true
  /\ stored_chats Sample.table "u1" = PList Sample.chats_u1
  /\ fst (ChatList.lambda_handler (Sample.request "GET" "u1" "c1") Sample.table)
     = mkResponse 200 ChatList.success_headers
         (JsonText (JArr [JObj [("id", JStr "c1"); ("title", JStr "T1")];
                          JObj [("id", JStr "c2"); ("title", JStr "T2")]])).
Proof.
  repeat (split; [evaluate|]).
  assert (Hchats : Forall2 (fun c p => chat_with (fst p) (snd p) c)
                      Sample.chats_u1 [("c1", "T1"); ("c2", "T2")])
    by (repeat constructor; eexists; repeat split; reflexivity).
  destruct (chat_list_is_complete (Sample.request "GET" "u1" "c1") "u1"
              Sample.table Sample.chats_u1 [("c1", "T1"); ("c2", "T2")]
              ltac:(evaluate) ltac:(evaluate) ltac:(evaluate) Hchats)
    as (Hh & _).
  now rewrite Hh.
Defined.

Lemma method_detection_witness :
  event_shaped (Sample.request "options" "u1" "c1") = true
  /\ spec_probe_method (Sample.request "options" "u1" "c1")
     = Some (PStr "options")
  /\ ChatDetail.probe_http_method (Sample.request "options" "u1" "c1")
     = Ok (PStr "options")
  /\ ChatDetail.resolve_http_method (Sample.request "options" "u1" "c1")
     = Ok (Some "OPTIONS")
  /\ ChatDetail.lambda_handler (Sample.anonymous_request "options" "c1")
       Sample.table
     = (mkResponse 200 ChatDetail.cors_headers (Text ""), Sample.table)
  /\ event_shaped Sample.methodless_request = true
  /\ spec_probe_method Sample.methodless_request = None
  /\ ChatDetail.lambda_handler Sample.methodless_request Sample.table
     = (mkResponse 400 ChatDetail.cors_headers
          (JsonText
             (JObj [("error", JStr "HTTP method not found in request");
                    ("debug",
                     JObj [("eventKeys",
                            JArr [JStr "version"; JStr "requestContext"]);
                           ("requestContextKeys", JArr [JStr "stage"])])])),
        Sample.table).
Proof.
  split; [evaluate|]. split; [evaluate|].
  destruct (method_detection (Sample.request "options" "u1" "c1") Sample.table)
    as (Hprobe & Hupper & _).
  split; [exact (Hprobe eq_refl)|].
  split; [apply (Hupper "options" (Hprobe eq_refl)); discriminate|].
  destruct (method_detection (Sample.anonymous_request "options" "c1")
              Sample.table) as (_ & _ & Hpre & _).
  split; [exact (Hpre ltac:(evaluate))|].
  split; [evaluate|]. split; [evaluate|].
  destruct (method_detection Sample.methodless_request Sample.table)
    as (_ & _ & _ & Hnone & H400).
  exact (H400 (Hnone ltac:(evaluate) ltac:(evaluate))).
Defined.

Lemma missing_claim_is_401_witness :
  ChatDetail.resolve_http_method (Sample.anonymous_request "GET" "c1")
  = Ok (Some "GET")
  /\ "GET" <> "OPTIONS"
  /\ claims_sub (Sample.anonymous_request "GET" "c1")
     = Raise (KeyError "'authorizer'")
  /\ ChatDetail.lambda_handler (Sample.anonymous_request "GET" "c1")
       Sample.table
     = (mkResponse 401 ChatDetail.cors_headers
          (JsonText (JObj [("error", JStr "Authentication failed")])),
        Sample.table)
  /\ calls (snd (ChatDetail.lambda_handler (Sample.anonymous_request "GET" "c1")
                   Sample.table)) = [].
Proof.
  split; [evaluate|]. split; [discriminate|]. split; [evaluate|].
  assert (H401 := missing_claim_is_401 (Sample.anonymous_request "GET" "c1")
                    "GET" (KeyError "'authorizer'") Sample.table
                    eq_refl ltac:(discriminate) eq_refl).
  split; [exact H401|]. now rewrite H401.
Defined.

Lemma handlers_never_crash_witness :
  claims_sub (Sample.anonymous_request "GET" "c1")
  = Raise (KeyError "'authorizer'")
  /\ ChatList.lambda_handler (Sample.anonymous_request "GET" "c1") Sample.table
     = (ChatList.failure_response, Sample.table)
  /\ fst (get_item (user_key (PStr "u1")) Sample.table_down)
     = Raise (ClientError "ServiceUnavailable")
  /\ fst (ChatList.lambda_handler (Sample.request "GET" "u1" "c1")
            Sample.table_down) = ChatList.failure_response
  /\ In (statusCode
           (fst (ChatDetail.lambda_handler (Sample.request "GET" "u1" "c1")
                   Sample.table_down))) STATUS_CODES.
Proof.
  split; [evaluate|].
  destruct (handlers_never_crash (Sample.anonymous_request "GET" "c1")
              Sample.table) as (_ & _ & Hclaim & _).
  split; [apply (Hclaim _ eq_refl)|].
  split; [evaluate|].
  destruct (handlers_never_crash (Sample.request "GET" "u1" "c1")
              Sample.table_down) as (Hstatus & _ & _ & Hstore & _).
  split; [exact (Hstore (PStr "u1") (ClientError "ServiceUnavailable")
                    ltac:(evaluate) ltac:(evaluate))|].
  exact Hstatus.
Defined.

(** * Further properties of the handlers *)

(** ** Dispatch and error paths of the detail handler *)

Lemma eqb_false_of_neq (a b : string) : a <> b -> String.eqb a b = false.
Proof. intros Hab. now apply String.eqb_neq. Qed.

Lemma path_chat_id_raises event e :
  ChatDetail.path_chat_id event = Raise e -> is_key_or_type_error e = true.
Proof.
  unfold ChatDetail.path_chat_id.
  destruct (py_getitem event "pathParameters") as [pp|e'] eqn:Hpp; simpl.
  - apply py_getitem_raises.
  - intros [= <-]. exact (py_getitem_raises _ _ _ Hpp).
Qed.

(** X1.  An authenticated request whose method is resolved and is none
    of OPTIONS, GET, DELETE is answered 405 with the upper-cased method
    in the message, and the store is not called. *)
Theorem unsupported_method_is_405 {St : Type} `{Store St}
    (event : pyval) (m : string) (user_id : pyval) (s : St) :
  ChatDetail.resolve_http_method event = Ok (Some m) ->
  m <> "OPTIONS" -> m <> "GET" -> m <> "DELETE" ->
  claims_sub event = Ok user_id ->
  ChatDetail.lambda_handler event s
  = (mkResponse 405 ChatDetail.cors_headers
       (JsonText (JObj [("error", JStr ("Method " ++ m ++ " not allowed"))])),
     s).
Proof.
  intros Hr Ho Hg Hd Hc.
  unfold ChatDetail.lambda_handler, ChatDetail.handler_try.
  rewrite Hr, (eqb_false_of_neq _ _ Ho), Hc, (eqb_false_of_neq _ _ Hg),
    (eqb_false_of_neq _ _ Hd).
  reflexivity.
Qed.

(** X2.  An authenticated GET or DELETE whose event has no
    [pathParameters.chatId] is answered 400 "Chat ID not found in path
    parameters" before any store call. *)
Theorem missing_chat_id_is_400 {St : Type} `{Store St}
    (event : pyval) (m : string) (user_id : pyval) (e : exn) (s : St) :
  ChatDetail.resolve_http_method event = Ok (Some m) ->
  m = "GET" \/ m = "DELETE" ->
  claims_sub event = Ok user_id ->
  ChatDetail.path_chat_id event = Raise e ->
  ChatDetail.lambda_handler event s
  = (mkResponse 400 ChatDetail.cors_headers
       (JsonText (JObj [("error", JStr "Chat ID not found in path parameters")])),
     s).
Proof.
  intros Hr Hm Hc Hp.
  destruct (resolve_some_is_dict _ _ Hr) as [kv ->].
  unfold ChatDetail.lambda_handler, ChatDetail.handler_try.
  rewrite Hr, Hc.
  destruct Hm as [-> | ->]; simpl;
    unfold ChatDetail.handle_get, ChatDetail.handle_delete;
    rewrite Hp, (path_chat_id_raises _ _ Hp); reflexivity.
Qed.

(** X3.  When the read of the caller's record raises, GET and DELETE
    answer with the response of the outer [except] clauses: 500
    "Internal server error", except that a [KeyError] coming out of the
    store client is reported as a 400 "Missing required parameters".
    No write follows the failed read. *)
Theorem read_failure_response {St : Type} `{Store St}
    (event : pyval) (m : string) (user_id chat_id : pyval) (e : exn)
    (s s1 : St) :
  ChatDetail.resolve_http_method event = Ok (Some m) ->
  m = "GET" \/ m = "DELETE" ->
  claims_sub event = Ok user_id ->
  ChatDetail.path_chat_id event = Ok chat_id ->
  get_item (user_key user_id) s = (Raise e, s1) ->
  ChatDetail.lambda_handler event s = (response_of_exception e, s1).
Proof.
  intros Hr Hm Hc Hp Hg.
  unfold ChatDetail.lambda_handler, ChatDetail.handler_try.
  rewrite Hr, Hc.
  destruct Hm as [-> | ->]; simpl;
    unfold ChatDetail.handle_get, ChatDetail.handle_delete,
      ChatDetail.get_chat_messages, ChatDetail.delete_chat;
    rewrite Hp, Hg; simpl; destruct e; reflexivity.
Qed.

(** X4.  When the read succeeds and a match is to be removed but the
    update raises, DELETE does not answer 200: it answers with the
    response of the outer [except] clauses, and the state is the one
    the failed update left. *)
Theorem write_failure_response {St : Type} `{Store St}
    (event : pyval) (user_id chat_id response : pyval)
    (updated : list pyval) (e : exn) (s s1 s2 : St) :
  ChatDetail.resolve_http_method event = Ok (Some "DELETE") ->
  claims_sub event = Ok user_id ->
  ChatDetail.path_chat_id event = Ok chat_id ->
  get_item (user_key user_id) s = (Ok response, s1) ->
  ChatDetail.chats_to_write response chat_id = Ok (Some updated) ->
  update_item (user_key user_id) "SET chats = :chats"
    (PDict [(":chats", PList updated)]) s1 = (Raise e, s2) ->
  ChatDetail.lambda_handler event s = (response_of_exception e, s2).
Proof.
  intros Hr Hc Hp Hg Hw Hu.
  unfold ChatDetail.lambda_handler, ChatDetail.handler_try.
  rewrite Hr, Hc; simpl.
  unfold ChatDetail.handle_delete, ChatDetail.delete_chat.
  rewrite Hp, Hg; simpl. rewrite Hw, Hu; simpl. destruct e; reflexivity.
Qed.

(** ** What a request can do to the table *)

Lemma table_get_item_effect key (t : Table) :
  items (snd (table_get_item key t)) = items t
  /\ writes (snd (table_get_item key t)) = writes t
  /\ available (snd (table_get_item key t)) = available t
  /\ calls (snd (table_get_item key t)) = (calls t ++ [GetItem key])%list.
Proof.
  assert (Hw : writes (record_call (GetItem key) t) = writes t).
  { unfold writes, record_call; simpl. rewrite List.filter_app; simpl.
    now rewrite app_nil_r. }
  unfold table_get_item.
  destruct (negb (available t)); [now repeat split|].
  destruct (key_user_id key); now repeat split.
Qed.

Lemma table_get_item_ok_inv key (t : Table) response :
  fst (table_get_item key t) = Ok response ->
  available t = true /\ exists uid, key_user_id key = Some uid.
Proof.
  unfold table_get_item. destruct (available t); simpl; [|discriminate].
  destruct (key_user_id key) as [uid|]; simpl; [eauto | discriminate].
Qed.

Lemma key_user_id_inv user_id uid :
  key_user_id (user_key user_id) = Some uid -> user_id = PStr uid.
Proof.
  unfold user_key; simpl. destruct user_id; try discriminate.
  now intros [= ->].
Qed.

Lemma dict_set_cons k v k0 v0 kv :
  dict_set k v ((k0, v0) :: kv)
  = if String.eqb k k0 then (k, v) :: kv else (k0, v0) :: dict_set k v kv.
Proof. reflexivity. Qed.

Lemma dict_lookup_set_ne k k' v kv :
  k <> k' -> dict_lookup k (dict_set k' v kv) = dict_lookup k kv.
Proof.
  intros Hne. apply String.eqb_neq in Hne.
  induction kv as [|[k0 v0] kv IH].
  - change (dict_set k' v []) with [(k', v)]. cbn [dict_lookup].
    now rewrite Hne.
  - rewrite dict_set_cons.
    destruct (String.eqb k' k0) eqn:E; cbn [dict_lookup].
    + apply String.eqb_eq in E; subst k0. now rewrite Hne.
    + now rewrite IH.
Qed.

(** The table after the detail handler has run, case by case. *)
Lemma detail_table_effect (event : pyval) (t : Table) :
  let t' := snd (ChatDetail.lambda_handler event t) in
  (items t' = items t /\ writes t' = writes t)
  \/ (exists (uid : string) chat_id item updated,
        ChatDetail.resolve_http_method event = Ok (Some "DELETE")
        /\ claims_sub event = Ok (PStr uid)
        /\ ChatDetail.path_chat_id event = Ok chat_id
        /\ available t = true
        /\ items t !! uid = Some item
        /\ ChatDetail.chats_to_write (PDict [("Item", PDict item)]) chat_id
           = Ok (Some updated)
        /\ ChatDetail.lambda_handler event t
           = (ChatDetail.json_response 200 ChatDetail.deleted_body,
              mkTable (<[uid := dict_set "chats" (PList updated) item]> (items t))
                (calls t ++
                   [GetItem (user_key (PStr uid));
                    UpdateItem (user_key (PStr uid)) "SET chats = :chats"
                      (PDict [(":chats", PList updated)])])
                (available t))).
Proof.
  cbv zeta.
  assert (Hrec : forall key,
             items (record_call (GetItem key) t) = items t
             /\ writes (record_call (GetItem key) t) = writes t).
  { intros key. split; [reflexivity|]. unfold writes, record_call; simpl.
    rewrite List.filter_app; simpl. now rewrite app_nil_r. }
  destruct (ChatDetail.resolve_http_method event) as [[m|]|e] eqn:Hr.
  2:{ left. unfold ChatDetail.lambda_handler, ChatDetail.handler_try.
      rewrite Hr.
      destruct (ChatDetail.method_not_found_body event) as [|[]];
        simpl; auto. }
  2:{ left. unfold ChatDetail.lambda_handler, ChatDetail.handler_try.
      rewrite Hr. destruct e; simpl; auto. }
  destruct (claims_sub event) as [user_id|e] eqn:Hc.
  2:{ left. unfold ChatDetail.lambda_handler, ChatDetail.handler_try.
      rewrite Hr, Hc. destruct (String.eqb m "OPTIONS"); [simpl; auto|].
      destruct (is_key_or_type_error e);
        [destruct (py_get event "requestContext" (PDict [])) as [|[]]
        | destruct e]; simpl; auto. }
  destruct (ChatDetail.path_chat_id event) as [chat_id|e] eqn:Hp.
  2:{ left. unfold ChatDetail.lambda_handler, ChatDetail.handler_try,
        ChatDetail.handle_get, ChatDetail.handle_delete.
      rewrite Hr, Hc, Hp. destruct (String.eqb m "OPTIONS"); [simpl; auto|].
      destruct (String.eqb m "GET"), (String.eqb m "DELETE");
        (destruct (is_key_or_type_error e);
         [destruct (py_get event "pathParameters" (PDict [])) as [|[]]
         | destruct e]); simpl; auto. }
  destruct (table_get_item_effect (user_key user_id) t) as (Hi & Hw & _).
  destruct (String.eqb_spec m "DELETE") as [->|Hnd].
  - destruct (table_get_item (user_key user_id) t) as [r t1] eqn:Hget.
    destruct r as [response|e].
    + destruct (table_get_item_ok_inv (user_key user_id) t response)
        as (Ha & uid & Hk); [now rewrite Hget|].
      apply key_user_id_inv in Hk. subst user_id.
      rewrite (delete_on_table event uid chat_id t Hr Hc Hp Ha). cbv zeta.
      destruct (items t !! uid) as [item|] eqn:Hitem;
        [|left; apply Hrec].
      destruct (ChatDetail.chats_to_write _ chat_id) as [[updated|]|e] eqn:Hcw.
      * right. exists uid, chat_id, item, updated. repeat split; auto.
      * left. apply Hrec.
      * left. destruct e; apply Hrec.
    + left. unfold ChatDetail.lambda_handler, ChatDetail.handler_try,
        ChatDetail.handle_delete, ChatDetail.delete_chat.
      rewrite Hr, Hc, Hp. simpl get_item. rewrite Hget.
      simpl in Hi, Hw. destruct e; simpl; auto.
  - left. unfold ChatDetail.lambda_handler, ChatDetail.handler_try,
      ChatDetail.handle_get, ChatDetail.get_chat_messages.
    rewrite Hr, Hc, Hp. destruct (String.eqb m "OPTIONS"); [simpl; auto|].
    rewrite (eqb_false_of_neq _ _ Hnd).
    destruct (String.eqb m "GET"); [|simpl; auto].
    simpl get_item.
    destruct (table_get_item (user_key user_id) t) as [r t1].
    simpl in Hi, Hw. cbn [rbind].
    destruct (do messages <- (do response <- r;
                 ChatDetail.messages_of_response response chat_id); _)
      as [|[]]; simpl; auto.
Qed.

(** X5.  On the reference table, a request that is not a DELETE, or
    that is not answered 200, leaves every item as it was and sends no
    write. *)
Theorem only_successful_delete_writes (event : pyval) (t : Table) :
  ChatDetail.resolve_http_method event <> Ok (Some "DELETE")
  \/ statusCode (fst (ChatDetail.lambda_handler event t)) <> 200 ->
  items (snd (ChatDetail.lambda_handler event t)) = items t
  /\ writes (snd (ChatDetail.lambda_handler event t)) = writes t.
Proof.
  intros Hnot.
  destruct (detail_table_effect event t) as [Hsame | Hdel]; [exact Hsame|].
  destruct Hdel as (uid & cid & item & updated & Hr & _ & _ & _ & _ & _ & Hh).
  exfalso. destruct Hnot as [Hn | Hn]; [now apply Hn|].
  apply Hn. now rewrite Hh.
Qed.

(** X6.  A request changes no record but the one of the user its
    identity claim names: the item of every other user is the same
    after the handler has run, whatever the event. *)
Theorem other_users_untouched (event : pyval) (t : Table) (u : string) :
  claims_sub event <> Ok (PStr u) ->
  items (snd (ChatDetail.lambda_handler event t)) !! u = items t !! u.
Proof.
  intros Hu.
  destruct (detail_table_effect event t) as [[Hsame _] | Hdel];
    [now rewrite Hsame|].
  destruct Hdel as (uid & cid & item & updated & _ & Hc & _ & _ & _ & _ & Hh).
  rewrite Hh; simpl. apply lookup_insert_ne. intros ->. now apply Hu.
Qed.

(** X7.  Whatever the event, the handler creates no record, keeps every
    attribute of a record other than [chats], and either leaves the
    stored chats as they were or replaces them by a strictly shorter
    subsequence of them: no chat is added, altered or reordered. *)
Theorem record_only_shrinks (event : pyval) (t : Table) (u : string) :
  let t' := snd (ChatDetail.lambda_handler event t) in
  (items t !! u = None -> items t' !! u = None)
  /\ (forall item, items t !! u = Some item ->
        exists item',
          items t' !! u = Some item'
          /\ forall k, k <> "chats" -> dict_lookup k item' = dict_lookup k item)
  /\ (stored_chats t' u = stored_chats t u
      \/ exists chats chats',
           stored_chats t u = PList chats
           /\ stored_chats t' u = PList chats'
           /\ sublist chats' chats
           /\ (length chats' < length chats)%nat).
Proof.
  cbv zeta.
  destruct (detail_table_effect event t) as [[Hsame _] | Hdel].
  { unfold stored_chats. rewrite Hsame. repeat split; eauto. }
  destruct Hdel as (uid & cid & item & updated & _ & _ & _ & _ & Hitem & Hcw & Hh).
  rewrite Hh; cbn [snd items]. unfold stored_chats; cbn [items].
  destruct (String.eqb_spec u uid) as [->|Hne].
  - rewrite lookup_insert_eq. split; [congruence|]. split.
    + intros item0 H0. rewrite Hitem in H0. injection H0 as <-.
      eexists. split; [reflexivity|]. intros k Hk.
      now apply dict_lookup_set_ne.
    + right. destruct (chats_to_write_some _ _ _ Hcw) as (chats & Hl & Hd & ->).
      exists chats, (List.filter (fun c => negb (has_id cid c)) chats).
      rewrite Hitem, Hl, dict_lookup_set_eq.
      split; [reflexivity|]. split; [reflexivity|].
      split; [apply filter_sublist|].
      pose proof (filter_split_length (has_id cid) chats) as Hlen.
      assert (Hcw' := Hcw).
      rewrite (chats_to_write_found _ _ cid Hl Hd) in Hcw'.
      destruct (_ =? _)%nat eqn:E; [discriminate|].
      apply Nat.eqb_neq in E. lia.
  - rewrite lookup_insert_ne by congruence.
    repeat split; eauto.
Qed.

(** ** Shape of the answers *)

(** X8.  Every answer of the detail handler, success or error, carries
    the same four CORS headers; its body is a JSON document except in
    the answer to OPTIONS, whose body is the empty text. *)
Theorem detail_answers_are_cors_json {St : Type} `{Store St}
    (event : pyval) (s : St) :
  headers (fst (ChatDetail.lambda_handler event s)) = ChatDetail.cors_headers
  /\ forall txt,
       body (fst (ChatDetail.lambda_handler event s)) = Text txt ->
       txt = "" /\ statusCode (fst (ChatDetail.lambda_handler event s)) = 200
       /\ ChatDetail.resolve_http_method event = Ok (Some "OPTIONS").
Proof.
  unfold ChatDetail.lambda_handler, ChatDetail.handler_try,
    ChatDetail.handle_get, ChatDetail.handle_delete,
    ChatDetail.get_chat_messages, ChatDetail.delete_chat, rbind.
  destruct (ChatDetail.resolve_http_method event) as [[m|]|e] eqn:Hr.
  - destruct (String.eqb_spec m "OPTIONS") as [->|Hm].
    + simpl. split; [reflexivity|]. now intros txt [= <-].
    + repeat (break_match; simpl in *; subst; try discriminate);
        repeat match goal with
               | H : (_, _) = (_, _) |- _ => injection H as <- <-
               end; simpl; (split; [reflexivity | intros txt; discriminate]).
  - repeat (break_match; simpl in *; subst; try discriminate);
      simpl; (split; [reflexivity | intros txt; discriminate]).
  - destruct e; simpl; (split; [reflexivity | intros txt; discriminate]).
Qed.

(** ** Events the detection cannot walk *)

Lemma py_contains_raises k c e :
  py_contains k c = Raise e -> e = TypeError.
Proof. destruct c; simpl; congruence. Qed.

Lemma resolve_malformed event :
  event_malformed event = true ->
  ChatDetail.resolve_http_method event = Raise TypeError
  \/ ChatDetail.resolve_http_method event = Raise AttributeError.
Proof.
  intros Hm.
  destruct (is_dict event) eqn:Hd.
  - destruct event as [| | | | | |kv]; try discriminate.
    cbn [event_malformed] in Hm.
    destruct (dict_lookup "httpMethod" kv) eqn:Hh; [discriminate|].
    destruct (dict_lookup "requestContext" kv) as [rc|] eqn:Hrc;
      [|discriminate].
    assert (Hg : forall k, py_getitem rc k = Raise TypeError)
      by (destruct rc; try discriminate; reflexivity).
    assert (Hk : py_keys rc = Raise AttributeError)
      by (destruct rc; try discriminate; reflexivity).
    unfold ChatDetail.resolve_http_method, ChatDetail.probe_http_method,
      py_and.
    cbn [py_contains py_getitem py_keys rbind]. rewrite Hh, Hrc.
    cbn [rbind]. rewrite !Hg, Hk.
    destruct (py_contains "httpMethod" rc) as [[|]|e1] eqn:H1; cbn [rbind];
      [now left | | apply py_contains_raises in H1; subst; now left].
    destruct (py_contains "http" rc) as [[|]|e2] eqn:H2; cbn [rbind];
      [now left | | apply py_contains_raises in H2; subst; now left].
    destruct (dict_lookup "resource" kv); cbn [rbind py_truthy]; now right.
  - assert (Hg : forall k, py_getitem event k = Raise TypeError)
      by (destruct event; try discriminate; reflexivity).
    assert (Hk : py_keys event = Raise AttributeError)
      by (destruct event; try discriminate; reflexivity).
    unfold ChatDetail.resolve_http_method, ChatDetail.probe_http_method,
      py_and, rbind.
    rewrite !Hg, Hk.
    repeat match goal with
           | |- context [py_contains ?k event] =>
               let E := fresh in
               destruct (py_contains k event) as [[|]|?] eqn:E;
               [ | | apply py_contains_raises in E; subst ]
           end; auto.
Qed.

(** X9.  An event that is not an object, or that has no top-level
    [httpMethod] and a [requestContext] that is not an object, is
    answered 500 "Internal server error": the detection raises before
    the method is known, and the store is not called. *)
Theorem malformed_event_is_500 {St : Type} `{Store St}
    (event : pyval) (s : St) :
  event_malformed event = true ->
  ChatDetail.lambda_handler event s
  = (mkResponse 500 ChatDetail.cors_headers
       (JsonText (JObj [("error", JStr "Internal server error")])), s).
Proof.
  intros Hm. unfold ChatDetail.lambda_handler, ChatDetail.handler_try.
  destruct (resolve_malformed _ Hm) as [-> | ->]; reflexivity.
Qed.

(** ** GET *)

Lemma find_target_first pre chat post cid ckv :
  Forall (fun c => is_dict c = true) pre ->
  List.filter (has_id cid) pre = [] ->
  chat = PDict ckv ->
  has_id cid chat = true ->
  ChatDetail.find_target_messages (pre ++ chat :: post) cid
  = Ok (match dict_lookup "messages" ckv with
        | Some ms => ms
        | None => PList []
        end).
Proof.
  intros Hd Hnone -> Hid.
  induction Hd as [|c pre Hc _ IH]; cbn [app ChatDetail.find_target_messages].
  - unfold has_id in Hid. cbn [py_get] in *. cbn [rbind]. now rewrite Hid.
  - destruct c as [| | | | | |kv]; try discriminate.
    cbn [List.filter] in Hnone. unfold has_id at 1 in Hnone.
    cbn [py_get] in *. cbn [rbind].
    destruct (py_eq _ cid); [discriminate|]. now apply IH.
Qed.

(** X10.  GET for an id that no chat of the caller's record carries (no
    record, no chats, or other ids) answers 404 "Chat not found" after
    one read and without a write. *)
Theorem get_absent_chat_is_404 (event : pyval) (uid : string) (cid : pyval)
    (t : Table) (chats : list pyval) :
  ChatDetail.resolve_http_method event = Ok (Some "GET") ->
  claims_sub event = Ok (PStr uid) ->
  ChatDetail.path_chat_id event = Ok cid ->
  available t = true ->
  stored_chats t uid = PList chats ->
  Forall (fun c => is_dict c = true) chats ->
  List.filter (has_id cid) chats = [] ->
  exists t',
    ChatDetail.lambda_handler event t
    = (mkResponse 404 ChatDetail.cors_headers
         (JsonText (JObj [("error", JStr "Chat not found")])), t')
    /\ items t' = items t
    /\ calls t' = (calls t ++ [GetItem (user_key (PStr uid))])%list.
Proof.
  intros Hr Hc Hp Ha Hs Hd Hnone.
  rewrite (get_absent_chat_404 _ _ _ _ _ Hr Hc Hp Ha Hs Hd Hnone).
  eexists. split; [reflexivity|]. split; reflexivity.
Qed.

(** X11.  GET answers from the first chat that carries the id: when the
    chats before it are objects with other ids and its messages are a
    non-empty sequence of serializable objects, the answer is 200 with
    one document per message, in order, each the encoding of that
    message's sanitized form; chats after the first match, even with
    the same id, play no part. *)
Theorem get_answers_from_first_match (event : pyval) (uid : string)
    (cid : pyval) (t : Table) (pre post : list pyval)
    (ckv : list (string * pyval)) (msgs : list pyval) :
  ChatDetail.resolve_http_method event = Ok (Some "GET") ->
  claims_sub event = Ok (PStr uid) ->
  ChatDetail.path_chat_id event = Ok cid ->
  available t = true ->
  stored_chats t uid = PList (pre ++ PDict ckv :: post) ->
  Forall (fun c => is_dict c = true) pre ->
  List.filter (has_id cid) pre = [] ->
  has_id cid (PDict ckv) = true ->
  dict_lookup "messages" ckv = Some (PList msgs) ->
  msgs <> [] ->
  Forall (fun m => is_dict m = true) msgs ->
  Forall encodable msgs ->
  exists js,
    ChatDetail.lambda_handler event t
    = (mkResponse 200 ChatDetail.cors_headers (JsonText (JArr js)),
       record_call (GetItem (user_key (PStr uid))) t)
    /\ length js = length msgs
    /\ forall i m, nth_error msgs i = Some m ->
         exists j, nth_error js i = Some j
                   /\ json_dumps DecimalEncoder_default (sanitized m i) = Ok j.
Proof.
  intros Hr Hc Hp Ha Hs Hd Hnone Hid Hms Hne Hdm He.
  apply (get_present_chat_200 event uid cid t _ msgs Hr Hc Hp Ha Hs);
    try assumption.
  rewrite (find_target_first pre (PDict ckv) post cid ckv Hd Hnone eq_refl Hid).
  now rewrite Hms.
Qed.

(** ** DELETE followed by other requests *)

Lemma list_on_table event (uid : string) (t : Table) :
  claims_sub event = Ok (PStr uid) ->
  available t = true ->
  ChatList.lambda_handler event t
  = (match (do chats <- py_iter (stored_chats t uid);
            do l <- ChatList.chat_list_for_sidebar chats;
            do j <- json_dumps JSONEncoder_default (PList l);
            Ok (mkResponse 200 ChatList.success_headers (JsonText j))) with
     | Ok resp => resp
     | Raise _ => ChatList.failure_response
     end,
     record_call (GetItem (user_key (PStr uid))) t).
Proof.
  intros Hc Ha. unfold ChatList.lambda_handler, ChatList.handler_try.
  rewrite Hc, (table_get_item_ok _ _ Ha). cbn [rbind].
  assert (Heq : ChatList.response_of
                  match items t !! uid with
                  | Some item => PDict [("Item", PDict item)]
                  | None => PDict []
                  end
                = (do chats <- py_iter (stored_chats t uid);
                   do l <- ChatList.chat_list_for_sidebar chats;
                   do j <- json_dumps JSONEncoder_default (PList l);
                   Ok (mkResponse 200 ChatList.success_headers (JsonText j)))).
  { unfold ChatList.response_of, stored_chats.
    destruct (items t !! uid) as [item|]; cbn [py_get dict_lookup rbind];
      [|reflexivity].
    simpl. now destruct (dict_lookup "chats" item). }
  rewrite Heq. now destruct (rbind _ _).
Qed.

Lemma has_id_chat_with i ttl c cid :
  chat_with i ttl c -> has_id (PStr cid) c = String.eqb i cid.
Proof.
  intros (kv & -> & Hi & _). unfold has_id. cbn [py_get]. now rewrite Hi.
Qed.

Lemma filter_chat_with chats pairs cid :
  Forall2 (fun c p => chat_with (fst p) (snd p) c) chats pairs ->
  Forall2 (fun c p => chat_with (fst p) (snd p) c)
    (List.filter (fun c => negb (has_id (PStr cid) c)) chats)
    (List.filter (fun p => negb (String.eqb (fst p) cid)) pairs).
Proof.
  induction 1 as [|c p chats pairs Hc _ IH]; cbn [List.filter];
    [constructor|].
  rewrite (has_id_chat_with _ _ _ cid Hc).
  destruct (String.eqb (fst p) cid); cbn [negb]; [assumption|].
  now constructor.
Qed.

(** What a DELETE that answered 200 has left in the table. *)
Lemma delete_200_state event (uid : string) cid (t t1 : Table) resp :
  ChatDetail.resolve_http_method event = Ok (Some "DELETE") ->
  claims_sub event = Ok (PStr uid) ->
  ChatDetail.path_chat_id event = Ok cid ->
  ChatDetail.lambda_handler event t = (resp, t1) ->
  statusCode resp = 200 ->
  available t1 = true
  /\ exists chats,
       stored_chats t uid = PList chats
       /\ Forall (fun c => is_dict c = true) chats
       /\ stored_chats t1 uid
          = PList (List.filter (fun c => negb (has_id cid c)) chats).
Proof.
  intros Hr Hc Hp H1 H200.
  destruct (detail_table_effect event t) as [[Hsame Hw] | Hdel].
  - exfalso. rewrite H1 in Hsame, Hw. simpl in Hsame, Hw.
    destruct (available t) eqn:Ha.
    + rewrite (delete_on_table _ _ _ _ Hr Hc Hp Ha) in H1. cbv zeta in H1.
      destruct (items t !! uid) as [item|];
        [|injection H1 as <- <-; discriminate].
      destruct (ChatDetail.chats_to_write _ cid) as [[updated|]|e].
      * injection H1 as <- <-. unfold writes in Hw. simpl in Hw.
        rewrite List.filter_app in Hw. simpl in Hw.
        apply (f_equal (@length call)) in Hw.
        rewrite length_app in Hw. simpl in Hw. lia.
      * injection H1 as <- <-. discriminate.
      * destruct e; injection H1 as <- <-; discriminate.
    + revert H1.
      unfold ChatDetail.lambda_handler, ChatDetail.handler_try.
      rewrite Hr, Hc; simpl. unfold ChatDetail.handle_delete. rewrite Hp.
      unfold ChatDetail.delete_chat; simpl. unfold table_get_item.
      rewrite Ha; simpl. intros [= <- <-]. discriminate.
  - destruct Hdel as (uid' & cid' & item & updated & _ & Hc' & Hp' & Ha
                      & Hitem & Hcw & Hh).
    rewrite Hc in Hc'. injection Hc' as <-.
    rewrite Hp in Hp'. injection Hp' as <-.
    rewrite H1 in Hh. injection Hh as -> ->.
    split; [exact Ha|].
    destruct (chats_to_write_some _ _ _ Hcw) as (chats & Hl & Hd & ->).
    exists chats. unfold stored_chats; cbn [items].
    rewrite Hitem, Hl, lookup_insert_eq, dict_lookup_set_eq. auto.
Qed.

(** X12.  After a DELETE that answered 200, a GET by the same user for
    the same id answers 404, and the chat list of that user is the
    former list without the pairs of that id, the other pairs in their
    former order. *)
Theorem deleted_chat_is_gone (ev_delete ev_get ev_list : pyval)
    (uid cid : string) (t t1 : Table) (resp : Response)
    (chats : list pyval) (pairs : list (string * string)) :
  ChatDetail.resolve_http_method ev_delete = Ok (Some "DELETE") ->
  claims_sub ev_delete = Ok (PStr uid) ->
  ChatDetail.path_chat_id ev_delete = Ok (PStr cid) ->
  ChatDetail.resolve_http_method ev_get = Ok (Some "GET") ->
  claims_sub ev_get = Ok (PStr uid) ->
  ChatDetail.path_chat_id ev_get = Ok (PStr cid) ->
  claims_sub ev_list = Ok (PStr uid) ->
  stored_chats t uid = PList chats ->
  Forall2 (fun c p => chat_with (fst p) (snd p) c) chats pairs ->
  ChatDetail.lambda_handler ev_delete t = (resp, t1) ->
  statusCode resp = 200 ->
  fst (ChatDetail.lambda_handler ev_get t1)
  = mkResponse 404 ChatDetail.cors_headers
      (JsonText (JObj [("error", JStr "Chat not found")]))
  /\ fst (ChatList.lambda_handler ev_list t1)
     = mkResponse 200 ChatList.success_headers
         (JsonText
            (JArr (map summary
                     (List.filter (fun p => negb (String.eqb (fst p) cid))
                        pairs)))).
Proof.
  intros Hrd Hcd Hpd Hrg Hcg Hpg Hcl Hs Hall H1 H200.
  destruct (delete_200_state _ _ _ _ _ _ Hrd Hcd Hpd H1 H200)
    as (Ha1 & chats' & Hs' & Hd & Hs1).
  rewrite Hs in Hs'. injection Hs' as <-.
  split.
  - rewrite (get_absent_chat_404 ev_get uid (PStr cid) t1 _ Hrg Hcg Hpg Ha1 Hs1).
    + reflexivity.
    + now apply filter_forall_dict.
    + apply filter_negb_none.
  - rewrite (list_on_table _ _ _ Hcl Ha1), Hs1. cbn [fst py_iter rbind].
    destruct (chat_list_for_sidebar_spec _ _ (filter_chat_with _ _ cid Hall))
      as (l & Hl & Hj).
    rewrite Hl. cbn [rbind]. rewrite json_dumps_PList, Hj. reflexivity.
Qed.

Lemma find_target_other_id chats (cid cid' : string) :
  Forall (fun c => exists i, chat_id_is i c) chats ->
  cid <> cid' ->
  ChatDetail.find_target_messages
    (List.filter (fun c => negb (has_id (PStr cid) c)) chats) (PStr cid')
  = ChatDetail.find_target_messages chats (PStr cid').
Proof.
  intros Hall Hne.
  induction Hall as [|c chats (i & kv & -> & Hi) _ IH]; [reflexivity|].
  cbn [List.filter]. unfold has_id at 1. cbn [py_get]. rewrite Hi.
  cbn [py_eq ChatDetail.find_target_messages py_get rbind]. rewrite Hi.
  cbn [py_eq].
  destruct (String.eqb_spec i cid) as [->|Hic]; cbn [negb].
  - rewrite (eqb_false_of_neq _ _ Hne). exact IH.
  - cbn [ChatDetail.find_target_messages py_get rbind]. rewrite Hi.
    cbn [py_eq]. destruct (String.eqb i cid'); [reflexivity | exact IH].
Qed.

(** X13.  Deleting one chat does not change what GET answers for
    another: after a DELETE of [cid] that answered 200, GET for a
    different id [cid'] answers exactly as it did before (chats with
    string ids). *)
Theorem delete_keeps_other_chats (ev_delete ev_get : pyval)
    (uid cid cid' : string) (t t1 : Table) (resp : Response)
    (chats : list pyval) :
  ChatDetail.resolve_http_method ev_delete = Ok (Some "DELETE") ->
  claims_sub ev_delete = Ok (PStr uid) ->
  ChatDetail.path_chat_id ev_delete = Ok (PStr cid) ->
  ChatDetail.resolve_http_method ev_get = Ok (Some "GET") ->
  claims_sub ev_get = Ok (PStr uid) ->
  ChatDetail.path_chat_id ev_get = Ok (PStr cid') ->
  cid <> cid' ->
  stored_chats t uid = PList chats ->
  Forall (fun c => exists i, chat_id_is i c) chats ->
  ChatDetail.lambda_handler ev_delete t = (resp, t1) ->
  statusCode resp = 200 ->
  fst (ChatDetail.lambda_handler ev_get t1)
  = fst (ChatDetail.lambda_handler ev_get t).
Proof.
  intros Hrd Hcd Hpd Hrg Hcg Hpg Hne Hs Hall H1 H200.
  destruct (delete_200_state _ _ _ _ _ _ Hrd Hcd Hpd H1 H200)
    as (Ha1 & chats' & Hs' & Hd & Hs1).
  rewrite Hs in Hs'. injection Hs' as <-.
  assert (Ha : available t = true).
  { destruct (available t) eqn:Ha; [reflexivity|]. exfalso. revert H1.
    unfold ChatDetail.lambda_handler, ChatDetail.handler_try.
    rewrite Hrd, Hcd; simpl. unfold ChatDetail.handle_delete. rewrite Hpd.
    unfold ChatDetail.delete_chat; simpl. unfold table_get_item.
    rewrite Ha; simpl. intros [= <- <-]. discriminate. }
  unfold ChatDetail.lambda_handler.
  rewrite (get_on_table _ _ _ _ Hrg Hcg Hpg Ha1),
    (get_on_table _ _ _ _ Hrg Hcg Hpg Ha), Hs, Hs1.
  unfold messages_of_chats. cbn [py_iter rbind].
  rewrite (find_target_other_id _ _ _ Hall Hne).
  match goal with
  | |- fst (match ?x with _ => _ end) = _ => destruct x as [?|[]]
  end; reflexivity.
Qed.

(** ** Sanitization as a projection *)

Lemma dict_lookup_set k k' v kv :
  dict_lookup k (dict_set k' v kv)
  = if String.eqb k k' then Some v else dict_lookup k kv.
Proof.
  destruct (String.eqb_spec k k') as [->|Hne].
  - apply dict_lookup_set_eq.
  - now apply dict_lookup_set_ne.
Qed.

Lemma lookup_copy k k' kv dst :
  dict_lookup k (match dict_lookup k' kv with
                 | Some v => dict_set k' v dst
                 | None => dst
                 end)
  = if String.eqb k k'
    then match dict_lookup k' kv with
         | Some v => Some v
         | None => dict_lookup k dst
         end
    else dict_lookup k dst.
Proof.
  destruct (dict_lookup k' kv); [rewrite dict_lookup_set|];
    now destruct (String.eqb k k').
Qed.

Lemma lookup_copy_truthy k k' kv dst :
  dict_lookup k (match dict_lookup k' kv with
                 | Some v => if py_truthy v then dict_set k' v dst else dst
                 | None => dst
                 end)
  = if String.eqb k k'
    then match lookup_truthy k' kv with
         | Some v => Some v
         | None => dict_lookup k dst
         end
    else dict_lookup k dst.
Proof.
  unfold lookup_truthy.
  destruct (dict_lookup k' kv) as [v|]; [destruct (py_truthy v)|];
    rewrite ?dict_lookup_set; now destruct (String.eqb k k').
Qed.

Lemma process_attachment_dict kv :
  kv <> [] ->
  ChatDetail.process_attachment (PDict kv)
  = ChatDetail.process_attachment_try (PDict kv)
  /\ exists pa, ChatDetail.process_attachment_try (PDict kv) = Ok (PDict pa)
                /\ pa <> [].
Proof.
  intros Hne. unfold ChatDetail.process_attachment.
  assert (Ht : py_truthy (PDict kv) = true) by (now destruct kv).
  rewrite Ht. cbn [negb].
  unfold ChatDetail.process_attachment_try. cbn [rbind py_get].
  repeat (first [ rewrite copy_if_truthy_dict | rewrite copy_if_present_dict ];
          cbn [rbind]).
  split; [reflexivity|]. eexists. split; [reflexivity|].
  repeat match goal with
         | |- context [match dict_lookup ?k kv with _ => _ end] =>
             destruct (dict_lookup k kv)
         | |- context [if py_truthy ?v then _ else _] => destruct (py_truthy v)
         end; discriminate.
Qed.

Ltac not_in_keys Hk :=
  repeat match goal with
         | |- context [String.eqb ?k ?lit] =>
             lazymatch goal with
             | H : String.eqb k lit = false |- _ => fail
             | _ =>
                 let E := fresh "E" in
                 assert (E : String.eqb k lit = false)
                   by (apply String.eqb_neq; intros ->; apply Hk; simpl; tauto);
                 rewrite !E
             end
         end.

Lemma attachment_is_projected_aux (kv : list (string * pyval)) :
  kv <> [] ->
  exists pa,
    ChatDetail.process_attachment (PDict kv) = Ok (PDict pa)
    /\ dict_lookup "note" pa = dict_lookup "note" kv.
Proof.
  intros Hne. destruct (process_attachment_dict kv Hne) as (-> & _).
  unfold ChatDetail.process_attachment_try. cbn [rbind py_get].
  repeat (first [ rewrite copy_if_truthy_dict | rewrite copy_if_present_dict ];
          cbn [rbind]).
  eexists. split; [reflexivity|].
  rewrite ?lookup_copy, ?lookup_copy_truthy; simpl.
  now destruct (dict_lookup "note" kv).
Qed.

(** X14.  [process_attachment] on a non-empty object is a projection:
    the result always has [fileName], [fileType] and [size] (the stored
    value, or "", "" and 0), has [s3Key] and [data] exactly when the
    stored value is there and truthy, has [displayUrl] and [note]
    exactly when they are stored, each with the stored value, and has
    no other key: a field the function does not name never reaches the
    answer. *)
Theorem attachment_is_projected (kv : list (string * pyval)) :
  kv <> [] ->
  exists pa,
    ChatDetail.process_attachment (PDict kv) = Ok (PDict pa)
    /\ dict_lookup "fileName" pa = Some (field "fileName" (PStr "") (PDict kv))
    /\ dict_lookup "fileType" pa = Some (field "fileType" (PStr "") (PDict kv))
    /\ dict_lookup "size" pa = Some (field "size" (PInt 0) (PDict kv))
    /\ dict_lookup "s3Key" pa = lookup_truthy "s3Key" kv
    /\ dict_lookup "data" pa = lookup_truthy "data" kv
    /\ dict_lookup "displayUrl" pa = dict_lookup "displayUrl" kv
    /\ dict_lookup "note" pa = dict_lookup "note" kv
    /\ forall k, ~ In k ATTACHMENT_KEYS -> dict_lookup k pa = None.
Proof.
  intros Hne. destruct (process_attachment_dict kv Hne) as (-> & _).
  unfold ChatDetail.process_attachment_try. cbn [rbind py_get].
  repeat (first [ rewrite copy_if_truthy_dict | rewrite copy_if_present_dict ];
          cbn [rbind]).
  eexists. split; [reflexivity|].
  unfold field. cbn [py_get].
  repeat split;
    try (rewrite ?lookup_copy, ?lookup_copy_truthy; simpl;
         repeat match goal with
                | |- context [match ?x with _ => _ end] => destruct x
                end; reflexivity).
  intros k Hk. rewrite ?lookup_copy, ?lookup_copy_truthy.
  cbn [dict_lookup]. unfold ATTACHMENT_KEYS in Hk.
  not_in_keys Hk. reflexivity.
Qed.

(** X15.  [process_attachment] on anything that is not a non-empty
    object: a falsy value (missing, [None], "", 0, an empty object)
    gives [None]; a truthy value that is not an object raises
    [AttributeError], out of the [except] block as well, so the
    fallback with the processing-error note is never returned. *)
Theorem attachment_not_an_object (a : pyval) :
  (py_truthy a = false -> ChatDetail.process_attachment a = Ok PNone)
  /\ (py_truthy a = true -> is_dict a = false ->
      ChatDetail.process_attachment a = Raise AttributeError)
  /\ (forall r, ChatDetail.process_attachment a = Ok r ->
        r = PNone
        \/ exists kv pa, a = PDict kv /\ r = PDict pa
                         /\ dict_lookup "note" pa = dict_lookup "note" kv).
Proof.
  split; [|split].
  - intros Hf. unfold ChatDetail.process_attachment. now rewrite Hf.
  - intros Ht Hd. unfold ChatDetail.process_attachment. rewrite Ht.
    destruct a; try discriminate; reflexivity.
  - intros r Hr. destruct (py_truthy a) eqn:Ht.
    + destruct (is_dict a) eqn:Hd.
      * destruct a as [| | | | | |kv]; try discriminate.
        assert (Hne : kv <> []) by (now destruct kv).
        destruct (attachment_is_projected_aux kv Hne) as (pa & Hpa & Hnote).
        rewrite Hpa in Hr. injection Hr as <-. right. eauto.
      * exfalso. revert Hr. unfold ChatDetail.process_attachment. rewrite Ht.
        destruct a; try discriminate; simpl; discriminate.
    + left. revert Hr. unfold ChatDetail.process_attachment. rewrite Ht.
      now intros [= <-].
Qed.

(** X16.  A message object whose attachment is missing, falsy or an
    object never fails sanitization, and the processed message is a
    projection: [id], [role], [content] always (the stored value or
    ""), [mode] and [model] exactly when stored, [attachment] exactly
    when the stored one is truthy (then in its processed form), and no
    other key. *)
Theorem message_is_projected (kv : list (string * pyval)) :
  (forall a, lookup_truthy "attachment" kv = Some a -> is_dict a = true) ->
  exists pm,
    ChatDetail.process_message (PDict kv) = Ok (PDict pm)
    /\ dict_lookup "id" pm = Some (field "id" (PStr "") (PDict kv))
    /\ dict_lookup "role" pm = Some (field "role" (PStr "") (PDict kv))
    /\ dict_lookup "content" pm = Some (field "content" (PStr "") (PDict kv))
    /\ dict_lookup "mode" pm = dict_lookup "mode" kv
    /\ dict_lookup "model" pm = dict_lookup "model" kv
    /\ dict_lookup "attachment" pm
       = match lookup_truthy "attachment" kv with
         | Some a =>
             match ChatDetail.process_attachment a with
             | Ok pa => Some pa
             | Raise _ => None
             end
         | None => None
         end
    /\ forall k, ~ In k MESSAGE_KEYS -> dict_lookup k pm = None.
Proof.
  intros Hatt. unfold ChatDetail.process_message. cbn [rbind py_get].
  rewrite copy_if_present_dict. cbn [rbind].
  rewrite copy_if_present_dict. cbn [rbind py_contains py_getitem].
  set (pm2 := match dict_lookup "model" kv with
              | Some v => dict_set "model" v _
              | None => _
              end).
  assert (Hbase :
    dict_lookup "id" pm2 = Some (field "id" (PStr "") (PDict kv))
    /\ dict_lookup "role" pm2 = Some (field "role" (PStr "") (PDict kv))
    /\ dict_lookup "content" pm2 = Some (field "content" (PStr "") (PDict kv))
    /\ dict_lookup "mode" pm2 = dict_lookup "mode" kv
    /\ dict_lookup "model" pm2 = dict_lookup "model" kv
    /\ dict_lookup "attachment" pm2 = None
    /\ forall k, ~ In k MESSAGE_KEYS -> dict_lookup k pm2 = None).
  { unfold pm2, field. cbn [py_get].
    repeat split;
      try (rewrite ?lookup_copy; simpl;
           repeat match goal with
                  | |- context [match ?x with _ => _ end] => destruct x
                  end; reflexivity).
    intros k Hk. rewrite ?lookup_copy. cbn [dict_lookup].
    unfold MESSAGE_KEYS in Hk. not_in_keys Hk. reflexivity. }
  clearbody pm2.
  destruct Hbase as (Hid & Hrole & Hcontent & Hmode & Hmodel & Hnoatt & Hother).
  unfold lookup_truthy in *.
  destruct (dict_lookup "attachment" kv) as [a|] eqn:Ha; cbn [rbind].
  2:{ exists pm2. simpl. repeat split; auto. }
  destruct (py_truthy a) eqn:Ht; cbn [rbind].
  2:{ exists pm2. repeat split; auto. }
  specialize (Hatt a eq_refl).
  destruct a as [| | | | | |akv]; try discriminate.
  assert (Hne : akv <> []) by (now destruct akv).
  destruct (process_attachment_dict akv Hne) as (Heq & pa & Hpa & Hpane).
  rewrite Heq, Hpa. cbn [rbind].
  assert (Htp : py_truthy (PDict pa) = true) by (now destruct pa).
  rewrite Htp.
  exists (dict_set "attachment" (PDict pa) pm2). split; [reflexivity|].
  rewrite !dict_lookup_set. simpl.
  repeat split; auto.
  intros k Hk. rewrite dict_lookup_set.
  assert (E : String.eqb k "attachment" = false)
    by (apply String.eqb_neq; intros ->; apply Hk; simpl; tauto).
  rewrite E. now apply Hother.
Qed.

(** X17.  Sanitization is idempotent: a processed message, processed
    again, comes out unchanged. *)
Theorem sanitizing_twice_changes_nothing (kv pm : list (string * pyval)) :
  ChatDetail.process_message (PDict kv) = Ok (PDict pm) ->
  ChatDetail.process_message (PDict pm) = Ok (PDict pm).
Proof.
  unfold ChatDetail.process_message at 1. cbn [rbind py_get].
  rewrite copy_if_present_dict. cbn [rbind].
  rewrite copy_if_present_dict. cbn [rbind py_contains py_getitem].
  destruct (dict_lookup "mode" kv) as [mode|];
    destruct (dict_lookup "model" kv) as [model|];
    (destruct (dict_lookup "attachment" kv) as [a|]; cbn [rbind];
     [ destruct (py_truthy a) eqn:Ht; cbn [rbind];
       [ destruct a as [| | | | | |akv];
         try (unfold ChatDetail.process_attachment; rewrite Ht;
              cbn; discriminate);
         unfold ChatDetail.process_attachment; rewrite Ht; cbn [negb];
         unfold ChatDetail.process_attachment_try; cbn [rbind py_get];
         repeat (first [ rewrite copy_if_truthy_dict
                       | rewrite copy_if_present_dict ]; cbn [rbind]);
         destruct (dict_lookup "s3Key" akv) as [s3|];
         [destruct (py_truthy s3) eqn:Hs3|];
         (destruct (dict_lookup "data" akv) as [dt|];
          [destruct (py_truthy dt) eqn:Hdt|]);
         destruct (dict_lookup "displayUrl" akv) as [url|];
         destruct (dict_lookup "note" akv) as [note|]
       | ]
     | ]);
    cbv -[py_truthy]; intros [= <-];
    cbv -[py_truthy]; rewrite ?Hs3, ?Hdt; cbv -[py_truthy];
    rewrite ?Hs3, ?Hdt; reflexivity.
Qed.

(** ** The chat list *)

Lemma chat_list_for_sidebar_dicts chats :
  Forall (fun c => is_dict c = true) chats ->
  ChatList.chat_list_for_sidebar chats = Ok (map sidebar_entry chats).
Proof.
  induction 1 as [|c chats Hc _ IH]; [reflexivity|].
  destruct c as [| | | | | |kv]; try discriminate.
  cbn [ChatList.chat_list_for_sidebar py_get rbind map]. rewrite IH.
  reflexivity.
Qed.

Lemma dumps_items_raises dflt l x e :
  In x l -> json_dumps dflt x = Raise e ->
  exists e', dumps_items dflt l = Raise e'.
Proof.
  induction l as [|y l IH]; [intros []|].
  intros [->|Hin] Hx; cbn [dumps_items].
  - rewrite Hx. eauto.
  - destruct (json_dumps dflt y); cbn [rbind]; [|eauto].
    destruct (IH Hin Hx) as [e' ->]. eauto.
Qed.

Lemma sidebar_entry_plain c :
  str_or_none (field "id" PNone c) = true ->
  str_or_none (field "title" PNone c) = true ->
  json_dumps JSONEncoder_default (sidebar_entry c)
  = Ok (JObj [("id", json_str_or_null (field "id" PNone c));
              ("title", json_str_or_null (field "title" PNone c))]).
Proof.
  intros Hi Ht. unfold sidebar_entry. rewrite json_dumps_PDict.
  cbn [dumps_fields].
  destruct (field "id" PNone c); try discriminate;
    destruct (field "title" PNone c); try discriminate; reflexivity.
Qed.

(** X18.  The chat list prints a chat without [id] or [title] with
    [null] in that place: when the stored chats are objects whose id
    and title are strings or missing, the answer is 200 with one pair
    per chat, in order. *)
Theorem chat_list_prints_missing_fields_as_null (event : pyval)
    (uid : string) (t : Table) (chats : list pyval) :
  claims_sub event = Ok (PStr uid) ->
  available t = true ->
  stored_chats t uid = PList chats ->
  Forall (fun c => is_dict c = true
                   /\ str_or_none (field "id" PNone c) = true
                   /\ str_or_none (field "title" PNone c) = true) chats ->
  fst (ChatList.lambda_handler event t)
  = mkResponse 200 ChatList.success_headers
      (JsonText
         (JArr (map (fun c =>
                       JObj [("id", json_str_or_null (field "id" PNone c));
                             ("title",
                              json_str_or_null (field "title" PNone c))])
                  chats))).
Proof.
  intros Hc Ha Hs Hall.
  rewrite (list_on_table _ _ _ Hc Ha), Hs. cbn [fst py_iter rbind].
  rewrite chat_list_for_sidebar_dicts
    by (eapply List.Forall_impl; [|exact Hall]; now intros c (H1 & _)).
  cbn [rbind]. rewrite json_dumps_PList.
  assert (Hj : dumps_items JSONEncoder_default (map sidebar_entry chats)
               = Ok (map (fun c =>
                            JObj [("id", json_str_or_null (field "id" PNone c));
                                  ("title",
                                   json_str_or_null (field "title" PNone c))])
                       chats)).
  { clear Hs. induction Hall as [|c chats (_ & Hi & Ht) _ IH]; [reflexivity|].
    cbn [map dumps_items]. rewrite (sidebar_entry_plain c Hi Ht).
    cbn [rbind]. now rewrite IH. }
  now rewrite Hj.
Qed.

(** X19.  The chat list serializes without the decimal encoder: if the
    [id] or the [title] of any stored chat is a number, the whole
    request is answered with the generic 500 and no list. *)
Theorem chat_list_number_is_500 (event : pyval) (uid : string) (t : Table)
    (chats : list pyval) (c : pyval) (d : Decimal) :
  claims_sub event = Ok (PStr uid) ->
  available t = true ->
  stored_chats t uid = PList chats ->
  Forall (fun c => is_dict c = true) chats ->
  In c chats ->
  field "id" PNone c = PDec d \/ field "title" PNone c = PDec d ->
  fst (ChatList.lambda_handler event t) = ChatList.failure_response.
Proof.
  intros Hc Ha Hs Hall Hin Hnum.
  rewrite (list_on_table _ _ _ Hc Ha), Hs. cbn [fst py_iter rbind].
  rewrite (chat_list_for_sidebar_dicts _ Hall). cbn [rbind].
  rewrite json_dumps_PList.
  assert (Hbad : exists e, json_dumps JSONEncoder_default (sidebar_entry c)
                           = Raise e).
  { unfold sidebar_entry. rewrite json_dumps_PDict. cbn [dumps_fields].
    destruct Hnum as [-> | ->].
    - exists TypeError. reflexivity.
    - destruct (json_dumps JSONEncoder_default (field "id" PNone c));
        cbn [rbind]; eauto. }
  destruct Hbad as [e He].
  destruct (dumps_items_raises JSONEncoder_default (map sidebar_entry chats)
              (sidebar_entry c) e (in_map _ _ _ Hin) He) as [e' ->].
  reflexivity.
Qed.

(** X20.  The chat list only reads: for every event and table it
    leaves the items as they were, sends no write and at most one
    read; and it looks at nothing of the event but the identity claim,
    so OPTIONS, POST or a missing method are answered like GET. *)
Theorem chat_list_only_reads (event : pyval) (t : Table) :
  items (snd (ChatList.lambda_handler event t)) = items t
  /\ writes (snd (ChatList.lambda_handler event t)) = writes t
  /\ (calls (snd (ChatList.lambda_handler event t)) = calls t
      \/ exists user_id,
           claims_sub event = Ok user_id
           /\ calls (snd (ChatList.lambda_handler event t))
              = (calls t ++ [GetItem (user_key user_id)])%list)
  /\ forall event',
       claims_sub event' = claims_sub event ->
       ChatList.lambda_handler event' t = ChatList.lambda_handler event t.
Proof.
  assert (Hind : forall event',
             claims_sub event' = claims_sub event ->
             ChatList.lambda_handler event' t = ChatList.lambda_handler event t).
  { intros event' He. unfold ChatList.lambda_handler, ChatList.handler_try.
    now rewrite He. }
  unfold ChatList.lambda_handler, ChatList.handler_try in *.
  destruct (claims_sub event) as [user_id|e] eqn:Hc.
  - simpl get_item in *.
    destruct (table_get_item_effect (user_key user_id) t) as (Hi & Hw & _ & Hcalls).
    destruct (table_get_item (user_key user_id) t) as [r t1].
    cbn [fst snd] in *.
    assert (Hsnd : forall (x : result Response),
               snd (match x with
                    | Ok resp => (resp, t1)
                    | Raise _ => (ChatList.failure_response, t1)
                    end) = t1) by (now intros [|]).
    rewrite Hsnd. repeat split; auto. right. eauto.
  - cbn [fst snd]. repeat split; auto.
Qed.

(** ** Reads are confined to the caller's record *)

(** X21.  What GET and the chat list answer depends on the table only
    through the chats stored for the caller: two available tables that
    agree there get the same answer, whatever else they hold. *)
Theorem answers_depend_on_own_chats_only (event : pyval) (uid : string)
    (cid : pyval) (t1 t2 : Table) :
  claims_sub event = Ok (PStr uid) ->
  available t1 = true -> available t2 = true ->
  stored_chats t1 uid = stored_chats t2 uid ->
  fst (ChatList.lambda_handler event t1) = fst (ChatList.lambda_handler event t2)
  /\ (ChatDetail.resolve_http_method event = Ok (Some "GET") ->
      ChatDetail.path_chat_id event = Ok cid ->
      fst (ChatDetail.lambda_handler event t1)
      = fst (ChatDetail.lambda_handler event t2)).
Proof.
  intros Hc Ha1 Ha2 Hs. split.
  - now rewrite (list_on_table _ _ _ Hc Ha1), (list_on_table _ _ _ Hc Ha2), Hs.
  - intros Hr Hp. unfold ChatDetail.lambda_handler.
    rewrite (get_on_table _ _ _ _ Hr Hc Hp Ha1),
      (get_on_table _ _ _ _ Hr Hc Hp Ha2), Hs.
    match goal with
    | |- fst (match ?x with _ => _ end) = _ => destruct x as [?|[]]
    end; reflexivity.
Qed.

(** ** The decimal encoder *)

(** X22.  Within the precision of the decimal context (an integer part
    below [10^28]) the encoder answers an integer for a whole value,
    equal to it, and a float for any other value. *)
Theorem decimal_encoder_within_precision (d : Decimal) :
  0 <= dcoef d ->
  Z.abs (dec_to_int d) < 10 ^ PREC ->
  (dec_whole d = true ->
     DecimalEncoder_default d = Ok (EInt (dec_to_int d))
     /\ dec_eqb (dec_of_Z (dec_to_int d)) d = true)
  /\ (dec_whole d = false -> DecimalEncoder_default d = Ok (EFloat d)).
Proof.
  intros Hc Hr. pose proof (encoder_in_range d Hc Hr) as He.
  split; intros Hw; rewrite Hw in He; [|assumption].
  split; [assumption | now apply whole_int_exact].
Qed.

(** X23.  Beyond that precision (an integer part of [10^28] or more)
    the encoder raises [InvalidOperation] for every decimal, whole or
    not, and so does the serialization of any list that holds one. *)
Theorem decimal_encoder_beyond_precision (d : Decimal) (l : list pyval) :
  0 <= dcoef d ->
  10 ^ PREC <= Z.abs (dec_to_int d) ->
  DecimalEncoder_default d = Raise InvalidOperation
  /\ (In (PDec d) l ->
      exists e, json_dumps DecimalEncoder_default (PList l) = Raise e).
Proof.
  intros Hc Hr. pose proof (encoder_out_of_range d Hc Hr) as He.
  split; [assumption|]. intros Hin.
  assert (Hd : json_dumps DecimalEncoder_default (PDec d)
               = Raise InvalidOperation).
  { unfold json_dumps. now rewrite He. }
  destruct (dumps_items_raises _ _ _ _ Hin Hd) as [e' He'].
  exists e'. now rewrite json_dumps_PList, He'.
Qed.

(** ** A top-level method that is no method *)

(** X24.  A top-level [httpMethod] ends the detection even when its
    value is no method: a falsy one ([None], "") is answered 400 "HTTP
    method not found" although [requestContext] may carry a method, and
    a truthy one that is not a string is answered 500.  The store is
    not called. *)
Theorem top_level_method_decides {St : Type} `{Store St}
    (kv : list (string * pyval)) (v : pyval) (s : St) :
  dict_lookup "httpMethod" kv = Some v ->
  (py_truthy v = false ->
   (forall rc, dict_lookup "requestContext" kv = Some rc -> is_dict rc = true) ->
   ChatDetail.lambda_handler (PDict kv) s
   = (mkResponse 400 ChatDetail.cors_headers
        (JsonText (method_not_found_doc (PDict kv))), s))
  /\ (py_truthy v = true -> (forall m, v <> PStr m) ->
      ChatDetail.lambda_handler (PDict kv) s
      = (mkResponse 500 ChatDetail.cors_headers
           (JsonText (JObj [("error", JStr "Internal server error")])), s)).
Proof.
  intros Hv.
  assert (Hprobe : ChatDetail.probe_http_method (PDict kv) = Ok v).
  { unfold ChatDetail.probe_http_method. cbn [py_contains py_getitem rbind].
    now rewrite Hv. }
  split.
  - intros Hf Hrc.
    assert (Hr : ChatDetail.resolve_http_method (PDict kv) = Ok None).
    { unfold ChatDetail.resolve_http_method. rewrite Hprobe. cbn [rbind].
      rewrite Hf. cbn [py_keys py_contains py_getitem rbind].
      destruct (dict_lookup "requestContext" kv) as [rc|] eqn:E;
        [|reflexivity].
      specialize (Hrc rc eq_refl).
      destruct rc; try discriminate. reflexivity. }
    unfold ChatDetail.lambda_handler, ChatDetail.handler_try.
    rewrite Hr, (resolve_none_body _ Hr). reflexivity.
  - intros Ht Hns.
    assert (Hr : ChatDetail.resolve_http_method (PDict kv)
                 = Raise AttributeError).
    { unfold ChatDetail.resolve_http_method. rewrite Hprobe. cbn [rbind].
      rewrite Ht. destruct v; try reflexivity. now destruct (Hns s0). }
    unfold ChatDetail.lambda_handler, ChatDetail.handler_try.
    now rewrite Hr.
Qed.

(** ** The further properties at the sample data *)

Lemma unsupported_method_is_405_witness :
  ChatDetail.resolve_http_method (Sample.request "patch" "u1" "c1")
  = Ok (Some "PATCH")
  /\ claims_sub (Sample.request "patch" "u1" "c1") = Ok (PStr "u1")
  /\ ChatDetail.lambda_handler (Sample.request "patch" "u1" "c1") Sample.table
     = (mkResponse 405 ChatDetail.cors_headers
          (JsonText (JObj [("error", JStr "Method PATCH not allowed")])),
        Sample.table).
Proof.
  repeat (split; [evaluate|]).
  exact (unsupported_method_is_405 (Sample.request "patch" "u1" "c1") "PATCH"
           (PStr "u1") Sample.table ltac:(evaluate) ltac:(discriminate)
           ltac:(discriminate) ltac:(discriminate) ltac:(evaluate)).
Defined.

Lemma missing_chat_id_is_400_witness :
  ChatDetail.resolve_http_method (Cases.request_without_path "DELETE" "u1")
  = Ok (Some "DELETE")
  /\ ChatDetail.path_chat_id (Cases.request_without_path "DELETE" "u1")
     = Raise (KeyError "'pathParameters'")
  /\ ChatDetail.lambda_handler (Cases.request_without_path "DELETE" "u1")
       Sample.table
     = (mkResponse 400 ChatDetail.cors_headers
          (JsonText
             (JObj [("error", JStr "Chat ID not found in path parameters")])),
        Sample.table).
Proof.
  repeat (split; [evaluate|]).
  exact (missing_chat_id_is_400 (Cases.request_without_path "DELETE" "u1")
           "DELETE" (PStr "u1") (KeyError "'pathParameters'") Sample.table
           ltac:(evaluate) (or_intror eq_refl) ltac:(evaluate) ltac:(evaluate)).
Defined.

Lemma read_failure_response_witness :
  ChatDetail.lambda_handler (Sample.request "GET" "u1" "c1") Sample.table_down
  = (mkResponse 500 ChatDetail.cors_headers
       (JsonText (JObj [("error", JStr "Internal server error")])),
     record_call (GetItem (user_key (PStr "u1"))) Sample.table_down)
  /\ @ChatDetail.lambda_handler Table Cases.key_error_store
       (Sample.request "DELETE" "u1" "c1") Sample.table
     = (mkResponse 400 ChatDetail.cors_headers
          (JsonText
             (JObj [("error",
                     JStr "Missing required parameters: 'Table'")])),
        record_call (GetItem (user_key (PStr "u1"))) Sample.table).
Proof.
  split.
  - exact (read_failure_response (Sample.request "GET" "u1" "c1") "GET"
             (PStr "u1") (PStr "c1") (ClientError "ServiceUnavailable")
             Sample.table_down _ ltac:(evaluate) (or_introl eq_refl)
             ltac:(evaluate) ltac:(evaluate) ltac:(evaluate)).
  - exact (@read_failure_response Table Cases.key_error_store
             (Sample.request "DELETE" "u1" "c1") "DELETE"
             (PStr "u1") (PStr "c1") (KeyError "'Table'")
             Sample.table _ ltac:(evaluate) (or_intror eq_refl)
             ltac:(evaluate) ltac:(evaluate) ltac:(evaluate)).
Defined.

Lemma write_failure_response_witness :
  ChatDetail.chats_to_write
    (PDict [("Item", PDict (Sample.item "u1" Sample.chats_u1))]) (PStr "c1")
  = Ok (Some [Sample.chat "c2" "T2" []])
  /\ fst (@ChatDetail.lambda_handler Table Cases.read_only_store
            (Sample.request "DELETE" "u1" "c1") Sample.table)
     = mkResponse 500 ChatDetail.cors_headers
         (JsonText (JObj [("error", JStr "Internal server error")]))
  /\ items (snd (@ChatDetail.lambda_handler Table Cases.read_only_store
                   (Sample.request "DELETE" "u1" "c1") Sample.table))
     = items Sample.table.
Proof.
  split; [evaluate|].
  assert (Hh := @write_failure_response Table Cases.read_only_store
                  (Sample.request "DELETE" "u1" "c1") (PStr "u1") (PStr "c1")
                  (PDict [("Item", PDict (Sample.item "u1" Sample.chats_u1))])
                  [Sample.chat "c2" "T2" []]
                  (ClientError "AccessDeniedException")
                  Sample.table _ _ ltac:(evaluate) ltac:(evaluate)
                  ltac:(evaluate) ltac:(evaluate) ltac:(evaluate)
                  ltac:(evaluate)).
  rewrite Hh. split; reflexivity.
Defined.

Lemma only_successful_delete_writes_witness :
  ChatDetail.resolve_http_method (Sample.request "GET" "u1" "c1")
  <> Ok (Some "DELETE")
  /\ items (snd (ChatDetail.lambda_handler (Sample.request "GET" "u1" "c1")
                   Sample.table)) = items Sample.table
  /\ writes (snd (ChatDetail.lambda_handler (Sample.request "GET" "u1" "c1")
                    Sample.table)) = writes Sample.table.
Proof.
  assert (Hm : ChatDetail.resolve_http_method (Sample.request "GET" "u1" "c1")
               <> Ok (Some "DELETE")) by (vm_compute; discriminate).
  split; [exact Hm|].
  exact (only_successful_delete_writes (Sample.request "GET" "u1" "c1")
           Sample.table (or_introl Hm)).
Defined.

Lemma other_users_untouched_witness :
  claims_sub (Sample.request "DELETE" "u1" "c1") <> Ok (PStr "u2")
  /\ statusCode (fst (ChatDetail.lambda_handler
                        (Sample.request "DELETE" "u1" "c1") Sample.table))
     = 200
  /\ items (snd (ChatDetail.lambda_handler (Sample.request "DELETE" "u1" "c1")
                   Sample.table)) !! "u2"
     = items Sample.table !! "u2".
Proof.
  split; [evaluate|]. split; [evaluate|].
  exact (other_users_untouched (Sample.request "DELETE" "u1" "c1")
           Sample.table "u2" ltac:(evaluate)).
Defined.

Lemma record_only_shrinks_witness :
  items Sample.table !! "u1" = Some (Sample.item "u1" Sample.chats_u1)
  /\ exists item',
       items (snd (ChatDetail.lambda_handler
                     (Sample.request "DELETE" "u1" "c1") Sample.table)) !! "u1"
       = Some item'
       /\ dict_lookup "userId" item' = Some (PStr "u1").
Proof.
  split; [evaluate|].
  destruct (record_only_shrinks (Sample.request "DELETE" "u1" "c1")
              Sample.table "u1") as (_ & Hkeep & _).
  destruct (Hkeep _ ltac:(evaluate)) as (item' & Hi & Hk).
  exists item'. split; [exact Hi|].
  now rewrite (Hk "userId" ltac:(discriminate)).
Defined.

Lemma detail_answers_are_cors_json_witness :
  body (fst (ChatDetail.lambda_handler (Sample.anonymous_request "options" "c1")
               Sample.table)) = Text ""
  /\ ChatDetail.resolve_http_method (Sample.anonymous_request "options" "c1")
     = Ok (Some "OPTIONS")
  /\ headers (fst (ChatDetail.lambda_handler Sample.methodless_request
                     Sample.table)) = ChatDetail.cors_headers.
Proof.
  split; [evaluate|].
  destruct (detail_answers_are_cors_json
              (Sample.anonymous_request "options" "c1") Sample.table)
    as (_ & Hb).
  split; [exact (proj2 (proj2 (Hb "" ltac:(evaluate))))|].
  exact (proj1 (detail_answers_are_cors_json Sample.methodless_request
                  Sample.table)).
Defined.

Lemma malformed_event_is_500_witness :
  event_malformed Cases.request_text_context = true
  /\ ChatDetail.lambda_handler Cases.request_text_context Sample.table
     = (mkResponse 500 ChatDetail.cors_headers
          (JsonText (JObj [("error", JStr "Internal server error")])),
        Sample.table).
Proof.
  split; [evaluate|].
  exact (malformed_event_is_500 Cases.request_text_context Sample.table
           ltac:(evaluate)).
Defined.

Lemma get_absent_chat_is_404_witness :
  stored_chats Sample.table "u9" = PList []
  /\ exists t',
       ChatDetail.lambda_handler (Sample.request "GET" "u9" "c1") Sample.table
       = (mkResponse 404 ChatDetail.cors_headers
            (JsonText (JObj [("error", JStr "Chat not found")])), t')
       /\ items t' = items Sample.table
       /\ calls t' = [GetItem (user_key (PStr "u9"))].
Proof.
  split; [evaluate|].
  exact (get_absent_chat_is_404 (Sample.request "GET" "u9" "c1") "u9"
           (PStr "c1") Sample.table [] ltac:(evaluate) ltac:(evaluate)
           ltac:(evaluate) ltac:(evaluate) ltac:(evaluate) ltac:(evaluate)
           ltac:(evaluate)).
Defined.

Lemma get_answers_from_first_match_witness :
  stored_chats Sample.table "u2"
  = PList ([] ++ Sample.chat "c1" "A" [Sample.message "m1" "user" "a"]
              :: [Sample.chat "c2" "B" [Sample.message "m2" "user" "b"];
                  Sample.chat "c1" "C" [Sample.message "m3" "user" "c"]])
  /\ fst (ChatDetail.lambda_handler (Sample.request "GET" "u2" "c1")
            Sample.table)
     = mkResponse 200 ChatDetail.cors_headers
         (JsonText (JArr [JObj [("id", JStr "m1"); ("role", JStr "user");
                                ("content", JStr "a")]])).
Proof.
  split; [evaluate|].
  assert (Henc : Forall encodable [Sample.message "m1" "user" "a"])
    by (repeat constructor; eexists; vm_compute; reflexivity).
  destruct (get_answers_from_first_match (Sample.request "GET" "u2" "c1") "u2"
              (PStr "c1") Sample.table []
              [Sample.chat "c2" "B" [Sample.message "m2" "user" "b"];
               Sample.chat "c1" "C" [Sample.message "m3" "user" "c"]]
              [("id", PStr "c1"); ("title", PStr "A");
               ("messages", PList [Sample.message "m1" "user" "a"])]
              [Sample.message "m1" "user" "a"]
              ltac:(evaluate) ltac:(evaluate) ltac:(evaluate) ltac:(evaluate)
              ltac:(evaluate) ltac:(evaluate) ltac:(evaluate) ltac:(evaluate)
              ltac:(evaluate) ltac:(discriminate) ltac:(evaluate) Henc)
    as (js & Hh & Hlen & Hnth).
  rewrite Hh. cbn [fst]. do 3 f_equal.
  destruct js as [|j [|j' js]]; try discriminate.
  destruct (Hnth 0%nat _ eq_refl) as (j0 & Hj0 & Hd).
  injection Hj0 as <-. vm_compute in Hd. congruence.
Defined.

Lemma deleted_chat_is_gone_witness :
  statusCode (fst (ChatDetail.lambda_handler
                     (Sample.request "DELETE" "u1" "c1") Sample.table)) = 200
  /\ fst (ChatDetail.lambda_handler (Sample.request "GET" "u1" "c1")
            (snd (ChatDetail.lambda_handler
                    (Sample.request "DELETE" "u1" "c1") Sample.table)))
     = mkResponse 404 ChatDetail.cors_headers
         (JsonText (JObj [("error", JStr "Chat not found")]))
  /\ fst (ChatList.lambda_handler (Sample.anonymous_request "GET" "c1")
            Sample.table) = ChatList.failure_response
  /\ fst (ChatList.lambda_handler (Sample.request "GET" "u1" "c1")
            (snd (ChatDetail.lambda_handler
                    (Sample.request "DELETE" "u1" "c1") Sample.table)))
     = mkResponse 200 ChatList.success_headers
         (JsonText (JArr [JObj [("id", JStr "c2"); ("title", JStr "T2")]])).
Proof.
  split; [evaluate|].
  assert (Hchats : Forall2 (fun c p => chat_with (fst p) (snd p) c)
                      Sample.chats_u1 [("c1", "T1"); ("c2", "T2")])
    by (repeat constructor; eexists; repeat split; reflexivity).
  destruct (deleted_chat_is_gone (Sample.request "DELETE" "u1" "c1")
              (Sample.request "GET" "u1" "c1") (Sample.request "GET" "u1" "c1")
              "u1" "c1" Sample.table _ _ Sample.chats_u1
              [("c1", "T1"); ("c2", "T2")]
              ltac:(evaluate) ltac:(evaluate) ltac:(evaluate) ltac:(evaluate)
              ltac:(evaluate) ltac:(evaluate) ltac:(evaluate) ltac:(evaluate)
              Hchats (surjective_pairing _) ltac:(evaluate))
    as (Hget & Hlist).
  split; [exact Hget|]. split; [evaluate|]. exact Hlist.
Defined.

Lemma delete_keeps_other_chats_witness :
  statusCode (fst (ChatDetail.lambda_handler
                     (Sample.request "DELETE" "u1" "c2") Sample.table)) = 200
  /\ statusCode (fst (ChatDetail.lambda_handler
                        (Sample.request "GET" "u1" "c1") Sample.table)) = 200
  /\ fst (ChatDetail.lambda_handler (Sample.request "GET" "u1" "c1")
            (snd (ChatDetail.lambda_handler
                    (Sample.request "DELETE" "u1" "c2") Sample.table)))
     = fst (ChatDetail.lambda_handler (Sample.request "GET" "u1" "c1")
              Sample.table).
Proof.
  split; [evaluate|]. split; [evaluate|].
  assert (Hids : Forall (fun c => exists i, chat_id_is i c) Sample.chats_u1)
    by (repeat constructor; eexists; eexists; split; reflexivity).
  exact (delete_keeps_other_chats (Sample.request "DELETE" "u1" "c2")
           (Sample.request "GET" "u1" "c1") "u1" "c2" "c1" Sample.table _ _
           Sample.chats_u1
           ltac:(evaluate) ltac:(evaluate) ltac:(evaluate) ltac:(evaluate)
           ltac:(evaluate) ltac:(evaluate) ltac:(discriminate) ltac:(evaluate)
           Hids (surjective_pairing _) ltac:(evaluate)).
Defined.

Lemma attachment_is_projected_witness :
  Cases.attachment_full <> []
  /\ exists pa,
       ChatDetail.process_attachment (PDict Cases.attachment_full)
       = Ok (PDict pa)
       /\ dict_lookup "s3Key" pa = None
       /\ dict_lookup "data" pa = Some (PStr "aGVsbG8=")
       /\ dict_lookup "uploader" pa = None.
Proof.
  split; [discriminate|].
  destruct (attachment_is_projected Cases.attachment_full ltac:(discriminate))
    as (pa & Hpa & _ & _ & _ & Hs3 & Hdata & _ & _ & Hother).
  exists pa. split; [exact Hpa|]. split; [exact Hs3|]. split; [exact Hdata|].
  apply Hother. unfold ATTACHMENT_KEYS. simpl.
  intros H; repeat destruct H as [H|H]; discriminate || exact H.
Defined.

Lemma attachment_not_an_object_witness :
  py_truthy (PStr "") = false
  /\ ChatDetail.process_attachment (PStr "") = Ok PNone
  /\ py_truthy (PStr "report.pdf") = true
  /\ ChatDetail.process_attachment (PStr "report.pdf") = Raise AttributeError.
Proof.
  split; [evaluate|].
  split; [exact (proj1 (attachment_not_an_object (PStr "")) eq_refl)|].
  split; [evaluate|].
  exact (proj1 (proj2 (attachment_not_an_object (PStr "report.pdf")))
           eq_refl eq_refl).
Defined.

Lemma message_is_projected_witness :
  lookup_truthy "attachment" Cases.message_full
  = Some (PDict Cases.attachment_full)
  /\ exists pm,
       ChatDetail.process_message (PDict Cases.message_full) = Ok (PDict pm)
       /\ dict_lookup "mode" pm = Some (PStr "rag")
       /\ dict_lookup "model" pm = None
       /\ dict_lookup "timestamp" pm = None.
Proof.
  split; [evaluate|].
  destruct (message_is_projected Cases.message_full) as
    (pm & Hpm & _ & _ & _ & Hmode & Hmodel & _ & Hother).
  { intros a [= <-]. reflexivity. }
  exists pm. split; [exact Hpm|]. split; [exact Hmode|].
  split; [exact Hmodel|].
  apply Hother. unfold MESSAGE_KEYS. simpl.
  intros H; repeat destruct H as [H|H]; discriminate || exact H.
Defined.

Lemma chat_list_prints_missing_fields_as_null_witness :
  stored_chats Cases.table_numbered "u5" = PList [PDict [("id", PStr "c1")]]
  /\ fst (ChatList.lambda_handler (Sample.request "GET" "u5" "c1")
            Cases.table_numbered)
     = mkResponse 200 ChatList.success_headers
         (JsonText (JArr [JObj [("id", JStr "c1"); ("title", JNull)]])).
Proof.
  split; [evaluate|].
  exact (chat_list_prints_missing_fields_as_null
           (Sample.request "GET" "u5" "c1") "u5" Cases.table_numbered
           [PDict [("id", PStr "c1")]]
           ltac:(evaluate) ltac:(evaluate) ltac:(evaluate) ltac:(evaluate)).
Defined.

Lemma chat_list_number_is_500_witness :
  stored_chats Cases.table_numbered "u4" = PList Cases.chats_numbered
  /\ fst (ChatList.lambda_handler (Sample.request "GET" "u4" "c1")
            Cases.table_numbered) = ChatList.failure_response.
Proof.
  split; [evaluate|].
  exact (chat_list_number_is_500 (Sample.request "GET" "u4" "c1") "u4"
           Cases.table_numbered Cases.chats_numbered
           (PDict [("id", PDec (mkDecimal false 7 0)); ("title", PStr "seven")])
           (mkDecimal false 7 0)
           ltac:(evaluate) ltac:(evaluate) ltac:(evaluate) ltac:(evaluate)
           (or_intror (or_introl eq_refl)) (or_introl eq_refl)).
Defined.

Lemma chat_list_only_reads_witness :
  claims_sub (Sample.request "options" "u1" "c9")
  = claims_sub (Sample.request "GET" "u1" "c1")
  /\ ChatList.lambda_handler (Sample.request "options" "u1" "c9") Sample.table
     = ChatList.lambda_handler (Sample.request "GET" "u1" "c1") Sample.table
  /\ writes (snd (ChatList.lambda_handler (Sample.request "GET" "u1" "c1")
                    Sample.table)) = writes Sample.table.
Proof.
  split; [evaluate|].
  destruct (chat_list_only_reads (Sample.request "GET" "u1" "c1") Sample.table)
    as (_ & Hw & _ & Hsame).
  split; [exact (Hsame _ ltac:(evaluate))|]. exact Hw.
Defined.

Lemma answers_depend_on_own_chats_only_witness :
  stored_chats Sample.table "u1" = stored_chats Cases.table_u1 "u1"
  /\ items Sample.table !! "u2" <> items Cases.table_u1 !! "u2"
  /\ fst (ChatList.lambda_handler (Sample.request "GET" "u1" "c1") Sample.table)
     = fst (ChatList.lambda_handler (Sample.request "GET" "u1" "c1")
              Cases.table_u1)
  /\ fst (ChatDetail.lambda_handler (Sample.request "GET" "u1" "c1")
            Sample.table)
     = fst (ChatDetail.lambda_handler (Sample.request "GET" "u1" "c1")
              Cases.table_u1).
Proof.
  split; [evaluate|]. split; [evaluate|].
  destruct (answers_depend_on_own_chats_only (Sample.request "GET" "u1" "c1")
              "u1" (PStr "c1") Sample.table Cases.table_u1
              ltac:(evaluate) ltac:(evaluate) ltac:(evaluate) ltac:(evaluate))
    as (Hl & Hg).
  split; [exact Hl|]. exact (Hg ltac:(evaluate) ltac:(evaluate)).
Defined.

Lemma decimal_encoder_within_precision_witness :
  dec_whole (mkDecimal true 2048 0) = true
  /\ DecimalEncoder_default (mkDecimal true 2048 0) = Ok (EInt (-2048))
  /\ dec_whole (mkDecimal false 150 (-2)) = false
  /\ DecimalEncoder_default (mkDecimal false 150 (-2))
     = Ok (EFloat (mkDecimal false 150 (-2))).
Proof.
  split; [evaluate|].
  split.
  - exact (proj1 (proj1 (decimal_encoder_within_precision
                           (mkDecimal true 2048 0)
                           ltac:(vm_compute; discriminate)
                           ltac:(vm_compute; reflexivity)) eq_refl)).
  - split; [evaluate|].
    exact (proj2 (decimal_encoder_within_precision
                    (mkDecimal false 150 (-2))
                    ltac:(vm_compute; discriminate)
                    ltac:(vm_compute; reflexivity)) eq_refl).
Defined.

Lemma decimal_encoder_beyond_precision_witness :
  dec_whole (mkDecimal false 123456789012345678901234567895 (-1)) = false
  /\ DecimalEncoder_default
       (mkDecimal false 123456789012345678901234567895 (-1))
     = Raise InvalidOperation.
Proof.
  split; [evaluate|].
  exact (proj1 (decimal_encoder_beyond_precision
                  (mkDecimal false 123456789012345678901234567895 (-1)) []
                  ltac:(vm_compute; discriminate)
                  ltac:(vm_compute; discriminate))).
Defined.

Lemma top_level_method_decides_witness :
  spec_probe_method (PDict Cases.request_null_method) = Some PNone
  /\ path_lookup ["requestContext"; "http"; "method"]
       (PDict Cases.request_null_method) = Some (PStr "GET")
  /\ statusCode (fst (ChatDetail.lambda_handler
                        (PDict Cases.request_null_method) Sample.table)) = 400
  /\ statusCode (fst (ChatDetail.lambda_handler
                        (PDict Cases.request_numeric_method) Sample.table))
     = 500.
Proof.
  split; [evaluate|]. split; [evaluate|].
  split.
  - rewrite (proj1 (top_level_method_decides Cases.request_null_method PNone
                      Sample.table eq_refl) eq_refl).
    + reflexivity.
    + intros rc [= <-]. reflexivity.
  - rewrite (proj2 (top_level_method_decides Cases.request_numeric_method
                      (PInt 5) Sample.table eq_refl) eq_refl).
    + reflexivity.
    + discriminate.
Defined.

Lemma sanitizing_twice_changes_nothing_witness :
  exists pm,
    ChatDetail.process_message (PDict Cases.message_full) = Ok (PDict pm)
    /\ dict_lookup "attachment" pm
       = Some (PDict [("fileName", PStr "a.png"); ("fileType", PStr "image/png");
                      ("size", PDec (mkDecimal false 2048 0));
                      ("data", PStr "aGVsbG8=");
                      ("displayUrl", PStr "https://x/a.png");
                      ("note", PStr "resized")])
    /\ ChatDetail.process_message (PDict pm) = Ok (PDict pm).
Proof.
  eexists. split; [vm_compute; reflexivity|]. split; [reflexivity|].
  apply (sanitizing_twice_changes_nothing Cases.message_full).
  vm_compute; reflexivity.
Defined.
